(** * git-doc-mapper: a shallow embedding of [git_doc_mapper.py]

    The script synchronises files of a git working tree with documents of a
    remote document repository.  This development embeds the query builder,
    the remote adaptor's URL validation and response normalisation, the file
    map and the push orchestration, and states the properties of the
    specification against them.

    Conventions of the embedding:
    - a Python [str] is a [string] (a byte string; case mapping and
      whitespace are the ASCII ones);
    - a Python [dict] is an association list in insertion order ([dict V]),
      since iteration order is observable (tag names, first diagnostic);
    - a Python [set] is a [gset string];
    - code that may raise returns a [res]; code that logs, prompts, or runs
      external commands lives in the writer-and-exception monad [M], whose
      first component is the trace of effects performed so far;
    - everything outside the script (the filesystem, the network, the git
      binary, the clock, the operator at the terminal and the library
      functions [json.dumps] and [urljoin]) is read from a record [Env]. *)

From Stdlib Require Import ZArith String Ascii List Lia Permutation Bool.
From stdpp Require Import base strings gmap.
Import ListNotations.

Set Warnings "-register-all".

Local Open Scope string_scope.
Local Open Scope Z_scope.
Local Open Scope list_scope.

(** ** Python strings *)

Module PyStr.

Definition is_upper (c : ascii) : bool :=
  let n := nat_of_ascii c in (Nat.leb 65 n && Nat.leb n 90)%bool.

Definition is_lower (c : ascii) : bool :=
  let n := nat_of_ascii c in (Nat.leb 97 n && Nat.leb n 122)%bool.

Definition is_digit (c : ascii) : bool :=
  let n := nat_of_ascii c in (Nat.leb 48 n && Nat.leb n 57)%bool.

Definition lower_char (c : ascii) : ascii :=
  if is_upper c then ascii_of_nat (nat_of_ascii c + 32) else c.

Definition upper_char (c : ascii) : ascii :=
  if is_lower c then ascii_of_nat (nat_of_ascii c - 32) else c.

(** [str.isspace] on one ASCII character: TAB..CR, FS..US and the space. *)
Definition is_space (c : ascii) : bool :=
  let n := nat_of_ascii c in
  ((Nat.leb 9 n && Nat.leb n 13) || (Nat.leb 28 n && Nat.leb n 32))%bool.

Fixpoint map_chars (f : ascii -> ascii) (s : string) : string :=
  match s with
  | EmptyString => EmptyString
  | String c r => String (f c) (map_chars f r)
  end.

(** [s.lower()] and [s.upper()]. *)
Definition lower (s : string) : string := map_chars lower_char s.
Definition upper (s : string) : string := map_chars upper_char s.

Fixpoint rev_acc (s acc : string) : string :=
  match s with
  | EmptyString => acc
  | String c r => rev_acc r (String c acc)
  end.

Definition rev (s : string) : string := rev_acc s EmptyString.

(** [s.lstrip(chars)], with the stripped characters given as a predicate. *)
Fixpoint lstrip_by (p : ascii -> bool) (s : string) : string :=
  match s with
  | EmptyString => EmptyString
  | String c r => if p c then lstrip_by p r else s
  end.

Definition rstrip_by (p : ascii -> bool) (s : string) : string :=
  rev (lstrip_by p (rev s)).

Definition strip_by (p : ascii -> bool) (s : string) : string :=
  rstrip_by p (lstrip_by p s).

(** [s.strip()], [s.strip(c)] and [s.rstrip(c)] for a one-character [c]. *)
Definition strip (s : string) : string := strip_by is_space s.
Definition strip_char (c : ascii) (s : string) : string := strip_by (Ascii.eqb c) s.
Definition rstrip_char (c : ascii) (s : string) : string := rstrip_by (Ascii.eqb c) s.

(** [s.startswith(p)]. *)
Fixpoint startswith (p s : string) : bool :=
  match p, s with
  | EmptyString, _ => true
  | String a p', String b s' => (Ascii.eqb a b && startswith p' s')%bool
  | String _ _, EmptyString => false
  end.

(** [sub in s]. *)
Fixpoint contains (sub s : string) : bool :=
  (startswith sub s ||
   match s with
   | EmptyString => false
   | String _ r => contains sub r
   end)%bool.

(** [s.split(c)] for a one-character separator: never the empty list. *)
Fixpoint split (c : ascii) (s : string) : list string :=
  match s with
  | EmptyString => [EmptyString]
  | String a r =>
      if Ascii.eqb a c then EmptyString :: split c r
      else match split c r with
           | [] => [String a EmptyString]
           | h :: t => String a h :: t
           end
  end.

(** [s.replace(c, '')] for a one-character [c]. *)
Fixpoint remove_char (c : ascii) (s : string) : string :=
  match s with
  | EmptyString => EmptyString
  | String a r => if Ascii.eqb a c then remove_char c r else String a (remove_char c r)
  end.

(** [sep.join(l)]. *)
Fixpoint join (sep : string) (l : list string) : string :=
  match l with
  | [] => EmptyString
  | [x] => x
  | x :: r => x ++ sep ++ join sep r
  end.

(** Truth value of a string: non-empty. *)
Definition nonempty (s : string) : bool :=
  match s with EmptyString => false | String _ _ => true end.

End PyStr.

(** ** Python values, dictionaries, exceptions *)

(** A [dict] with string keys, in insertion order. *)
Definition dict (V : Type) : Type := list (string * V).

(** The JSON-shaped values the script handles: what [response.json()] can
    return, the text of a response, and [None]. *)
Inductive pyval : Type :=
  | PNone
  | PBool (b : bool)
  | PInt (z : Z)
  | PStr (s : string)
  | PList (l : list pyval)
  | PDict (d : dict pyval).

(** [bool(v)], as tested by [if v:]. *)
Definition truthy (v : pyval) : bool :=
  match v with
  | PNone => false
  | PBool b => b
  | PInt z => negb (z =? 0)
  | PStr s => PyStr.nonempty s
  | PList l => match l with [] => false | _ => true end
  | PDict d => match d with [] => false | _ => true end
  end.

Module Dict.
Section Ops.
Context {V : Type}.

(** [d.get(k)]. *)
Fixpoint get (k : string) (d : dict V) : option V :=
  match d with
  | [] => None
  | (k', v) :: r => if String.eqb k k' then Some v else get k r
  end.

(** [d[k] = v]: an existing key keeps its position, a new key goes last. *)
Fixpoint set (k : string) (v : V) (d : dict V) : dict V :=
  match d with
  | [] => [(k, v)]
  | (k', v') :: r =>
      if String.eqb k k' then (k, v) :: r else (k', v') :: set k v r
  end.

(** [d.keys()] and [k in d]. *)
Definition keys (d : dict V) : list string := map fst d.

Definition mem (k : string) (d : dict V) : bool :=
  match get k d with Some _ => true | None => false end.

(** Keys are pairwise distinct: every Python [dict] satisfies it. *)
Definition wf (d : dict V) : Prop := NoDup (keys d).

(** The dictionary obtained by assigning the pairs of [l] from left to
    right to the dictionary [d]. *)
Definition set_all (l : list (string * V)) (d : dict V) : dict V :=
  fold_left (fun acc kv => set (fst kv) (snd kv) acc) l d.
End Ops.
End Dict.

(** Exception classes the script raises or catches, with the subclass
    relation of Python and of [requests]: its [RequestException] derives
    from [IOError], an alias of [OSError], and its [JSONDecodeError] also
    from [ValueError]. *)
Inductive exn_class : Type :=
  | Exception
  | RequestException | HTTPError | ConnectionError | JSONDecodeError
  | OSError | FileNotFoundError | IsADirectoryError | NotADirectoryError
  | PermissionError
  | ValueError | TypeError | AttributeError | KeyError | UnboundLocalError
  | CalledProcessError.

Definition exn_class_eqb (a b : exn_class) : bool :=
  match a, b with
  | Exception, Exception
  | RequestException, RequestException | HTTPError, HTTPError
  | ConnectionError, ConnectionError | JSONDecodeError, JSONDecodeError
  | OSError, OSError | FileNotFoundError, FileNotFoundError
  | IsADirectoryError, IsADirectoryError
  | NotADirectoryError, NotADirectoryError
  | PermissionError, PermissionError
  | ValueError, ValueError | TypeError, TypeError
  | AttributeError, AttributeError | KeyError, KeyError
  | UnboundLocalError, UnboundLocalError
  | CalledProcessError, CalledProcessError => true
  | _, _ => false
  end.

(** The direct base classes. *)
Definition bases (c : exn_class) : list exn_class :=
  match c with
  | Exception => []
  | HTTPError | ConnectionError => [RequestException]
  | JSONDecodeError => [RequestException; ValueError]
  | RequestException => [OSError]
  | FileNotFoundError | IsADirectoryError | NotADirectoryError
  | PermissionError => [OSError]
  | _ => [Exception]
  end.

Fixpoint issubclass_upto (depth : nat) (c parent : exn_class) : bool :=
  (exn_class_eqb c parent ||
   match depth with
   | O => false
   | S d => existsb (fun b => issubclass_upto d b parent) (bases c)
   end)%bool.

(** [issubclass(c, parent)]; no chain of bases is longer than three. *)
Definition issubclass (c parent : exn_class) : bool := issubclass_upto 3 c parent.

(** The pieces of an f-string: literal text and interpolated values. *)
Inductive piece : Type :=
  | Lit (s : string)
  | Val (v : pyval)
  | Num (z : Z)
  | Strs (l : list string)
  | StrSet (s : gset string).

Definition fstring : Type := list piece.

(** A raised exception: its class and its message ([str(e)]). *)
Record exn : Type := Exn { exn_cls : exn_class; exn_msg : fstring }.

(** [except classes as e]: does the clause catch [e]? *)
Definition caught_by (classes : list exn_class) (e : exn) : bool :=
  existsb (issubclass (exn_cls e)) classes.

Inductive res (A : Type) : Type :=
  | Ok (a : A)
  | Raise (e : exn).
Arguments Ok {A} a.
Arguments Raise {A} e.

(** ** Effects *)

Inductive level : Type := DEBUG | INFO | ERROR.

(** One form field of a multipart upload: [(filename, contents, media type)]. *)
Definition FileField : Type := (option string * string * string)%type.

Inductive event : Type :=
  | Log (lvl : level) (msg : fstring)
  | Input (prompt : string)
  | Run (argv : list string)
  | Post (url : string) (params : dict string) (files : dict FileField)
  | Mirror (source target : string)
  | WriteFile (path contents : string).

(** A computation: the effects it performed, then its value or the
    exception that ended it. *)
Definition M (A : Type) : Type := (list event * res A)%type.

Definition ret {A} (a : A) : M A := ([], Ok a).
Definition raise {A} (e : exn) : M A := ([], Raise e).
Definition emit (ev : event) : M unit := ([ev], Ok tt).
Definition lift {A} (r : res A) : M A := ([], r).

Definition bind {A B} (m : M A) (k : A -> M B) : M B :=
  match m with
  | (t, Ok a) => let '(t', r) := k a in (t ++ t', r)
  | (t, Raise e) => (t, Raise e)
  end.

(** One [except classes as e: handler e] clause. *)
Definition clause (A : Type) : Type := (list exn_class * (exn -> M A))%type.

Fixpoint dispatch {A} (e : exn) (clauses : list (clause A)) : option (M A) :=
  match clauses with
  | [] => None
  | (classes, h) :: rest =>
      if caught_by classes e then Some (h e) else dispatch e rest
  end.

(** [try: m] followed by [except] clauses, the first matching one taken. *)
Definition try_except {A} (m : M A) (clauses : list (clause A)) : M A :=
  match m with
  | (t, Raise e) =>
      match dispatch e clauses with
      | Some h => let '(t', r) := h in (t ++ t', r)
      | None => (t, Raise e)
      end
  | _ => m
  end.

Notation "x <- m ;; k" := (bind m (fun x => k))
  (at level 100, m at next level, right associativity).
Notation "m ;;; k" := (bind m (fun _ => k))
  (at level 100, right associativity).

(** A [for] loop threading the variables it assigns through its body. *)
Fixpoint for_each {A S} (body : S -> A -> M S) (l : list A) (s : S) : M S :=
  match l with
  | [] => ret s
  | a :: r => s' <- body s a ;; for_each body r s'
  end.

Definition log_debug (msg : fstring) : M unit := emit (Log DEBUG msg).
Definition log_info (msg : fstring) : M unit := emit (Log INFO msg).
Definition log_error (msg : fstring) : M unit := emit (Log ERROR msg).

Definition trace {A} (m : M A) : list event := fst m.
Definition result {A} (m : M A) : res A := snd m.

(** The error-level entries of a trace. *)
Definition errors (t : list event) : list fstring :=
  flat_map (fun ev => match ev with Log ERROR msg => [msg] | _ => [] end) t.

(** ** Query builder *)

(** [SortDirectionEnum] and the string each member serialises to. *)
Inductive SortDirectionEnum : Type := ASCENDING | DESCENDING | UNSPECIFIED.

Definition SortDirectionEnum_value (d : SortDirectionEnum) : string :=
  match d with
  | ASCENDING => "ASCENDING"
  | DESCENDING => "DESCENDING"
  | UNSPECIFIED => "UNSPECIFIED"
  end.

Inductive SQLOperatorEnum : Type :=
  | BETWEEN | CONTAINS | CURRENT_USER | CURRENT_USER_EMPLOYEE
  | CURRENT_USER_SHOP | EMPTY | ENDS_WITH | EQUAL | EQUAL_COLUMN
  | EQUAL_OR_NULL | EXISTS | GREATERTHAN | GREATERTHAN_COLUMN
  | GREATERTHANOREQUAL | GREATERTHANOREQUAL_COLUMN
  | GREATERTHANPERCENT_COLUMN | IN | INLAST | INNEXT | LESSTHAN
  | LESSTHAN_COLUMN | LESSTHANOREQUAL | LESSTHANOREQUAL_COLUMN
  | LESSTHANPERCENT_COLUMN | LIKE | MATCH_ALL | MATCH_ANY | NEWERTHAN
  | NOT_CONTAINS | NOT_EMPTY | NOT_EXISTS | NOT_EXPIRED | NOT_IN
  | NOT_LIKE | NOT_NULL | NOTEQUAL | NULL | OLDERTHAN | REALLY_EQUAL
  | REALLY_GREATERTHANOREQUAL | REALLY_LESSTHANOREQUAL | STARTS_WITH
  | WITHIN.

Definition SQLOperatorEnum_value (o : SQLOperatorEnum) : string :=
  match o with
  | BETWEEN => "BETWEEN" | CONTAINS => "CONTAINS"
  | CURRENT_USER => "CURRENT_USER"
  | CURRENT_USER_EMPLOYEE => "CURRENT_USER_EMPLOYEE"
  | CURRENT_USER_SHOP => "CURRENT_USER_SHOP"
  | EMPTY => "EMPTY" | ENDS_WITH => "ENDS_WITH" | EQUAL => "EQUAL"
  | EQUAL_COLUMN => "EQUAL_COLUMN" | EQUAL_OR_NULL => "EQUAL_OR_NULL"
  | EXISTS => "EXISTS" | GREATERTHAN => "GREATERTHAN"
  | GREATERTHAN_COLUMN => "GREATERTHAN_COLUMN"
  | GREATERTHANOREQUAL => "GREATERTHANOREQUAL"
  | GREATERTHANOREQUAL_COLUMN => "GREATERTHANOREQUAL_COLUMN"
  | GREATERTHANPERCENT_COLUMN => "GREATERTHANPERCENT_COLUMN"
  | IN => "IN" | INLAST => "INLAST" | INNEXT => "INNEXT"
  | LESSTHAN => "LESSTHAN" | LESSTHAN_COLUMN => "LESSTHAN_COLUMN"
  | LESSTHANOREQUAL => "LESSTHANOREQUAL"
  | LESSTHANOREQUAL_COLUMN => "LESSTHANOREQUAL_COLUMN"
  | LESSTHANPERCENT_COLUMN => "LESSTHANPERCENT_COLUMN"
  | LIKE => "LIKE" | MATCH_ALL => "MATCH_ALL" | MATCH_ANY => "MATCH_ANY"
  | NEWERTHAN => "NEWERTHAN" | NOT_CONTAINS => "NOT_CONTAINS"
  | NOT_EMPTY => "NOT_EMPTY" | NOT_EXISTS => "NOT_EXISTS"
  | NOT_EXPIRED => "NOT_EXPIRED" | NOT_IN => "NOT_IN"
  | NOT_LIKE => "NOT_LIKE" | NOT_NULL => "NOT_NULL"
  | NOTEQUAL => "NOTEQUAL" | NULL => "NULL" | OLDERTHAN => "OLDERTHAN"
  | REALLY_EQUAL => "REALLY_EQUAL"
  | REALLY_GREATERTHANOREQUAL => "REALLY_GREATERTHANOREQUAL"
  | REALLY_LESSTHANOREQUAL => "REALLY_LESSTHANOREQUAL"
  | STARTS_WITH => "STARTS_WITH" | WITHIN => "WITHIN"
  end.

Module ColumnSpecification.
Record t : Type := mk { property : string; direction : SortDirectionEnum }.

(** [__init__(property, direction=SortDirectionEnum.UNSPECIFIED)]. *)
Definition init (property : string) (direction : option SortDirectionEnum) : t :=
  mk property (default UNSPECIFIED direction).

Definition to_dict (c : t) : pyval :=
  PDict [("property", PStr (property c));
         ("direction", PStr (SortDirectionEnum_value (direction c)))].
End ColumnSpecification.

(** The two filter classes, [AttributeSQL] and [AttributeEquals], which the
    builder accepts as [Union[AttributeSQL, AttributeEquals]]. *)
Module Attribute.
Inductive t : Type :=
  | AttributeSQL (colName : string) (values : list pyval) (sql_operator : SQLOperatorEnum)
  | AttributeEquals (colName : string) (value : string).

Definition colName (a : t) : string :=
  match a with
  | AttributeSQL c _ _ => c
  | AttributeEquals c _ => c
  end.

Definition to_dict (a : t) : pyval :=
  match a with
  | AttributeSQL c vs op =>
      PDict [(c, PDict [("values", PList vs);
                        ("sqlOperator", PStr (SQLOperatorEnum_value op))])]
  | AttributeEquals c v => PDict [(c, PStr v)]
  end.
End Attribute.

Module FindListQueryBuilder.
(** The two nested list builders are the lists they wrap. *)
Record t : Type := mk {
  start : Z;
  batch_size : Z;
  column_specifications : list ColumnSpecification.t;
  query : list Attribute.t
}.

(** A method of the builder: reads and possibly updates the object. *)
Definition method (A : Type) : Type := t -> A * t.

(** [__init__(start=0, batch_size=500)]. *)
Definition init (start batch_size : option Z) : t :=
  mk (default 0 start) (default 500 batch_size) [] [].

(** [list.append] on the wrapped list. *)
Definition add_column_spec (c : ColumnSpecification.t) : method unit :=
  fun b => (tt, mk (start b) (batch_size b) (column_specifications b ++ [c]) (query b)).

Definition add_attribute (a : Attribute.t) : method unit :=
  fun b => (tt, mk (start b) (batch_size b) (column_specifications b) (query b ++ [a])).

(** [ColumnSpecificationListBuilder.to_list] and
    [AttributeListBuilder.to_dict]. *)
Definition columns_to_list (cs : list ColumnSpecification.t) : pyval :=
  PList (map ColumnSpecification.to_dict cs).

Definition attributes_to_dict (q : list Attribute.t) : pyval :=
  PDict [("attributes", PList (map Attribute.to_dict q))].

Definition to_dict : method pyval :=
  fun b =>
    (PDict [("start", PInt (start b));
            ("batchSize", PInt (batch_size b));
            ("columnSpecifications", columns_to_list (column_specifications b));
            ("query", attributes_to_dict (query b))],
     b).






End FindListQueryBuilder.

(** ** Remote adaptor *)

(** [urllib.parse.urlparse], after CPython 3.11: the scheme is the text
    before the first colon when it starts with a letter and consists of
    scheme characters; a following [//] opens the network location, which
    runs to the next [/], [?] or [#]; then the fragment, the query and, for
    the schemes that use them, the parameters of the last path segment are
    cut off.  Unbalanced brackets in the network location raise
    [ValueError]; so does a text between balanced brackets that is neither
    an IPvFuture nor an IPv6 address, and a network location that is not
    ASCII and gains one of [/?#@:] under NFKC normalisation.  The two
    library functions that these checks call, [ipaddress.ip_address] and
    [unicodedata.normalize], are parameters. *)
Module UrlParse.
Record ParseResult : Type := mk {
  scheme : string;
  netloc : string;
  path : string;
  params : string;
  query : string;
  fragment : string
}.

(** [(s[:i], s[i:])] for the first [i] with [p s[i]], or [(s, '')]. *)
Fixpoint break (p : ascii -> bool) (s : string) : string * string :=
  match s with
  | EmptyString => (EmptyString, EmptyString)
  | String c r =>
      if p c then (EmptyString, s)
      else let '(a, b) := break p r in (String c a, b)
  end.

Fixpoint all_chars (p : ascii -> bool) (s : string) : bool :=
  match s with
  | EmptyString => true
  | String c r => (p c && all_chars p r)%bool
  end.

Fixpoint has_char (c : ascii) (s : string) : bool :=
  match s with
  | EmptyString => false
  | String a r => (Ascii.eqb a c || has_char c r)%bool
  end.

(** [s.split(c, 1)] when [c in s]: the text before and after the first [c]. *)
Definition cut (c : ascii) (s : string) : string * string :=
  let '(a, b) := break (Ascii.eqb c) s in
  match b with
  | EmptyString => (a, EmptyString)
  | String _ r => (a, r)
  end.

Definition is_alpha (c : ascii) : bool := (PyStr.is_upper c || PyStr.is_lower c)%bool.

Definition scheme_char (c : ascii) : bool :=
  (is_alpha c || PyStr.is_digit c ||
   Ascii.eqb c "+" || Ascii.eqb c "-" || Ascii.eqb c ".")%bool.

Definition c0_or_space (c : ascii) : bool := Nat.leb (nat_of_ascii c) 32.

Definition unsafe_byte (c : ascii) : bool :=
  let n := nat_of_ascii c in (Nat.eqb n 9 || Nat.eqb n 10 || Nat.eqb n 13)%bool.

Fixpoint remove_by (p : ascii -> bool) (s : string) : string :=
  match s with
  | EmptyString => EmptyString
  | String a r => if p a then remove_by p r else String a (remove_by p r)
  end.

Definition uses_params : list string :=
  [""; "ftp"; "hdl"; "prospero"; "http"; "imap"; "https"; "shttp"; "rtsp";
   "rtspu"; "sip"; "sips"; "mms"; "sftp"; "tel"].

Definition netloc_delim (c : ascii) : bool :=
  (Ascii.eqb c "/" || Ascii.eqb c "?" || Ascii.eqb c "#")%bool.

(** [_splitparams]: the parameters start at the first [;] of the last
    path segment. *)
Definition splitparams (url : string) : string * string :=
  let segs := PyStr.split "/" url in
  let last_seg := List.last segs EmptyString in
  if has_char ";" last_seg then
    let '(a, b) := cut ";" last_seg in
    (PyStr.join "/" (List.removelast segs ++ [a]), b)
  else (url, EmptyString).

Definition is_ascii (c : ascii) : bool := Nat.ltb (nat_of_ascii c) 128.

Definition is_hex (c : ascii) : bool :=
  let n := nat_of_ascii c in
  (PyStr.is_digit c || (Nat.leb 97 n && Nat.leb n 102) || (Nat.leb 65 n && Nat.leb n 70))%bool.

(** [re.match(r"\Av[a-fA-F0-9]+\..+\Z", hostname)]: a [v], one or more
    hexadecimal digits, a dot, and one or more characters none of which
    is a line feed. *)
Definition is_ipvfuture (hostname : string) : bool :=
  match hostname with
  | String "v" (String c _ as r) =>
      (is_hex c &&
       match PyStr.lstrip_by is_hex r with
       | String "." rest =>
           PyStr.nonempty rest && negb (has_char (ascii_of_nat 10) rest)
       | _ => false
       end)%bool
  | _ => false
  end.

(** What [ipaddress.ip_address] returns. *)
Inductive ip_version : Type := IPv4 | IPv6.

Section WithLibraries.
(* [ipaddress.ip_address(s)]: the kind of the address, or the exception
   of the library *)
Variable ip_address : string -> res ip_version.
(* [unicodedata.normalize('NFKC', s)] *)
Variable normalize_NFKC : string -> string.

(** [_check_bracketed_host]. *)
Definition check_bracketed_host (hostname : string) : res unit :=
  if PyStr.startswith "v" hostname then
    if is_ipvfuture hostname then Ok tt
    else Raise (Exn ValueError [Lit "IPvFuture address is invalid"])
  else
    match ip_address hostname with
    | Raise e => Raise e
    | Ok IPv4 => Raise (Exn ValueError [Lit "An IPv4 address cannot be in brackets"])
    | Ok IPv6 => Ok tt
    end.

(** [_checknetloc]. *)
Definition checknetloc (netloc : string) : res unit :=
  if (negb (PyStr.nonempty netloc) || all_chars is_ascii netloc)%bool then Ok tt
  else
    let n := PyStr.remove_char "?" (PyStr.remove_char "#"
               (PyStr.remove_char ":" (PyStr.remove_char "@" netloc))) in
    let netloc2 := normalize_NFKC n in
    if String.eqb n netloc2 then Ok tt
    else if existsb (fun c => has_char c netloc2) ["/"; "?"; "#"; "@"; ":"]%char then
      Raise (Exn ValueError
               [Lit "netloc '"; Lit netloc;
                Lit "' contains invalid characters under NFKC normalization"])
    else Ok tt.

Definition urlparse (url0 : string) : res ParseResult :=
  let url := remove_by unsafe_byte (PyStr.lstrip_by c0_or_space url0) in
  let '(sch, url) :=
    let '(before, rest) := break (Ascii.eqb ":") url in
    match before, rest with
    | String c _, String _ after =>
        if (is_alpha c && all_chars scheme_char before)%bool
        then (PyStr.lower before, after)
        else (EmptyString, url)
    | _, _ => (EmptyString, url)
    end in
  let '(nl, url) :=
    match url with
    | String "/" (String "/" r) => break netloc_delim r
    | _ => (EmptyString, url)
    end in
  if xorb (has_char "[" nl) (has_char "]" nl)
  then Raise (Exn ValueError [Lit "Invalid IPv6 URL"])
  else
    match (if (has_char "[" nl && has_char "]" nl)%bool
           then check_bracketed_host (fst (cut "]" (snd (cut "[" nl))))
           else Ok tt) with
    | Raise e => Raise e
    | Ok _ =>
        let '(url, frag) := cut "#" url in
        let '(url, qry) := cut "?" url in
        match checknetloc nl with
        | Raise e => Raise e
        | Ok _ =>
            let '(url, prm) :=
              if (existsb (String.eqb sch) uses_params && has_char ";" url)%bool
              then splitparams url else (url, EmptyString) in
            Ok (mk sch nl url prm qry frag)
        end
    end.
End WithLibraries.
End UrlParse.

(** A [requests.Response], with what the two library parsers make of its
    body: [json] is the value of [response.json()], or [None] when the call
    raises [requests.exceptions.JSONDecodeError]; [soup_body_text] is [None]
    when [BeautifulSoup(response.text, 'html.parser')] finds no [body]
    element, and otherwise that element's [get_text] with line feeds between
    the stripped pieces of text. *)
Module Response.
Record t : Type := mk {
  status_code : Z;
  content_type : option string;
  text : string;
  json : option pyval;
  soup_body_text : option string
}.

(** The call [response.json()]. *)
Definition call_json (r : t) : res pyval :=
  match json r with
  | Some v => Ok v
  | None => Raise (Exn JSONDecodeError [Lit "Expecting value"])
  end.
End Response.

Module APIAdaptor.
Record t : Type := mk {
  url : string;
  webservice_id : string;
  auth : string * string
}.

Section WithLibraries.
Variable ip_address : string -> res UrlParse.ip_version.
Variable normalize_NFKC : string -> string.

Definition _validate_url (url : string) : res string :=
  match UrlParse.urlparse ip_address normalize_NFKC url with
  | Raise e => Raise e
  | Ok parsed_url =>
      let path_parts := PyStr.split "/" (PyStr.strip_char "/" (UrlParse.path parsed_url)) in
      if negb (PyStr.nonempty (UrlParse.netloc parsed_url)) then
        Raise (Exn ValueError [Lit "URL domain is invalid: "; Lit (UrlParse.netloc parsed_url);
                               Lit "; "; Lit url])
      else if negb (String.eqb (UrlParse.scheme parsed_url) "https") then
        Raise (Exn ValueError [Lit "URL scheme is not `https`; "; Lit url])
      else
        match path_parts with
        | [] =>
            Raise (Exn ValueError [Lit "URL path is empty or does not contain `fmax`: ";
                                   Strs path_parts; Lit "; "; Lit url])
        | first :: _ =>
            if negb (PyStr.contains "fmax" first) then
              Raise (Exn ValueError [Lit "URL path is empty or does not contain `fmax`: ";
                                     Strs path_parts; Lit "; "; Lit url])
            else Ok (PyStr.rstrip_char "/" url ++ "/")%string
        end
  end.

(** [__init__]. *)
Definition init (url webservice_id username password : string) : M t :=
  u <- lift (_validate_url url) ;;
  log_info [Lit "Initialized API connector with URL ["; Lit url; Lit "]"] ;;;
  ret (mk u webservice_id (username, password)).
End WithLibraries.

Definition _parse_contents (response : Response.t) : M pyval :=
  let content_type := PyStr.lower (default "" (Response.content_type response)) in
  let contents :=
    if PyStr.nonempty (Response.text response) then PStr (Response.text response)
    else PNone in
  if (PyStr.contains "text/html" content_type ||
      PyStr.contains "application/xhtml+xml" content_type)%bool then
    match Response.soup_body_text response with
    | Some body_text => ret (PStr body_text)
    | None => ret contents
    end
  else if PyStr.contains "application/json" content_type then
    try_except (lift (Response.call_json response))
      [([JSONDecodeError],
        fun _ =>
          log_error [Lit "Error while parsing JSON from response with Content-Type: ";
                     Lit content_type] ;;;
          ret contents)]
  else ret contents.

Definition _response_hander (response : Response.t) : M pyval :=
  contents <- _parse_contents response ;;
  let status_code := Response.status_code response in
  if ((200 <=? status_code) && (status_code <=? 299))%bool then ret contents
  else if status_code =? 400 then
    raise (Exn HTTPError
             [Lit "Bad request: HTTP Error 400: Server error message: "; Val contents])
  else if status_code =? 401 then
    raise (Exn HTTPError
             [Lit "Invalid auth: HTTP Error 401: Error connecting to server: "; Val contents])
  else
    raise (Exn RequestException
             [Lit "Response error: Status code "; Num status_code; Lit ": "; Val contents]).
End APIAdaptor.

(** ** The world outside the script *)

(** [os.path.join] and [pathlib.Path(a, b)] on POSIX paths (an absolute
    second part replaces the first), and [Path(p).name], the last component
    that is neither empty nor a dot. *)
Module PyPath.
Definition endswith_slash (a : string) : bool :=
  match PyStr.rev a with
  | String "/" _ => true
  | _ => false
  end.

Definition join (a b : string) : string :=
  (if PyStr.startswith "/" b then b
   else if (negb (PyStr.nonempty a) || endswith_slash a)%bool then a ++ b
   else a ++ "/" ++ b)%string.

Definition is_part (seg : string) : bool :=
  (PyStr.nonempty seg && negb (String.eqb seg "."))%bool.

Definition name (p : string) : string :=
  List.last (List.filter is_part (PyStr.split "/" p)) EmptyString.
End PyPath.

(** A naive [datetime], as returned by [datetime.now()]. *)
Module DateTime.
Record t : Type := mk {
  year : N; month : N; day : N;
  hour : N; minute : N; second : N;
  microsecond : N
}.

Definition digit (n : N) : ascii := ascii_of_N (48 + n mod 10).

Definition pad2 (n : N) : string :=
  String (digit (n / 10)) (String (digit n) EmptyString).

Definition pad4 (n : N) : string :=
  String (digit (n / 1000)) (String (digit (n / 100)) (pad2 n)).

Definition pad6 (n : N) : string :=
  String (digit (n / 100000)) (String (digit (n / 10000)) (pad4 n)).

(** [d.isoformat()]: the fraction is printed only when it is not zero. *)
Definition isoformat (d : t) : string :=
  (pad4 (year d) ++ "-" ++ pad2 (month d) ++ "-" ++ pad2 (day d) ++ "T" ++
   pad2 (hour d) ++ ":" ++ pad2 (minute d) ++ ":" ++ pad2 (second d) ++
   (if N.eqb (microsecond d) 0 then "" else "." ++ pad6 (microsecond d)))%string.
End DateTime.

(** The persisted file map, as [json.load] returns it: the typed shape
    [Dict[str, Dict[str, Dict[str, Any]]]] of the source, every key of
    which may be missing ([dict.get] then returns [None]). *)
Module FileMapJson.
Record target_properties : Type := mk_target {
  _document_profiles : option (dict string);
  _module_directory : option string
}.

Record t : Type := mk { _targets : option (dict target_properties) }.
End FileMapJson.

(** Everything the script reads from its environment.  [config_urls] and
    [config_webservice_ids] are the two sections of [config.ini], a file of
    the repository that is read at import time. *)
Record Env : Type := mkEnv {
  (* the operator's reply to [input(prompt)] *)
  input : string -> string;
  (* [subprocess.run(argv, check=True, ...)]: its stdout, or the exception;
     the message of a [CalledProcessError] is its stderr *)
  subprocess_run : list string -> res string;
  (* [open(path, 'r')] followed by [read()] *)
  open_read : string -> res string;
  (* [open(path, 'w')] followed by a write *)
  open_write : string -> string -> res unit;
  (* [Path.exists], [Path.is_file], [Path.is_dir], [Path.resolve] *)
  path_exists : string -> bool;
  path_is_file : string -> bool;
  path_is_dir : string -> bool;
  path_resolve : string -> string;
  (* [json.load] of the file map at a path *)
  json_load : string -> res FileMapJson.t;
  (* [requests.post(url, auth, params, files)] *)
  requests_post : string -> string * string -> dict string -> dict FileField -> res Response.t;
  (* emptying the directory [target] and copying the items of [source]
     into it, as the two [iterdir] loops of the push do *)
  mirror : string -> string -> res unit;
  (* [datetime.now()] *)
  now : DateTime.t;
  (* [json.dumps(v, indent=indent)] *)
  json_dumps : option nat -> pyval -> string;
  (* [urllib.parse.urljoin] *)
  urljoin : string -> string -> string;
  (* [ipaddress.ip_address] and [unicodedata.normalize('NFKC', s)], which
     [urlparse] calls on bracketed and on non-ASCII hosts *)
  ip_address : string -> res UrlParse.ip_version;
  normalize_NFKC : string -> string;
  config_urls : dict string;
  config_webservice_ids : dict string
}.

Section Cli.
Variable env : Env.

Definition run_cli_command (cli_command : list string) : M (option string) :=
  try_except
    (emit (Run cli_command) ;;;
     stdout <- lift (subprocess_run env cli_command) ;;
     ret (Some (PyStr.strip stdout)))
    [([CalledProcessError],
      fun e =>
        log_error [Lit "Unable to run command: "; Strs cli_command] ;;;
        log_error (Lit "stderr: " :: exn_msg e) ;;;
        ret None);
     ([ValueError],
      fun e => log_error (Lit "Invalid input: " :: exn_msg e) ;;; ret None);
     ([Exception],
      fun e => log_error (Lit "Unexpected exception: " :: exn_msg e) ;;; ret None)].
End Cli.

(** The exception of a method call on [None]. *)
Definition none_has_no (attr : string) : exn :=
  Exn AttributeError [Lit "'NoneType' object has no attribute '"; Lit attr; Lit "'"].

Module UserInputHandler.
Section WithEnv.
Variable env : Env.

Definition _continue (yn : string) (prompt : option string) : M bool :=
  let yn := PyStr.upper yn in
  let y := if String.eqb yn "Y" then "Y" else "y" in
  let n := if String.eqb yn "N" then "N" else "n" in
  let head :=
    match prompt with
    | Some p => if PyStr.nonempty p then (p ++ " ")%string else ""
    | None => ""
    end in
  let prompt := (head ++ "Continue? (" ++ y ++ "/" ++ n ++ "): ")%string in
  emit (Input prompt) ;;;
  let choice := PyStr.upper (PyStr.strip (input env prompt)) in
  ret (if String.eqb yn "Y" then negb (String.eqb choice "N")
       else String.eqb choice "Y").

Definition continue_Yn (prompt : option string) : M bool := _continue "Y" prompt.
Definition continue_yN (prompt : option string) : M bool := _continue "N" prompt.
End WithEnv.
End UserInputHandler.

(** ** File map *)

Module FileMap.
Record t : Type := mk { tldir : string; filemap : FileMapJson.t }.

(** The diagnostics of [_validate_map_files]. *)
Definition file_missing (filename target : string) : exn :=
  Exn FileNotFoundError
    [Lit "File "; Lit filename; Lit " is in document profiles for target ";
     Lit target; Lit " but does not exist on disk."].

Definition target_dir_missing (resolved target : string) : exn :=
  Exn FileNotFoundError
    [Lit "Module directory `"; Lit resolved;
     Lit "` does not exist or is not a directory on "; Lit target].

Definition local_dir_missing (resolved : string) : exn :=
  Exn FileNotFoundError
    [Lit "Module directory `"; Lit resolved;
     Lit "` does not exist or is not a directory in local git TLD"].

Definition _get_filemap_template : pyval :=
  PDict [("_targets",
          PDict [("<target name>",
                  PDict [("_document_profiles",
                          PDict [("<filename>", PStr "<document profile id>")]);
                         ("_module_directory", PStr "<module directory path>")])])].

Section WithEnv.
Variable env : Env.

Definition map_has_all_targets (self : t) (api_connections : dict APIAdaptor.t) : M bool :=
  let api_set : gset string := list_to_set (Dict.keys api_connections) in
  match FileMapJson._targets (filemap self) with
  | None => raise (none_has_no "keys")
  | Some targets =>
      let map_set : gset string := list_to_set (Dict.keys targets) in
      if bool_decide (api_set ⊆ map_set) then ret true
      else
        log_error [Lit "File map is missing servers: "; StrSet (api_set ∖ map_set)] ;;;
        ret false
  end.

Definition get_mapped_files (self : t) (document_profiles : dict string) : M (dict FileField) :=
  for_each
    (fun (files : dict FileField) '(filename, doc_id) =>
       let filepath := PyPath.join (tldir self) filename in
       try_except
         (file_contents <- lift (open_read env filepath) ;;
          log_info [Lit "Added file: "; Lit filepath] ;;;
          ret (Dict.set doc_id (Some filename, file_contents, "text/plain") files))
         [([FileNotFoundError],
           fun e => log_error (Lit "File was not found: " :: exn_msg e) ;;; ret files)])
    document_profiles [].

Definition target_properties (self : t) (target : string) : res FileMapJson.target_properties :=
  match FileMapJson._targets (filemap self) with
  | None => Raise (none_has_no "get")
  | Some targets =>
      match Dict.get target targets with
      | None => Raise (none_has_no "get")
      | Some props => Ok props
      end
  end.

Definition get_document_profiles (self : t) (target : string) : res (option (dict string)) :=
  match target_properties self target with
  | Ok props => Ok (FileMapJson._document_profiles props)
  | Raise e => Raise e
  end.

Definition get_module_directory (self : t) (target : string) : res (option string) :=
  match target_properties self target with
  | Ok props => Ok (FileMapJson._module_directory props)
  | Raise e => Raise e
  end.

(** The check of one file of a target's document profiles. *)
Definition check_profile_file (tld target filename : string) : M unit :=
  let filepath := PyPath.join tld filename in
  if (negb (path_exists env filepath) || negb (path_is_file env filepath))%bool
  then raise (file_missing filename target)
  else ret tt.

(** The check of a target's module directory and of its local twin. *)
Definition check_module_directory (tld target : string) (dirname : option string) : M unit :=
  match dirname with
  | None => ret tt
  | Some dirname =>
      if negb (PyStr.nonempty dirname) then ret tt
      else
        let target_dirpath := dirname in
        if (negb (path_exists env target_dirpath) || negb (path_is_dir env target_dirpath))%bool
        then raise (target_dir_missing (path_resolve env target_dirpath) target)
        else
          log_debug [Lit "Validated "; Lit target; Lit " module directory at `";
                     Lit (path_resolve env target_dirpath); Lit "`"] ;;;
          let local_dirpath := PyPath.join tld (PyPath.name target_dirpath) in
          if (negb (path_exists env local_dirpath) || negb (path_is_dir env local_dirpath))%bool
          then raise (local_dir_missing (path_resolve env local_dirpath))
          else
            log_debug [Lit "Validated local module directory at `";
                       Lit (path_resolve env local_dirpath); Lit "`"]
  end.

Definition validate_target (tld : string) (kv : string * FileMapJson.target_properties) : M unit :=
  let '(target, map) := kv in
  match FileMapJson._document_profiles map with
  | None => raise (none_has_no "keys")
  | Some document_profiles =>
      for_each (fun _ filename => check_profile_file tld target filename)
               (Dict.keys document_profiles) tt ;;;
      log_debug [Lit "Validated all document profiles for "; Lit target] ;;;
      check_module_directory tld target (FileMapJson._module_directory map)
  end.

Definition _validate_map_files (tld : string) (filemap : FileMapJson.t) : M unit :=
  let targets := default [] (FileMapJson._targets filemap) in
  for_each (fun _ kv => validate_target tld kv) targets tt.

(** Both branches raise, so the call never returns. *)
Definition _create_filemap {A} (filepath : string) : M A :=
  go <- UserInputHandler.continue_yN env
          (Some ("Creating new file map at " ++ filepath ++ ".")%string) ;;
  if go then
    emit (WriteFile filepath (json_dumps env (Some 4%nat) _get_filemap_template)) ;;;
    lift (open_write env filepath (json_dumps env (Some 4%nat) _get_filemap_template)) ;;;
    raise (Exn ValueError
             [Lit "Initialize keys and values in new template file map created at $";
              Lit filepath])
  else
    raise (Exn FileNotFoundError
             [Lit "Create a file map at "; Lit filepath; Lit " before continuing."]).

Definition _load_filemap (tld filename : string) : M FileMapJson.t :=
  let filepath := PyPath.join tld filename in
  if (path_exists env filepath && path_is_file env filepath)%bool then
    filemap <- lift (json_load env filepath) ;;
    log_debug [Lit "Loaded file map at "; Lit filepath] ;;;
    _validate_map_files tld filemap ;;;
    ret filemap
  else _create_filemap filepath.

(** [__init__]: a failed [git rev-parse] leaves [None] for the root, on
    which the path construction raises [TypeError]. *)
Definition init (filename : string) : M t :=
  root <- run_cli_command env ["git"; "rev-parse"; "--show-toplevel"] ;;
  match root with
  | None =>
      raise (Exn TypeError
               [Lit "expected str, bytes or os.PathLike object, not NoneType"])
  | Some tld =>
      filemap <- _load_filemap tld filename ;;
      ret (mk tld filemap)
  end.
End WithEnv.
End FileMap.

(** ** Push *)

Definition res_bind {A B} (r : res A) (k : A -> res B) : res B :=
  match r with
  | Ok a => k a
  | Raise e => Raise e
  end.

(** [for] over a list with a body that may raise but has no other effect. *)
Fixpoint res_fold {A S} (body : S -> A -> res S) (l : list A) (s : S) : res S :=
  match l with
  | [] => Ok s
  | a :: r => res_bind (body s a) (res_fold body r)
  end.

Module PushCommand.
Record t : Type := mk {
  command : string;
  filemap : FileMap.t;
  api_connections : dict APIAdaptor.t;
  allow_uncommitted : bool;
  version : string
}.

(** The variables [_send_all] assigns in its loop: [response] is unbound
    ([None] here) until the first assignment. *)
Record send_state : Type := mk_send {
  response : option pyval;
  target_responses : dict pyval
}.

Section WithEnv.
Variable env : Env.

(** [APIAdaptor.post_files]. *)
Definition post_files (api : APIAdaptor.t) (route : string) (files : dict FileField) : M pyval :=
  let params := [("tranxNum", APIAdaptor.webservice_id api); ("route", route)] in
  let endpoint := urljoin env (APIAdaptor.url api) "actioncode" in
  log_debug [Lit "endpoint: "; Lit endpoint] ;;;
  emit (Post endpoint params files) ;;;
  response <- lift (requests_post env endpoint (APIAdaptor.auth api) params files) ;;
  APIAdaptor._response_hander response.

(** [Command._init_api_connections].  [Dict.get target (config_urls env)]
    stands for the lookup [config['urls'][target]], and likewise for the
    webservice ids; a name without a value raises [KeyError]. *)
Definition _init_api_connections (targets : list string) (username password : string)
  : M (dict APIAdaptor.t) :=
  for_each
    (fun (api_connections : dict APIAdaptor.t) target =>
       match Dict.get target (config_urls env), Dict.get target (config_webservice_ids env) with
       | Some target_url, Some target_webservice_id =>
           api <- APIAdaptor.init (ip_address env) (normalize_NFKC env)
                                  target_url target_webservice_id username password ;;
           ret (Dict.set target api api_connections)
       | _, _ => raise (Exn KeyError [Lit target])
       end)
    targets [].

(** [Command.has_uncommitted_changes]: [len(None)] raises [TypeError]. *)
Definition has_uncommitted_changes (self : t) : M bool :=
  status <- run_cli_command env ["git"; "status"; "--porcelain"] ;;
  match status with
  | None => raise (Exn TypeError [Lit "object of type 'NoneType' has no len()"])
  | Some status => ret (Nat.ltb 0 (String.length status))
  end.

Definition _commit_state_is_valid (self : t) : M bool :=
  dirty <- has_uncommitted_changes self ;;
  if (dirty && negb (allow_uncommitted self))%bool then
    log_error [Lit "Git has uncommitted changes, please commit and try again, or use --allow-uncommitted flag."] ;;;
    ret false
  else ret true.

Definition opt_str (o : option string) : pyval :=
  match o with
  | Some s => PStr s
  | None => PNone
  end.

Definition _get_client_data (self : t) : M (dict pyval) :=
  current_sha <- run_cli_command env ["git"; "rev-parse"; "HEAD"] ;;
  current_branch <- run_cli_command env ["git"; "rev-parse"; "--abbrev-ref"; "HEAD"] ;;
  current_commit_msg <- run_cli_command env ["git"; "log"; "-1"; "--pretty=%B"] ;;
  ret [("current_branch", opt_str current_branch);
       ("current_sha_hash", opt_str current_sha);
       ("current_commit_msg", opt_str current_commit_msg);
       ("version_type", PStr (version self))].

Definition _post_files_to_target (self : t) (target : string) (api : APIAdaptor.t)
           (client_data : dict pyval) : M pyval :=
  profiles <- lift (FileMap.get_document_profiles (filemap self) target) ;;
  match profiles with
  | None => raise (none_has_no "items")
  | Some profiles =>
      mapped_files <- FileMap.get_mapped_files env (filemap self) profiles ;;
      let mapped_files :=
        Dict.set "client_data"
                 (None, json_dumps env None (PDict client_data), "application/json")
                 mapped_files in
      try_except
        (post_files api (command self) mapped_files)
        [([RequestException],
          fun e =>
            log_error (Lit "Error pushing files to endpoint " :: Lit (APIAdaptor.url api)
                         :: Lit ": " :: exn_msg e) ;;;
            ret PNone)]
  end.

(** The per-item debug lines of the two directory loops are not traced;
    [None + '.commit'] raises [TypeError]. *)
Definition _copy_files_to_target (self : t) (target : string) (client_data : dict pyval) : M unit :=
  target_dirname <- lift (FileMap.get_module_directory (filemap self) target) ;;
  if negb (PyStr.nonempty (default "" target_dirname)) then
    log_info [Lit "No modules to copy: `_module_directory` filemap key was null"]
  else
    let target_dir := default "" target_dirname in
    let source_dir := PyPath.join (FileMap.tldir (filemap self)) (PyPath.name target_dir) in
    emit (Mirror source_dir target_dir) ;;;
    lift (mirror env source_dir target_dir) ;;;
    match Dict.get "current_sha_hash" client_data with
    | Some (PStr sha) =>
        let commit_filepath := PyPath.join target_dir (sha ++ ".commit")%string in
        let contents := json_dumps env (Some 4%nat) (PDict client_data) in
        emit (WriteFile commit_filepath contents) ;;;
        lift (open_write env commit_filepath contents) ;;;
        log_debug [Lit "Created .commit file in "; Lit target]
    | Some _ =>
        raise (Exn TypeError [Lit "unsupported operand type(s) for +: 'NoneType' and 'str'"])
    | None => raise (Exn KeyError [Lit "current_sha_hash"])
    end.

(** The two [except] clauses of the loop of [_send_all]; both leave the
    variables of the loop as they are. *)
Definition send_clauses {A} (api : APIAdaptor.t) (target : string) (keep : A) : list (clause A) :=
  [([RequestException],
    fun e =>
      log_error (Lit "Error pushing files to endpoint " :: Lit (APIAdaptor.url api)
                   :: Lit ": " :: exn_msg e) ;;;
      ret keep);
   ([FileNotFoundError; IsADirectoryError; NotADirectoryError; OSError],
    fun e =>
      log_error (Lit "Error copying module files to " :: Lit target
                   :: Lit ": " :: exn_msg e) ;;;
      ret keep)].

(** One iteration.  The [try] block holds two statements under the same
    clauses: an exception of the first leaves [response] as it was and
    skips the second; an exception of the second comes after [response]
    has been assigned. *)
Definition send_one (self : t) (client_data : dict pyval) (st : send_state)
           (kv : string * APIAdaptor.t) : M send_state :=
  let '(target, api) := kv in
  go <- UserInputHandler.continue_Yn env
          (Some ("Sending files to " ++ target ++ ".")%string) ;;
  if negb go then ret st
  else
    posted <- try_except
                (r <- _post_files_to_target self target api client_data ;; ret (Some r))
                (send_clauses api target None) ;;
    response <- match posted with
                | Some r =>
                    try_except (_copy_files_to_target self target client_data)
                               (send_clauses api target tt) ;;;
                    ret (Some r)
                | None => ret (response st)
                end ;;
    match response with
    | None =>
        raise (Exn UnboundLocalError
                 [Lit "cannot access local variable 'response' where it is not associated with a value"])
    | Some r =>
        if truthy r then
          ret (mk_send response (Dict.set target r (target_responses st)))
        else
          log_error [Lit "No response from target: "; Lit target] ;;;
          ret (mk_send response (target_responses st))
    end.

Definition _send_all (self : t) : M (dict pyval) :=
  client_data <- _get_client_data self ;;
  st <- for_each (send_one self client_data) (api_connections self) (mk_send None []) ;;
  ret (target_responses st).

(** The dictionary comprehension that reverses the profiles. *)
Definition reverse_profiles (profiles : dict string) : dict string :=
  Dict.set_all (map (fun '(filename, local_doc_id) => (local_doc_id, filename)) profiles) [].

Definition remap_doc_map (reversed_profiles : dict string) (doc_map : dict pyval) : dict pyval :=
  fold_left
    (fun new_doc_map '(doc_id, doc_ver_map) =>
       match Dict.get doc_id reversed_profiles with
       | Some filename => Dict.set filename doc_ver_map new_doc_map
       | None => Dict.set doc_id doc_ver_map new_doc_map
       end)
    doc_map [].

Definition _remap_target_responses (self : t) (target_responses : dict pyval) : res (dict pyval) :=
  res_fold
    (fun (responses : dict pyval) '(target, doc_map) =>
       res_bind (FileMap.get_document_profiles (filemap self) target) (fun profiles =>
       match profiles with
       | None => Raise (none_has_no "items")
       | Some profiles =>
           match doc_map with
           | PDict doc_map =>
               Ok (Dict.set target (PDict (remap_doc_map (reverse_profiles profiles) doc_map))
                            responses)
           | _ => Raise (Exn AttributeError [Lit "object has no attribute 'items'"])
           end
       end))
    target_responses target_responses.

Definition tag_timestamp (d : DateTime.t) : string :=
  let now := DateTime.isoformat d in
  hd EmptyString (PyStr.split "." (PyStr.remove_char ":" (PyStr.remove_char "-" now))).

Definition tag_name_of (self : t) (target_responses : dict pyval) : string :=
  (command self ++ "." ++ PyStr.join "-" (Dict.keys target_responses) ++ "." ++
   tag_timestamp (now env))%string.

Definition _create_git_tags (self : t) (target_responses : dict pyval) : M unit :=
  let tag_name := tag_name_of self target_responses in
  let tag_msg := json_dumps env (Some 4%nat) (PDict target_responses) in
  run_cli_command env ["git"; "tag"; "-a"; tag_name; "-m"; tag_msg] ;;;
  ret tt.

Definition execute (self : t) : M unit :=
  log_debug [Lit "Executing "; Lit (command self); Lit " command with connections ";
             Strs (Dict.keys (api_connections self))] ;;;
  valid <- _commit_state_is_valid self ;;
  if negb valid then ret tt
  else
    target_responses <- _send_all self ;;
    match target_responses with
    | [] => ret tt
    | _ =>
        processed_responses <- lift (_remap_target_responses self target_responses) ;;
        _create_git_tags self processed_responses
    end.
End WithEnv.
End PushCommand.

(** ** Show *)

(** [type(v).__name__], and the exceptions of an attribute that a value
    does not have and of an index into a value that has none. *)
Definition type_name (v : pyval) : string :=
  match v with
  | PNone => "NoneType"
  | PBool _ => "bool"
  | PInt _ => "int"
  | PStr _ => "str"
  | PList _ => "list"
  | PDict _ => "dict"
  end.

Definition has_no_attribute (v : pyval) (attr : string) : exn :=
  Exn AttributeError
    [Lit ("'" ++ type_name v ++ "' object has no attribute '")%string; Lit attr; Lit "'"].

Definition not_subscriptable (v : pyval) : exn :=
  Exn TypeError [Lit ("'" ++ type_name v ++ "' object is not subscriptable")%string].

Module ShowCommand.
Record t : Type := mk {
  command : string;
  filemap : FileMap.t;
  api_connections : dict APIAdaptor.t
}.

(** [query_results.get('results', None)]. *)
Definition get_results (query_results : pyval) : res pyval :=
  match query_results with
  | PDict d => Ok (default PNone (Dict.get "results" d))
  | v => Raise (has_no_attribute v "get")
  end.

(** [dto_results[0] if dto_results else None]: the first item of a list,
    the first character of a string; a dictionary has no key [0], and a
    number is not subscriptable. *)
Definition first_or_none (dto_results : pyval) : res pyval :=
  if truthy dto_results then
    match dto_results with
    | PList (x :: _) => Ok x
    | PStr (String c _) => Ok (PStr (String c EmptyString))
    | PDict _ => Raise (Exn KeyError [Lit "0"])
    | v => Raise (not_subscriptable v)
    end
  else Ok PNone.

(** The query for the most recent version of a document. *)
Definition key_query (doc_id : string) : FindListQueryBuilder.t :=
  let key_query := FindListQueryBuilder.init (Some 0) (Some 1) in
  let key_query :=
    snd (FindListQueryBuilder.add_attribute (Attribute.AttributeEquals "docId" doc_id)
           key_query) in
  let key_query :=
    snd (FindListQueryBuilder.add_column_spec (ColumnSpecification.init "docId" None)
           key_query) in
  let key_query :=
    snd (FindListQueryBuilder.add_column_spec (ColumnSpecification.init "docVerId" None)
           key_query) in
  let key_query :=
    snd (FindListQueryBuilder.add_column_spec (ColumnSpecification.init "versionLabel" None)
           key_query) in
  let key_query :=
    snd (FindListQueryBuilder.add_column_spec
           (ColumnSpecification.init "editDate" (Some DESCENDING)) key_query) in
  let key_query :=
    snd (FindListQueryBuilder.add_column_spec (ColumnSpecification.init "checkedInBy" None)
           key_query) in
  let key_query :=
    snd (FindListQueryBuilder.add_column_spec
           (ColumnSpecification.init "checkedInComment" None) key_query) in
  snd (FindListQueryBuilder.add_column_spec (ColumnSpecification.init "contentUrl" None)
         key_query).

Section WithEnv.
Variable env : Env.
(* [requests.put(url, json, auth)] *)
Variable requests_put : string -> pyval -> string * string -> res Response.t.

(** [APIAdaptor.find_list]. *)
Definition find_list (api : APIAdaptor.t) (dto_name : string) (query_body : pyval) : M pyval :=
  let endpoint := urljoin env (APIAdaptor.url api) ("crud/dto/list/" ++ dto_name)%string in
  log_debug [Lit (APIAdaptor.url api)] ;;;
  log_debug [Lit endpoint] ;;;
  response <- lift (requests_put endpoint query_body (APIAdaptor.auth api)) ;;
  APIAdaptor._response_hander response.

Definition _get_current_versions_from_target (self : t) (target : string)
           (api : APIAdaptor.t) : M (dict pyval) :=
  profiles <- lift (FileMap.get_document_profiles (filemap self) target) ;;
  let dto_name := "AeDocumentVersion" in
  match profiles with
  | None => raise (none_has_no "items")
  | Some profiles =>
      for_each
        (fun (version_map : dict pyval) '(filename, doc_id) =>
           try_except
             (query_results <-
                find_list api dto_name (fst (FindListQueryBuilder.to_dict (key_query doc_id))) ;;
              dto_results <- lift (get_results query_results) ;;
              doc_ver_keys <- lift (first_or_none dto_results) ;;
              if truthy doc_ver_keys
              then ret (Dict.set filename doc_ver_keys version_map)
              else ret version_map)
             [([RequestException],
               fun e =>
                 log_error (Lit "Error getting most recent version of " :: Lit filename
                              :: Lit " from API: " :: exn_msg e) ;;;
                 ret version_map)])
        profiles []
  end.

Definition _get_current_versions (self : t) : M (dict pyval) :=
  for_each
    (fun (target_responses : dict pyval) '(target, api) =>
       response <- _get_current_versions_from_target self target api ;;
       if truthy (PDict response)
       then ret (Dict.set target (PDict response) target_responses)
       else
         log_error [Lit "No response from target: "; Lit target] ;;;
         ret target_responses)
    (api_connections self) [].
End WithEnv.
End ShowCommand.

(** ** The entry point *)

(** The exception of reading a local variable that has no value. *)
Definition unbound_local (name : string) : exn :=
  Exn UnboundLocalError
    [Lit ("cannot access local variable '" ++ name
          ++ "' where it is not associated with a value")%string].

(** [main], over what [argparse] and the commands do.  [sys.exit] is an
    ending of the script, not an exception that [except] clauses on
    [Exception] classes could catch, so it is a value here: [Exited] for
    the exit of [main] itself and for an exit of [argparse] while the
    arguments are parsed.  The name [e] of an [except ... as e] clause is
    unbound again when the clause ends, and it is never bound when no
    clause was entered: the bare [except] of the last block reads it in
    both cases. *)
Module Main.
Inductive ending : Type :=
  | Returned
  | Exited (status : Z).

Inductive parsed (Command : Type) : Type :=
  | Parsed (command : Command)
  | ArgparseExit (status : Z).
Arguments Parsed {Command} command.
Arguments ArgparseExit {Command} status.

Section WithEnv.
Variable env : Env.
(* [config['general']['map_filename']] *)
Variable MAP_FILENAME : string.
Variables Parser Command : Type.
(* [CommandParser(filemap)], [command_parser.parse_args()],
   [command_parser.parser.print_help()] and [command.execute()] *)
Variable CommandParser : FileMap.t -> M Parser.
Variable parse_args : Parser -> M (parsed Command).
Variable print_help : Parser -> M unit.
Variable execute : Command -> M unit.

Definition main : M ending :=
  filemap <- try_except
               (filemap <- FileMap.init env MAP_FILENAME ;; ret (Some filemap))
               [([FileNotFoundError; ValueError],
                 fun e =>
                   log_error (exn_msg e) ;;;
                   log_error [Lit "Fix file map errors"] ;;;
                   ret None)] ;;
  match filemap with
  | None => ret (Exited 1)
  | Some filemap =>
      command_parser <- CommandParser filemap ;;
      command <- try_except
                   (command <- parse_args command_parser ;; ret (Some command))
                   [([ValueError],
                     fun e =>
                       log_error (exn_msg e) ;;;
                       print_help command_parser ;;;
                       ret None)] ;;
      match command with
      | Some (ArgparseExit status) => ret (Exited status)
      | Some (Parsed command) =>
          try_except (execute command)
                     [([Exception], fun _ => raise (unbound_local "e"))] ;;;
          ret Returned
      | None =>
          try_except (raise (unbound_local "command") : M unit)
                     [([Exception], fun _ => raise (unbound_local "e"))] ;;;
          ret Returned
      end
  end.
End WithEnv.
End Main.

(** ** Notions used in the statements *)



(** The segments of a URL path, as [_validate_url] computes them, and the
    first of them. *)
Definition path_segments (path : string) : list string :=
  PyStr.split "/" (PyStr.strip_char "/" path).

Definition first_segment (path : string) : string := hd EmptyString (path_segments path).

(** The host of a network location that has neither user information nor
    brackets: the text before the port. *)
Definition host_of (netloc : string) : string := fst (UrlParse.cut ":" netloc).




(** What the load-time invariant of the file map forbids: a profile file
    that is no file of the working tree, a module directory that is no
    directory, and a module directory without a directory of the same name
    under the root of the working tree. *)
Inductive violation : Type :=
  | MissingFile (target filename : string)
  | MissingTargetDir (target dirname : string)
  | MissingLocalDir (target dirname : string).

Section Violations.
Variable env : Env.
Variable tld : string.

Definition is_file_on_disk (path : string) : bool :=
  (path_exists env path && path_is_file env path)%bool.

Definition is_dir_on_disk (path : string) : bool :=
  (path_exists env path && path_is_dir env path)%bool.

Definition file_violations (target : string) (document_profiles : dict string) : list violation :=
  map (MissingFile target)
      (List.filter (fun filename => negb (is_file_on_disk (PyPath.join tld filename)))
              (Dict.keys document_profiles)).

Definition directory_violations (target : string) (dirname : option string) : list violation :=
  match dirname with
  | None => []
  | Some dirname =>
      if negb (PyStr.nonempty dirname) then []
      else if negb (is_dir_on_disk dirname) then [MissingTargetDir target dirname]
      else if negb (is_dir_on_disk (PyPath.join tld (PyPath.name dirname)))
           then [MissingLocalDir target dirname]
           else []
  end.

(** The violations of a map, in the order of its targets; within a target
    the files come first. *)
Definition target_violations (kv : string * FileMapJson.target_properties) : list violation :=
  file_violations (fst kv) (default [] (FileMapJson._document_profiles (snd kv)))
  ++ directory_violations (fst kv) (FileMapJson._module_directory (snd kv)).

Definition violations (filemap : FileMapJson.t) : list violation :=
  flat_map target_violations (default [] (FileMapJson._targets filemap)).

(** The diagnostic that names a violation: the missing file and its
    target; the module directory, resolved, and its target; the local
    twin of the module directory, resolved. *)
Definition diagnostic (v : violation) : exn :=
  match v with
  | MissingFile target filename =>
      Exn FileNotFoundError
        [Lit "File "; Lit filename; Lit " is in document profiles for target ";
         Lit target; Lit " but does not exist on disk."]
  | MissingTargetDir target dirname =>
      Exn FileNotFoundError
        [Lit "Module directory `"; Lit (path_resolve env dirname);
         Lit "` does not exist or is not a directory on "; Lit target]
  | MissingLocalDir target dirname =>
      Exn FileNotFoundError
        [Lit "Module directory `";
         Lit (path_resolve env (PyPath.join tld (PyPath.name dirname)));
         Lit "` does not exist or is not a directory in local git TLD"]
  end.

(** What a diagnostic names. *)
Definition names (e : exn) (text : string) : Prop := In (Lit text) (exn_msg e).
(** The outcome that the first violation of a list stands for. *)
Definition first_of (vs : list violation) : res unit :=
  match vs with
  | [] => Ok tt
  | v :: _ => Raise (diagnostic v)
  end.

End Violations.

(** Every target record of the map has its table of document profiles. *)
Definition profiles_present (filemap : FileMapJson.t) : Prop :=
  forall target props,
    In (target, props) (default [] (FileMapJson._targets filemap)) ->
    FileMapJson._document_profiles props <> None.

(** The form fields and the log lines that materialising a table of
    document profiles should give: one field per file that can be read,
    one line per file, an error line when it is missing. *)
Section Materialised.
Variable env : Env.
Variable tld : string.

Definition readable_fields (document_profiles : dict string) : list (string * FileField) :=
  flat_map
    (fun '(filename, doc_id) =>
       match open_read env (PyPath.join tld filename) with
       | Ok contents => [(doc_id, (Some filename, contents, "text/plain"))]
       | Raise _ => []
       end)
    document_profiles.

Definition materialise_lines (document_profiles : dict string) : list event :=
  map
    (fun '(filename, _) =>
       match open_read env (PyPath.join tld filename) with
       | Ok _ => Log INFO [Lit "Added file: "; Lit (PyPath.join tld filename)]
       | Raise e => Log ERROR (Lit "File was not found: " :: exn_msg e)
       end)
    document_profiles.

(** Every file of the table can be read or is reported as not found. *)
Definition readable_or_missing (document_profiles : dict string) : Prop :=
  forall filename doc_id,
    In (filename, doc_id) document_profiles ->
    match open_read env (PyPath.join tld filename) with
    | Ok _ => True
    | Raise e => exn_cls e = FileNotFoundError
    end.
End Materialised.

(** The key under which the remap step should file the value of a
    response key: the filename that the profiles map to it when it is one
    of their document identifiers, and the key itself otherwise. *)
Definition translated (profiles : dict string) (key : string) : string :=
  match List.find (fun fd => String.eqb (snd fd) key) profiles with
  | Some fd => fst fd
  | None => key
  end.

(** A response that the remap step can take: a dictionary, of a target
    whose profiles are in the file map. *)
Definition remappable (filemap : FileMap.t) (target : string) (r : pyval) : Prop :=
  exists profiles doc_map,
    FileMap.get_document_profiles filemap target = Ok (Some profiles) /\ r = PDict doc_map.

(** The exception of [len(None)]. *)
Definition len_of_none : exn :=
  Exn TypeError [Lit "object of type 'NoneType' has no len()"].





(** The external commands of a trace, and the tags among them. *)
Definition runs (t : list event) : list (list string) :=
  flat_map (fun ev => match ev with Run argv => [argv] | _ => [] end) t.

Definition is_tag_command (argv : list string) : bool :=
  match argv with
  | "git" :: "tag" :: _ => true
  | _ => false
  end.

Definition tag_commands (t : list event) : list (list string) :=
  List.filter is_tag_command (runs t).

(** The timestamp [YYYYMMDDTHHMMSS] of a clock reading. *)
Definition stamp (d : DateTime.t) : string :=
  (DateTime.pad4 (DateTime.year d) ++ DateTime.pad2 (DateTime.month d) ++
   DateTime.pad2 (DateTime.day d) ++ "T" ++ DateTime.pad2 (DateTime.hour d) ++
   DateTime.pad2 (DateTime.minute d) ++ DateTime.pad2 (DateTime.second d))%string.

(** Failures of the network and of the filesystem, by exception class. *)
Definition is_network_error (c : exn_class) : bool :=
  match c with
  | RequestException | HTTPError | ConnectionError | JSONDecodeError => true
  | _ => false
  end.

Definition is_filesystem_error (c : exn_class) : bool :=
  match c with
  | OSError | FileNotFoundError | IsADirectoryError | NotADirectoryError
  | PermissionError => true
  | _ => false
  end.

(** What a push is expected to do with each of its targets. *)
Section PushNotions.
Variable env : Env.
Variable self : PushCommand.t.

Definition prompt_of (target : string) : string :=
  ("Sending files to " ++ target ++ ". Continue? (Y/n): ")%string.

(** The operator lets the push go on unless the reply is [n] or [N]. *)
Definition accepted (target : string) : bool :=
  negb (String.eqb (PyStr.upper (PyStr.strip (input env (prompt_of target)))) "N").

(** The stripped output of a git command, [None] when it fails. *)
Definition git_output (argv : list string) : option string :=
  match subprocess_run env argv with
  | Ok out => Some (PyStr.strip out)
  | Raise _ => None
  end.

Definition client_data : dict pyval :=
  [("current_branch", PushCommand.opt_str (git_output ["git"; "rev-parse"; "--abbrev-ref"; "HEAD"]));
   ("current_sha_hash", PushCommand.opt_str (git_output ["git"; "rev-parse"; "HEAD"]));
   ("current_commit_msg", PushCommand.opt_str (git_output ["git"; "log"; "-1"; "--pretty=%B"]));
   ("version_type", PStr (PushCommand.version self))].

Definition profiles_of (target : string) : dict string :=
  match FileMap.get_document_profiles (PushCommand.filemap self) target with
  | Ok (Some profiles) => profiles
  | _ => []
  end.

(** The request sent to a target: its files that can be read, and the
    client data. *)
Definition submitted_files (target : string) : dict FileField :=
  Dict.set "client_data"
    (None, json_dumps env None (PDict client_data), "application/json")
    (Dict.set_all
       (readable_fields env (FileMap.tldir (PushCommand.filemap self)) (profiles_of target)) []).

Definition endpoint_of (api : APIAdaptor.t) : string :=
  urljoin env (APIAdaptor.url api) "actioncode".

Definition params_of (api : APIAdaptor.t) : dict string :=
  [("tranxNum", APIAdaptor.webservice_id api); ("route", PushCommand.command self)].

Definition answer (target : string) (api : APIAdaptor.t) : res Response.t :=
  requests_post env (endpoint_of api) (APIAdaptor.auth api) (params_of api)
                (submitted_files target).

(** The response a target produces: the normalised body of a 2xx answer,
    and [None] when the request fails or is answered with another status. *)
Definition submit_outcome (target : string) (api : APIAdaptor.t) : pyval :=
  match answer target api with
  | Ok response =>
      match result (APIAdaptor._response_hander response) with
      | Ok v => v
      | Raise _ => PNone
      end
  | Raise _ => PNone
  end.

Definition responded (kv : string * APIAdaptor.t) : bool :=
  (accepted (fst kv) && truthy (submit_outcome (fst kv) (snd kv)))%bool.

(** The entries that a part of the connections adds to the response map. *)
Definition entries_of (l : dict APIAdaptor.t) : dict pyval :=
  flat_map (fun kv => if responded kv
                      then [(fst kv, submit_outcome (fst kv) (snd kv))] else []) l.

(** The response map: the targets that responded, in the order of the
    request, each with its response. *)
Definition expected_responses : dict pyval := entries_of (PushCommand.api_connections self).

(** The failures the push is prepared for: the files of every target can
    be read or are missing, requests fail with network errors only, the
    mirroring of module directories with filesystem errors only, and the
    current commit is known. *)
Record prepared_for_failures : Prop := {
  targets_mapped :
    forall target api, In (target, api) (PushCommand.api_connections self) ->
    exists props profiles,
      FileMap.target_properties (PushCommand.filemap self) target = Ok props
      /\ FileMapJson._document_profiles props = Some profiles
      /\ readable_or_missing env (FileMap.tldir (PushCommand.filemap self)) profiles;
  requests_fail_by_network :
    forall url auth params files e,
      requests_post env url auth params files = Raise e -> is_network_error (exn_cls e) = true;
  mirror_fails_by_filesystem :
    forall source target e, mirror env source target = Raise e -> is_filesystem_error (exn_cls e) = true;
  write_fails_by_filesystem :
    forall path contents e,
      open_write env path contents = Raise e -> is_filesystem_error (exn_cls e) = true;
  commit_known :
    exists out, subprocess_run env ["git"; "rev-parse"; "HEAD"] = Ok out
}.

Definition pushing_line (api : APIAdaptor.t) (e : exn) : event :=
  Log ERROR (Lit "Error pushing files to endpoint " :: Lit (APIAdaptor.url api)
               :: Lit ": " :: exn_msg e).

Definition copying_line (target : string) (e : exn) : event :=
  Log ERROR (Lit "Error copying module files to " :: Lit target :: Lit ": " :: exn_msg e).

Definition no_response_line (target : string) : event :=
  Log ERROR [Lit "No response from target: "; Lit target].
(** The effects of one accepted target that the specification asks for. *)
Definition leaves_its_lines (t : list event) (target : string) (api : APIAdaptor.t) : Prop :=
  In (Input (prompt_of target)) t
  /\ (accepted target = true ->
      In (Post (endpoint_of api) (params_of api) (submitted_files target)) t
      /\ (forall e, answer target api = Raise e -> In (pushing_line api e) t)
      /\ (truthy (submit_outcome target api) = false ->
          In (no_response_line target) t)
      /\ (forall e,
            result (PushCommand._copy_files_to_target env self target client_data) = Raise e ->
            In (copying_line target e) t)).

(** The tag that a push with the given processed responses creates. *)
Definition tag_argv (processed : dict pyval) : list string :=
  ["git"; "tag"; "-a"; PushCommand.tag_name_of env self processed; "-m";
   json_dumps env (Some 4%nat) (PDict processed)].

End PushNotions.

(** The new value of one target of the response map. *)
Definition remap_entry (self : PushCommand.t) (kv : string * pyval) : res pyval :=
  res_bind (FileMap.get_document_profiles (PushCommand.filemap self) (fst kv)) (fun profiles =>
  match profiles with
  | None => Raise (none_has_no "items")
  | Some profiles =>
      match snd kv with
      | PDict doc_map => Ok (PDict (PushCommand.remap_doc_map (PushCommand.reverse_profiles profiles) doc_map))
      | _ => Raise (Exn AttributeError [Lit "object has no attribute 'items'"])
      end
  end).

(** ** Example inputs and environments *)

Module Examples.


(** The line feed. *)
Definition nl : string := String (ascii_of_nat 10) EmptyString.

(** A quiet world: a clean working tree at [/repo] on commit [abc123],
    an operator who accepts every prompt, no file on disk and a server
    that answers 200 with an empty body. *)
Definition git (argv : list string) : res string :=
  match argv with
  | ["git"; "rev-parse"; "--show-toplevel"] => Ok ("/repo" ++ nl)%string
  | ["git"; "rev-parse"; "HEAD"] => Ok ("abc123" ++ nl)%string
  | ["git"; "rev-parse"; "--abbrev-ref"; "HEAD"] => Ok ("main" ++ nl)%string
  | ["git"; "log"; "-1"; "--pretty=%B"] => Ok ("initial commit" ++ nl)%string
  | _ => Ok ""
  end.

(** The exception of [ipaddress.ip_address] on a text that is no address. *)
Definition no_address (s : string) : exn :=
  Exn ValueError [Lit "'"; Lit s; Lit "' does not appear to be an IPv4 or IPv6 address"].

Definition no_such_file (path : string) : exn :=
  Exn FileNotFoundError [Lit "[Errno 2] No such file or directory: '"; Lit path; Lit "'"].

(** The two responses of the specification: a page whose body holds two
    lines, and a body that claims to be JSON and is not. *)
Definition hello_world : string := ("Hello" ++ nl ++ "World")%string.

Definition html_page (status : Z) : Response.t :=
  Response.mk status (Some "text/html") "<body>Hello<br/>World</body>" None (Some hello_world).


Definition empty_200 : Response.t :=
  Response.mk 200 None "" None None.

Definition quiet : Env :=
  {| input := fun _ => "";
     subprocess_run := git;
     open_read := fun path => Raise (no_such_file path);
     open_write := fun _ _ => Ok tt;
     path_exists := fun _ => false;
     path_is_file := fun _ => false;
     path_is_dir := fun _ => false;
     path_resolve := fun path => path;
     json_load := fun _ => Ok (FileMapJson.mk (Some []));
     requests_post := fun _ _ _ _ => Ok empty_200;
     mirror := fun _ _ => Ok tt;
     now := DateTime.mk 2025 1 2 3 4 5 0;
     json_dumps := fun _ _ => "";
     urljoin := fun base rel => (base ++ rel)%string;
     ip_address := fun s => Raise (no_address s);
     normalize_NFKC := fun s => s;
     config_urls := [];
     config_webservice_ids := [] |}.

(** The clock of the examples, on a machine two hours east of Greenwich:
    what [datetime.now()] reads there, which is the local time, and the
    same instant in UTC. *)
Definition local_now : DateTime.t := DateTime.mk 2025 1 2 3 4 5 0.
Definition utc_now : DateTime.t := DateTime.mk 2025 1 2 1 4 5 0.

(** The same world where [git status --porcelain] exits with an error. *)
Definition git_status_fails (argv : list string) : res string :=
  match argv with
  | ["git"; "status"; "--porcelain"] =>
      Raise (Exn CalledProcessError [Lit "fatal: not a git repository"])
  | _ => git argv
  end.

Definition set_subprocess_run (f : list string -> res string) (e : Env) : Env :=
  {| input := input e; subprocess_run := f; open_read := open_read e;
     open_write := open_write e; path_exists := path_exists e;
     path_is_file := path_is_file e; path_is_dir := path_is_dir e;
     path_resolve := path_resolve e; json_load := json_load e;
     requests_post := requests_post e; mirror := mirror e; now := now e;
     json_dumps := json_dumps e; urljoin := urljoin e;
     ip_address := ip_address e; normalize_NFKC := normalize_NFKC e;
     config_urls := config_urls e;
     config_webservice_ids := config_webservice_ids e |}.

Definition no_git_status : Env := set_subprocess_run git_status_fails quiet.

(** Connections to the targets [A] and [B], and a map with target [A] only. *)
Definition adaptor (name : string) : APIAdaptor.t :=
  APIAdaptor.mk ("https://" ++ name ++ ".example.com/fmax/")%string "WS1" ("user", "secret").

Definition connections_A_B : dict APIAdaptor.t := [("A", adaptor "A"); ("B", adaptor "B")].

Definition map_with_A : FileMap.t :=
  FileMap.mk "/repo"
    (FileMapJson.mk (Some [("A", FileMapJson.mk_target (Some []) None)])).

(** A world with [/repo/file.js] on disk and nothing else, and a table of
    profiles that also lists a file which is gone. *)
Definition read_file_js (path : string) : res string :=
  if String.eqb path "/repo/file.js" then Ok "console.log(1)" else Raise (no_such_file path).

Definition set_open_read (f : string -> res string) (e : Env) : Env :=
  {| input := input e; subprocess_run := subprocess_run e; open_read := f;
     open_write := open_write e; path_exists := path_exists e;
     path_is_file := path_is_file e; path_is_dir := path_is_dir e;
     path_resolve := path_resolve e; json_load := json_load e;
     requests_post := requests_post e; mirror := mirror e; now := now e;
     json_dumps := json_dumps e; urljoin := urljoin e;
     ip_address := ip_address e; normalize_NFKC := normalize_NFKC e;
     config_urls := config_urls e;
     config_webservice_ids := config_webservice_ids e |}.

Definition with_file_js : Env := set_open_read read_file_js quiet.

Definition profiles_two : dict string := [("file.js", "docId123"); ("gone.js", "docId456")].

Definition map_with_T : FileMapJson.t :=
  FileMapJson.mk (Some [("T", FileMapJson.mk_target (Some profiles_two) None)]).

(** The push of the specification: target [T] with [file.js] mapped to
    [docId123], and two responses of [T], the second of which has a key
    that is spelled like the filename. *)
Definition version_7 : pyval := PDict [("docVerId", PInt 7)].
Definition version_8 : pyval := PDict [("docVerId", PInt 8)].

Definition map_file_js : FileMap.t :=
  FileMap.mk "/repo"
    (FileMapJson.mk (Some [("T", FileMapJson.mk_target (Some [("file.js", "docId123")]) None)])).

Definition push_T : PushCommand.t :=
  PushCommand.mk "push" map_file_js [("T", adaptor "T")] false "minor".

Definition response_of_T : dict pyval := [("T", PDict [("docId123", version_7)])].

Definition response_with_clash : dict pyval :=
  [("T", PDict [("docId123", version_7); ("file.js", version_8)])].

(** A push to two targets, the first of which mirrors a module directory.
    In the first world the second target cannot be reached; in the second
    world, in addition, the module directory cannot be written. *)
Definition map_T1_T2 : FileMap.t :=
  FileMap.mk "/repo"
    (FileMapJson.mk
       (Some [("T1", FileMapJson.mk_target (Some [("file.js", "docId123")])
                                           (Some "/srv/T1/modules"));
              ("T2", FileMapJson.mk_target (Some [("file.js", "docId123")]) None)])).

Definition push_T1_T2 : PushCommand.t :=
  PushCommand.mk "push" map_T1_T2 [("T1", adaptor "T1"); ("T2", adaptor "T2")] false "minor".

Definition accepted_by_T1 : Response.t :=
  Response.mk 200 (Some "application/json") "{}" (Some (PDict [("docId123", version_7)])) None.

Definition connection_refused : exn := Exn ConnectionError [Lit "connection refused"].

Definition post_T1_only (url : string) (auth : string * string) (params : dict string)
           (files : dict FileField) : res Response.t :=
  if String.eqb url "https://T1.example.com/fmax/actioncode" then Ok accepted_by_T1
  else Raise connection_refused.

Definition permission_denied : exn := Exn PermissionError [Lit "[Errno 13] Permission denied"].

(** A rendering of values that shows their keys, in place of [json.dumps]. *)
Fixpoint render (v : pyval) : string :=
  match v with
  | PNone => "null"
  | PBool true => "true"
  | PBool false => "false"
  | PInt _ => "#"
  | PStr s => s
  | PList l => ("[" ++ PyStr.join ", " (map render l) ++ "]")%string
  | PDict d =>
      ("{" ++ PyStr.join ", " (map (fun kv => (fst kv ++ ": " ++ render (snd kv))%string) d)
           ++ "}")%string
  end.

Definition T2_unreachable : Env :=
  {| input := fun _ => "";
     subprocess_run := git;
     open_read := read_file_js;
     open_write := fun _ _ => Ok tt;
     path_exists := fun _ => true;
     path_is_file := fun _ => true;
     path_is_dir := fun _ => true;
     path_resolve := fun path => path;
     json_load := fun _ => Ok (FileMap.filemap map_T1_T2);
     requests_post := post_T1_only;
     mirror := fun _ _ => Ok tt;
     now := DateTime.mk 2025 1 2 3 4 5 0;
     json_dumps := fun _ => render;
     urljoin := fun base rel => (base ++ rel)%string;
     ip_address := fun s => Raise (no_address s);
     normalize_NFKC := fun s => s;
     config_urls := [];
     config_webservice_ids := [] |}.

Definition set_mirror (f : string -> string -> res unit) (e : Env) : Env :=
  {| input := input e; subprocess_run := subprocess_run e; open_read := open_read e;
     open_write := open_write e; path_exists := path_exists e;
     path_is_file := path_is_file e; path_is_dir := path_is_dir e;
     path_resolve := path_resolve e; json_load := json_load e;
     requests_post := requests_post e; mirror := f; now := now e;
     json_dumps := json_dumps e; urljoin := urljoin e;
     ip_address := ip_address e; normalize_NFKC := normalize_NFKC e;
     config_urls := config_urls e;
     config_webservice_ids := config_webservice_ids e |}.

Definition modules_read_only : Env :=
  set_mirror (fun _ _ => Raise permission_denied) T2_unreachable.

(** A world where the mapped file exists and cannot be read. *)
Definition file_unreadable : Env :=
  set_open_read (fun _ => Raise permission_denied) T2_unreachable.

(** A push to [T1] and [T3], where the file of [T3] exists and cannot be
    read. *)
Definition map_T1_T3 : FileMap.t :=
  FileMap.mk "/repo"
    (FileMapJson.mk
       (Some [("T1", FileMapJson.mk_target (Some [("file.js", "docId123")]) None);
              ("T3", FileMapJson.mk_target (Some [("secret.js", "docId9")]) None)])).

Definition push_T1_T3 : PushCommand.t :=
  PushCommand.mk "push" map_T1_T3 [("T1", adaptor "T1"); ("T3", adaptor "T3")] false "minor".

Definition read_secret_denied (path : string) : res string :=
  if String.eqb path "/repo/secret.js" then Raise permission_denied else read_file_js path.

Definition secret_unreadable : Env := set_open_read read_secret_denied T2_unreachable.

(** The endpoints that a trace sends a request to. *)
Definition posted_to (t : list event) : list string :=
  flat_map (fun ev => match ev with Post url _ _ => [url] | _ => [] end) t.

Definition empty_push : PushCommand.t :=
  PushCommand.mk "push" (FileMap.mk "/repo" (FileMapJson.mk (Some []))) [] false "minor".
End Examples.

(** ** Notions used in the further statements *)

(** An error line of the log. *)
Definition is_error_line (ev : event) : Prop :=
  match ev with
  | Log ERROR _ => True
  | _ => False
  end.

(** The prompts, requests, mirrorings and writes of a trace. *)
Definition prompts (t : list event) : list string :=
  flat_map (fun ev => match ev with Input prompt => [prompt] | _ => [] end) t.

Definition requests (t : list event) : list string :=
  flat_map (fun ev => match ev with Post url _ _ => [url] | _ => [] end) t.

Definition mirrorings (t : list event) : list (string * string) :=
  flat_map (fun ev => match ev with Mirror source target => [(source, target)] | _ => [] end) t.

Definition writes (t : list event) : list string :=
  flat_map (fun ev => match ev with WriteFile path _ => [path] | _ => [] end) t.

(** The text put before the operator: the message, when there is one, and
    the question with its two choices, the default in upper case. *)
Definition shown_prompt (choices : string) (prompt : option string) : string :=
  (match prompt with
   | Some p => if PyStr.nonempty p then p ++ " " else ""
   | None => ""
   end ++ "Continue? (" ++ choices ++ "): ")%string.

(** A reply that is one letter, in either case, once blanks are stripped. *)
Definition replies (letter : string) (reply : string) : bool :=
  (String.eqb (PyStr.strip reply) letter
   || String.eqb (PyStr.strip reply) (PyStr.lower letter))%bool.

(** A property of every effect of a computation, whether it returns or
    raises. *)
Definition always (P : event -> Prop) {A} (m : M A) : Prop := Forall P (trace m).

(** What a push may do.  It may log; ask about a target it has a
    connection to; run one of four git queries, or tag; send a request to
    the endpoint of a connection whose target the operator accepted, with
    the parameters of that connection and the client data among the form
    fields; mirror the local twin of the module directory of an accepted
    target into that directory; and write the commit file of the current
    commit into such a directory. *)
Section PushBounds.
Variable env : Env.
Variable self : PushCommand.t.

Definition git_queries : list (list string) :=
  [["git"; "status"; "--porcelain"];
   ["git"; "rev-parse"; "HEAD"];
   ["git"; "rev-parse"; "--abbrev-ref"; "HEAD"];
   ["git"; "log"; "-1"; "--pretty=%B"]].

Definition client_data_field : FileField :=
  (None, json_dumps env None (PDict (client_data env self)), "application/json").

(** The module directory of a target the operator accepted. *)
Definition module_directory_of (target dirname : string) : Prop :=
  In target (Dict.keys (PushCommand.api_connections self))
  /\ accepted env target = true
  /\ FileMap.get_module_directory (PushCommand.filemap self) target = Ok (Some dirname)
  /\ PyStr.nonempty dirname = true.

Definition within_bounds (ev : event) : Prop :=
  match ev with
  | Log _ _ => True
  | Input prompt =>
      exists target,
        In target (Dict.keys (PushCommand.api_connections self))
        /\ prompt = prompt_of target
  | Run argv =>
      In argv git_queries
      \/ exists processed, argv = tag_argv env self processed
  | Post url params files =>
      exists target api,
        In (target, api) (PushCommand.api_connections self)
        /\ accepted env target = true
        /\ url = endpoint_of env api
        /\ params = params_of self api
        /\ Dict.get "client_data" files = Some client_data_field
  | Mirror source dirname =>
      exists target,
        module_directory_of target dirname
        /\ source = PyPath.join (FileMap.tldir (PushCommand.filemap self)) (PyPath.name dirname)
  | WriteFile path contents =>
      exists target dirname sha,
        module_directory_of target dirname
        /\ git_output env ["git"; "rev-parse"; "HEAD"] = Some sha
        /\ path = PyPath.join dirname (sha ++ ".commit")%string
        /\ contents = json_dumps env (Some 4%nat) (PDict (client_data env self))
  end.

(** What the sending of the files may do: the same, without the tag. *)
Definition within_send (ev : event) : Prop :=
  match ev with
  | Run argv => In argv git_queries
  | _ => within_bounds ev
  end.
End PushBounds.

(** What a computation did, apart from logging: its questions, commands,
    requests, mirrorings and writes, in order. *)
Definition is_act (ev : event) : bool :=
  match ev with
  | Log _ _ => false
  | _ => true
  end.

Definition acts (t : list event) : list event := List.filter is_act t.

(** The line of a push that found uncommitted changes. *)
Definition uncommitted_line : event :=
  Log ERROR [Lit "Git has uncommitted changes, please commit and try again, or use --allow-uncommitted flag."].

Definition executing_line (self : PushCommand.t) : event :=
  Log DEBUG [Lit "Executing "; Lit (PushCommand.command self);
             Lit " command with connections ";
             Strs (Dict.keys (PushCommand.api_connections self))].

(** The exception of [None + '.commit']. *)
Definition cannot_add_to_none : exn :=
  Exn TypeError [Lit "unsupported operand type(s) for +: 'NoneType' and 'str'"].

(** The local twin of a module directory. *)
Definition local_twin (self : PushCommand.t) (dirname : string) : string :=
  PyPath.join (FileMap.tldir (PushCommand.filemap self)) (PyPath.name dirname).

(** The connection that a target name stands for: the entries of the two
    sections of [config.ini] under that name, the URL validated, and the
    credentials. *)
Section Connections.
Variable env : Env.
Variables username password : string.

Definition connection_of (target : string) : res APIAdaptor.t :=
  match Dict.get target (config_urls env), Dict.get target (config_webservice_ids env) with
  | Some url, Some webservice_id =>
      match APIAdaptor._validate_url (ip_address env) (normalize_NFKC env) url with
      | Ok validated => Ok (APIAdaptor.mk validated webservice_id (username, password))
      | Raise e => Raise e
      end
  | _, _ => Raise (Exn KeyError [Lit target])
  end.
End Connections.

(** Is the name among the names seen so far? *)
Definition seen (ks : list string) (k : string) : bool := existsb (String.eqb k) ks.

(** The names of a list, each once, at the place of its first mention. *)
Fixpoint distinct (l : list string) : list string :=
  match l with
  | [] => []
  | x :: r => x :: List.filter (fun y => negb (String.eqb y x)) (distinct r)
  end.

(** What the server makes of the query for the most recent version of a
    document: the normalised answer, or the exception of the request or of
    the handling of the response; and the version that the answer holds:
    the first of its results, when that is a true value. *)
Section ShowNotions.
Variable env : Env.
Variable requests_put : string -> pyval -> string * string -> res Response.t.
Variable api : APIAdaptor.t.

Definition versions_endpoint : string :=
  urljoin env (APIAdaptor.url api) "crud/dto/list/AeDocumentVersion".

Definition version_answer (doc_id : string) : res pyval :=
  res_bind
    (requests_put versions_endpoint
                  (fst (FindListQueryBuilder.to_dict (ShowCommand.key_query doc_id)))
                  (APIAdaptor.auth api))
    (fun response => result (APIAdaptor._response_hander response)).

Definition latest_version (doc_id : string) : option pyval :=
  match version_answer doc_id with
  | Ok query_results =>
      match res_bind (ShowCommand.get_results query_results) ShowCommand.first_or_none with
      | Ok doc_ver_keys => if truthy doc_ver_keys then Some doc_ver_keys else None
      | Raise _ => None
      end
  | Raise _ => None
  end.

(** The answers that the listing of versions is prepared for: a failure
    of the network, or an object whose results, if any, can be indexed. *)
Definition answers_as_expected (doc_id : string) : Prop :=
  match version_answer doc_id with
  | Ok query_results =>
      exists doc_ver_keys,
        res_bind (ShowCommand.get_results query_results) ShowCommand.first_or_none
        = Ok doc_ver_keys
  | Raise e => is_network_error (exn_cls e) = true
  end.

Definition version_error_line (filename : string) (e : exn) : event :=
  Log ERROR (Lit "Error getting most recent version of " :: Lit filename
               :: Lit " from API: " :: exn_msg e).

(** The entries of the version map of a table of profiles. *)
Definition versions_found (profiles : dict string) : dict pyval :=
  flat_map (fun '(filename, doc_id) =>
              match latest_version doc_id with
              | Some doc_ver_keys => [(filename, doc_ver_keys)]
              | None => []
              end) profiles.
End ShowNotions.

(** What a push does for its targets, apart from logging: the mirroring
    of a module directory, followed by the commit file when the mirroring
    succeeded and the commit is known; and a turn of the loop: the
    question, and for an accepted target the request and the mirroring. *)
Section TurnActs.
Variable env : Env.
Variable self : PushCommand.t.

Definition copy_acts (target : string) : list event :=
  match FileMap.get_module_directory (PushCommand.filemap self) target with
  | Ok (Some dirname) =>
      if PyStr.nonempty dirname then
        Mirror (local_twin self dirname) dirname
        :: match mirror env (local_twin self dirname) dirname,
                 git_output env ["git"; "rev-parse"; "HEAD"] with
           | Ok _, Some sha =>
               [WriteFile (PyPath.join dirname (sha ++ ".commit")%string)
                          (json_dumps env (Some 4%nat) (PDict (client_data env self)))]
           | _, _ => []
           end
      else []
  | _ => []
  end.

Definition turn_acts (kv : string * APIAdaptor.t) : list event :=
  Input (prompt_of (fst kv))
  :: (if accepted env (fst kv)
      then Post (endpoint_of env (snd kv)) (params_of self (snd kv))
                (submitted_files env self (fst kv))
           :: copy_acts (fst kv)
      else []).
End TurnActs.

(** The question asked before a template of the file map is written. *)
Definition template_question (path : string) : string :=
  shown_prompt "y/N" (Some ("Creating new file map at " ++ path ++ ".")%string).

(** Examples for the further properties. *)
Module Cases.
(** A tree without a file map, and an operator who answers [y]. *)
Definition says_yes : Env :=
  {| input := fun _ => "y";
     subprocess_run := Examples.git;
     open_read := fun path => Raise (Examples.no_such_file path);
     open_write := fun _ _ => Ok tt;
     path_exists := fun _ => false;
     path_is_file := fun _ => false;
     path_is_dir := fun _ => false;
     path_resolve := fun path => path;
     json_load := fun _ => Ok (FileMapJson.mk (Some []));
     requests_post := fun _ _ _ _ => Ok Examples.empty_200;
     mirror := fun _ _ => Ok tt;
     now := DateTime.mk 2025 1 2 3 4 5 0;
     json_dumps := fun _ => Examples.render;
     urljoin := fun base rel => (base ++ rel)%string;
     ip_address := fun s => Raise (Examples.no_address s);
     normalize_NFKC := fun s => s;
     config_urls := [];
     config_webservice_ids := [] |}.

(** The world of [Examples.T2_unreachable] with an operator who answers [n]. *)
Definition says_no : Env :=
  {| input := fun _ => "n";
     subprocess_run := Examples.git;
     open_read := Examples.read_file_js;
     open_write := fun _ _ => Ok tt;
     path_exists := fun _ => true;
     path_is_file := fun _ => true;
     path_is_dir := fun _ => true;
     path_resolve := fun path => path;
     json_load := fun _ => Ok (FileMap.filemap Examples.map_T1_T2);
     requests_post := Examples.post_T1_only;
     mirror := fun _ _ => Ok tt;
     now := DateTime.mk 2025 1 2 3 4 5 0;
     json_dumps := fun _ => Examples.render;
     urljoin := fun base rel => (base ++ rel)%string;
     ip_address := fun s => Raise (Examples.no_address s);
     normalize_NFKC := fun s => s;
     config_urls := [];
     config_webservice_ids := [] |}.

(** The world of [Examples.T2_unreachable] where no target can be reached. *)
Definition nobody_answers : Env :=
  {| input := fun _ => "";
     subprocess_run := Examples.git;
     open_read := Examples.read_file_js;
     open_write := fun _ _ => Ok tt;
     path_exists := fun _ => true;
     path_is_file := fun _ => true;
     path_is_dir := fun _ => true;
     path_resolve := fun path => path;
     json_load := fun _ => Ok (FileMap.filemap Examples.map_T1_T2);
     requests_post := fun _ _ _ _ => Raise Examples.connection_refused;
     mirror := fun _ _ => Ok tt;
     now := DateTime.mk 2025 1 2 3 4 5 0;
     json_dumps := fun _ => Examples.render;
     urljoin := fun base rel => (base ++ rel)%string;
     ip_address := fun s => Raise (Examples.no_address s);
     normalize_NFKC := fun s => s;
     config_urls := [];
     config_webservice_ids := [] |}.

(** The same world where every target answers 200 with a page of text. *)
Definition answers_with_a_page : Env :=
  {| input := fun _ => "";
     subprocess_run := Examples.git;
     open_read := Examples.read_file_js;
     open_write := fun _ _ => Ok tt;
     path_exists := fun _ => true;
     path_is_file := fun _ => true;
     path_is_dir := fun _ => true;
     path_resolve := fun path => path;
     json_load := fun _ => Ok (FileMap.filemap Examples.map_T1_T2);
     requests_post := fun _ _ _ _ => Ok (Examples.html_page 200);
     mirror := fun _ _ => Ok tt;
     now := DateTime.mk 2025 1 2 3 4 5 0;
     json_dumps := fun _ => Examples.render;
     urljoin := fun base rel => (base ++ rel)%string;
     ip_address := fun s => Raise (Examples.no_address s);
     normalize_NFKC := fun s => s;
     config_urls := [];
     config_webservice_ids := [] |}.

(** A working tree without a commit: [git rev-parse HEAD] fails. *)
Definition git_without_commit (argv : list string) : res string :=
  match argv with
  | ["git"; "rev-parse"; "HEAD"] =>
      Raise (Exn CalledProcessError [Lit "fatal: ambiguous argument 'HEAD'"])
  | _ => Examples.git argv
  end.

Definition no_commit_yet : Env :=
  Examples.set_subprocess_run git_without_commit Examples.T2_unreachable.

(** A push to a target that the file map does not have. *)
Definition push_T9 : PushCommand.t :=
  PushCommand.mk "push" Examples.map_T1_T2 [("T9", Examples.adaptor "T9")] false "minor".

(** A configuration with the targets [T1] and [T2], the second of which
    has a URL that is not accepted. *)
Definition configured : Env :=
  {| input := fun _ => "";
     subprocess_run := Examples.git;
     open_read := Examples.read_file_js;
     open_write := fun _ _ => Ok tt;
     path_exists := fun _ => true;
     path_is_file := fun _ => true;
     path_is_dir := fun _ => true;
     path_resolve := fun path => path;
     json_load := fun _ => Ok (FileMap.filemap Examples.map_T1_T2);
     requests_post := Examples.post_T1_only;
     mirror := fun _ _ => Ok tt;
     now := DateTime.mk 2025 1 2 3 4 5 0;
     json_dumps := fun _ => Examples.render;
     urljoin := fun base rel => (base ++ rel)%string;
     ip_address := fun s => Raise (Examples.no_address s);
     normalize_NFKC := fun s => s;
     config_urls := [("T1", "https://T1.example.com/fmax"); ("T2", "http://T2.example.com/fmax")];
     config_webservice_ids := [("T1", "WS1"); ("T2", "WS2")] |}.

(** A listing of the versions of the files of [T1], a server that knows
    version 7 of every document, and a server that answers with nothing. *)
Definition show_T1 : ShowCommand.t :=
  ShowCommand.mk "show" Examples.map_T1_T2 [("T1", Examples.adaptor "T1")].

Definition put_latest (url : string) (body : pyval) (auth : string * string)
  : res Response.t :=
  Ok (Response.mk 200 (Some "application/json") "{}"
        (Some (PDict [("results", PList [Examples.version_7])])) None).

Definition put_nothing (url : string) (body : pyval) (auth : string * string)
  : res Response.t :=
  Ok Examples.empty_200.

(** A map whose one target names a module directory and has no table of
    document profiles. *)
Definition map_without_profiles : FileMapJson.t :=
  FileMapJson.mk (Some [("T", FileMapJson.mk_target None (Some "/srv/gone"))]).

(** A world where every file exists and no directory does. *)
Definition no_modules : Env :=
  {| input := fun _ => "";
     subprocess_run := Examples.git;
     open_read := Examples.read_file_js;
     open_write := fun _ _ => Ok tt;
     path_exists := fun _ => true;
     path_is_file := fun _ => true;
     path_is_dir := fun _ => false;
     path_resolve := fun path => path;
     json_load := fun _ => Ok (FileMap.filemap Examples.map_T1_T2);
     requests_post := Examples.post_T1_only;
     mirror := fun _ _ => Ok tt;
     now := DateTime.mk 2025 1 2 3 4 5 0;
     json_dumps := fun _ => Examples.render;
     urljoin := fun base rel => (base ++ rel)%string;
     ip_address := fun s => Raise (Examples.no_address s);
     normalize_NFKC := fun s => s;
     config_urls := [];
     config_webservice_ids := [] |}.

(** A working tree whose file map is the JSON object [{}]: a map without
    the key [_targets]. *)
Definition bare_map : Env :=
  {| input := fun _ => "";
     subprocess_run := Examples.git;
     open_read := Examples.read_file_js;
     open_write := fun _ _ => Ok tt;
     path_exists := fun _ => true;
     path_is_file := fun _ => true;
     path_is_dir := fun _ => true;
     path_resolve := fun path => path;
     json_load := fun _ => Ok (FileMapJson.mk None);
     requests_post := Examples.post_T1_only;
     mirror := fun _ _ => Ok tt;
     now := DateTime.mk 2025 1 2 3 4 5 0;
     json_dumps := fun _ => Examples.render;
     urljoin := fun base rel => (base ++ rel)%string;
     ip_address := fun s => Raise (Examples.no_address s);
     normalize_NFKC := fun s => s;
     config_urls := [];
     config_webservice_ids := [] |}.

(** A directory that is not a working tree: every git command fails. *)
Definition not_a_repository : exn :=
  Exn CalledProcessError [Lit "fatal: not a git repository"].

Definition outside_a_repository : Env :=
  Examples.set_subprocess_run (fun _ => Raise not_a_repository) Examples.quiet.
End Cases.

(** * Properties *)

(** ** The monad of effects *)

Section MonadFacts.
Context {A B : Type}.

Lemma result_bind (m : M A) (k : A -> M B) :
  result (bind m k) =
  match result m with
  | Ok a => result (k a)
  | Raise e => Raise e
  end.
Proof.
  destruct m as [t [a|e]]; cbn; [|reflexivity]. now destruct (k a).
Qed.

Lemma trace_bind (m : M A) (k : A -> M B) :
  trace (bind m k) =
  match result m with
  | Ok a => trace m ++ trace (k a)
  | Raise e => trace m
  end.
Proof.
  destruct m as [t [a|e]]; cbn; [|reflexivity]. now destruct (k a).
Qed.

Lemma bind_ok (m : M A) (k : A -> M B) (t : list event) (a : A) :
  m = (t, Ok a) -> bind m k = (t ++ trace (k a), result (k a)).
Proof. intros ->. cbn. now destruct (k a). Qed.

Lemma bind_raise (m : M A) (k : A -> M B) (t : list event) (e : exn) :
  m = (t, Raise e) -> bind m k = (t, Raise e).
Proof. now intros ->. Qed.
End MonadFacts.

Lemma M_eta {A} (m : M A) : m = (trace m, result m).
Proof. now destruct m. Qed.

Lemma bind_lift_ok {A B} (a : A) (k : A -> M B) : bind (lift (Ok a)) k = k a.
Proof. unfold bind, lift. now destruct (k a). Qed.

Lemma bind_pair_ok {A B} (t : list event) (a : A) (k : A -> M B) :
  bind (t, Ok a) k = (t ++ trace (k a), result (k a)).
Proof. unfold bind. now destruct (k a). Qed.

Lemma for_each_app {A S} (body : S -> A -> M S) (l1 l2 : list A) (s : S) :
  for_each body (l1 ++ l2) s = bind (for_each body l1 s) (for_each body l2).
Proof.
  revert s. induction l1 as [|a r IH]; intros s.
  - cbn. destruct (for_each body l2 s). reflexivity.
  - cbn [app for_each]. destruct (body s a) as [t [s'|e]]; [|reflexivity].
    rewrite !bind_pair_ok, IH.
    destruct (for_each body r s') as [t1 [s1|e1]]; cbn; [|reflexivity].
    destruct (for_each body l2 s1). cbn. now rewrite app_assoc.
Qed.

(** ** Query builder *)

Module FindListQueryBuilderFacts.
Import FindListQueryBuilder.


Lemma to_dict_same_column (a b : Attribute.t) :
  Attribute.to_dict a = Attribute.to_dict b -> Attribute.colName a = Attribute.colName b.
Proof. destruct a, b; cbn; intros H; now inversion H. Qed.






End FindListQueryBuilderFacts.

(** ** The external command wrapper and the commit gate *)

Section CliFacts.
Variable env : Env.

Lemma issubclass_Exception (c : exn_class) : issubclass c Exception = true.
Proof. destruct c; reflexivity. Qed.

(** Whatever exception the command ends with, the wrapper returns [None]. *)
Lemma run_cli_command_failure (argv : list string) (e : exn) :
  subprocess_run env argv = Raise e ->
  exists logs, run_cli_command env argv = (Run argv :: logs, Ok None).
Proof.
  intros H. unfold run_cli_command, try_except, bind, emit, lift.
  rewrite H. destruct e as [c msg]. destruct c; cbn; eauto.
Qed.

Lemma run_cli_command_success (argv : list string) (out : string) :
  subprocess_run env argv = Ok out ->
  run_cli_command env argv = ([Run argv], Ok (Some (PyStr.strip out))).
Proof. intros H. unfold run_cli_command. cbn. now rewrite H. Qed.

(** The wrapper never raises. *)
Lemma run_cli_command_total (argv : list string) :
  exists t o, run_cli_command env argv = (t, Ok o).
Proof.
  destruct (subprocess_run env argv) as [out|e] eqn:H.
  - rewrite (run_cli_command_success _ _ H). eauto.
  - destruct (run_cli_command_failure _ _ H) as [logs ->]. eauto.
Qed.
End CliFacts.

Module CommitGate.
Import PushCommand.

(** C10.  When [git status --porcelain] itself fails, the command wrapper
    returns [None], the length test on it raises [TypeError], and the
    gate, and with it the whole push, ends with that exception instead of
    a verdict, whether or not uncommitted changes are allowed. *)
Theorem gate_raises_when_git_status_fails (env : Env) (self : t) (e : exn) :
  subprocess_run env ["git"; "status"; "--porcelain"] = Raise e ->
  result (run_cli_command env ["git"; "status"; "--porcelain"]) = Ok None
  /\ result (has_uncommitted_changes env self) = Raise len_of_none
  /\ result (_commit_state_is_valid env self) = Raise len_of_none
  /\ result (execute env self) = Raise len_of_none.
Proof.
  intros H. destruct (run_cli_command_failure env _ _ H) as [logs Hrun].
  unfold execute, _commit_state_is_valid, has_uncommitted_changes.
  rewrite Hrun. cbn. auto.
Qed.

Lemma gate_raises_when_git_status_fails_witness :
  result (_commit_state_is_valid Examples.no_git_status Examples.empty_push)
  = Raise len_of_none.
Proof.
  apply (gate_raises_when_git_status_fails Examples.no_git_status Examples.empty_push
           (Exn CalledProcessError [Lit "fatal: not a git repository"])).
  reflexivity.
Defined.
End CommitGate.

(** ** File map *)

Module FileMapFacts.
Import FileMap.

Section Targets.

(** The part of C9 that the code keeps.  On a map that has its table of
    targets, the check returns [True] exactly when every requested target
    name is a target of the map; otherwise it returns [False] after one
    error line carrying the set of the requested names that the map
    lacks, and nothing else.  It never raises. *)
Theorem map_has_all_targets_iff (self : t) (api_connections : dict APIAdaptor.t)
        (targets : dict FileMapJson.target_properties) :
  FileMapJson._targets (filemap self) = Some targets ->
  let outcome := map_has_all_targets self api_connections in
  (result outcome = Ok true <->
   forall name, In name (Dict.keys api_connections) -> In name (Dict.keys targets))
  /\ (result outcome = Ok true \/ result outcome = Ok false)
  /\ (result outcome = Ok false ->
      exists missing : gset string,
        trace outcome = [Log ERROR [Lit "File map is missing servers: "; StrSet missing]]
        /\ forall name,
            name ∈ missing <->
            In name (Dict.keys api_connections) /\ ~ In name (Dict.keys targets)).
Proof.
  intros Htargets. cbn zeta. unfold map_has_all_targets. rewrite Htargets.
  set (api_set := list_to_set (Dict.keys api_connections) : gset string).
  set (map_set := list_to_set (Dict.keys targets) : gset string).
  assert (Hsub : api_set ⊆ map_set <->
                 forall name, In name (Dict.keys api_connections) ->
                              In name (Dict.keys targets)).
  { unfold api_set, map_set. rewrite elem_of_subseteq.
    split; intros H name; specialize (H name);
      rewrite !elem_of_list_to_set, !list_elem_of_In in *; exact H. }
  case_bool_decide as Hdec; cbn.
  - split; [|split].
    + split; [intros _; now apply Hsub|reflexivity].
    + now left.
    + discriminate.
  - split; [|split].
    + split; [discriminate|intros H; exfalso; now apply Hdec, Hsub].
    + now right.
    + intros _. exists (api_set ∖ map_set). split; [reflexivity|].
      intros name. unfold api_set, map_set.
      rewrite elem_of_difference, !elem_of_list_to_set, !list_elem_of_In. tauto.
Qed.

Lemma map_has_all_targets_iff_witness :
  result (map_has_all_targets Examples.map_with_A Examples.connections_A_B) = Ok false
  /\ exists missing : gset string,
       trace (map_has_all_targets Examples.map_with_A Examples.connections_A_B)
       = [Log ERROR [Lit "File map is missing servers: "; StrSet missing]]
       /\ forall name, name ∈ missing <-> name = "B".
Proof.
  destruct (map_has_all_targets_iff Examples.map_with_A Examples.connections_A_B
              [("A", FileMapJson.mk_target (Some []) None)] eq_refl)
    as (Htrue & Htotal & Hfalse).
  assert (Hres : result (map_has_all_targets Examples.map_with_A
                           Examples.connections_A_B) = Ok false).
  { destruct Htotal as [H|H]; [|exact H]. exfalso.
    destruct Htrue as [Htrue _]. specialize (Htrue H "B"). cbn in Htrue.
    destruct Htrue as [Hb|[]]; [now right; left|discriminate Hb]. }
  split; [exact Hres|].
  destruct (Hfalse Hres) as (missing & Htrace & Hmissing).
  exists missing. split; [exact Htrace|].
  intros name. rewrite Hmissing. cbn. split.
  - intros [[<-|[<-|[]]] Hnot]; [exfalso; apply Hnot; now left|reflexivity].
  - intros ->. split; [now right; left|]. intros [H|[]]. discriminate H.
Defined.
End Targets.

(** C9, where the code fails.  A map without the key [_targets] passes
    the validation at load time, which reads the key with the default
    [{}]; the check of the targets reads it without a default and calls
    [keys] on [None]: whatever names are requested, it raises
    [AttributeError] instead of answering, and logs nothing. *)
Theorem map_without_targets_raises (env : Env) (tld : string)
        (api_connections : dict APIAdaptor.t) :
  result (_validate_map_files env tld (FileMapJson.mk None)) = Ok tt
  /\ (forall filename,
        is_file_on_disk env (PyPath.join tld filename) = true ->
        json_load env (PyPath.join tld filename) = Ok (FileMapJson.mk None) ->
        result (_load_filemap env tld filename) = Ok (FileMapJson.mk None))
  /\ map_has_all_targets (mk tld (FileMapJson.mk None)) api_connections
     = ([], Raise (none_has_no "keys"))
  /\ exn_cls (none_has_no "keys") = AttributeError.
Proof.
  split; [reflexivity|]. split; [|split; reflexivity].
  intros filename Hfile Hload. unfold _load_filemap.
  unfold is_file_on_disk in Hfile. rewrite Hfile, Hload. reflexivity.
Qed.

Lemma map_without_targets_raises_witness :
  result (init Cases.bare_map "file_map.json")
  = Ok (mk "/repo" (FileMapJson.mk None))
  /\ map_has_all_targets (mk "/repo" (FileMapJson.mk None)) [("A", Examples.adaptor "A")]
     = ([], Raise (Exn AttributeError
                       [Lit "'NoneType' object has no attribute '"; Lit "keys"; Lit "'"])).
Proof.
  destruct (map_without_targets_raises Cases.bare_map "/repo" [("A", Examples.adaptor "A")])
    as (_ & Hload & Hraise & _).
  specialize (Hload "file_map.json" eq_refl eq_refl).
  split; [|exact Hraise].
  unfold init. cbn -[_load_filemap].
  destruct (_load_filemap Cases.bare_map "/repo" "file_map.json") as [t r].
  cbn in Hload. subst r. reflexivity.
Defined.
End FileMapFacts.

(** ** Remote adaptor: the base URL *)

Module PyStrFacts.
Import PyStr.

Lemma rev_acc_rev_acc (s a b : string) :
  rev_acc (rev_acc s a) b = rev_acc a (s ++ b)%string.
Proof.
  revert a b. induction s as [|c s IH]; intros a b; cbn; [reflexivity|].
  now rewrite IH.
Qed.

Lemma append_empty_r (s : string) : (s ++ "")%string = s.
Proof.
  induction s as [|c s IH]; [reflexivity|].
  change (String c (s ++ "")%string = String c s). now rewrite IH.
Qed.

Lemma rev_involutive (s : string) : rev (rev s) = s.
Proof. unfold rev. rewrite rev_acc_rev_acc. cbn. apply append_empty_r. Qed.

Lemma split_not_nil (c : ascii) (s : string) : split c s <> [].
Proof.
  destruct s as [|a s]; cbn; [discriminate|].
  destruct (Ascii.eqb a c); [discriminate|]. destruct (split c s); discriminate.
Qed.

Lemma append_assoc (a b c : string) : ((a ++ b) ++ c)%string = (a ++ b ++ c)%string.
Proof.
  induction a as [|x a IH]; [reflexivity|].
  change (String x ((a ++ b) ++ c)%string = String x (a ++ b ++ c)%string). now rewrite IH.
Qed.

(** What [lstrip] leaves does not start with a stripped character. *)
Lemma lstrip_by_head (p : ascii -> bool) (s : string) (c : ascii) (r : string) :
  lstrip_by p s = String c r -> p c = false.
Proof.
  induction s as [|a s IH]; cbn; [discriminate|].
  destruct (p a) eqn:Hp; [exact IH|]. intros H. inversion H. now subst.
Qed.

(** What [rstrip] leaves does not end with a stripped character. *)
Lemma rstrip_by_last (p : ascii -> bool) (s : string) (c : ascii) (r : string) :
  rev (rstrip_by p s) = String c r -> p c = false.
Proof.
  unfold rstrip_by. rewrite rev_involutive. apply lstrip_by_head.
Qed.
End PyStrFacts.

Module BaseUrl.
Import APIAdaptor.

Lemma check_bracketed_host_raises (ip_address : string -> res UrlParse.ip_version)
      (hostname : string) (e : exn) :
  UrlParse.check_bracketed_host ip_address hostname = Raise e ->
  exn_cls e = ValueError \/ exists text, ip_address text = Raise e.
Proof.
  unfold UrlParse.check_bracketed_host.
  destruct (PyStr.startswith "v" hostname).
  - destruct (UrlParse.is_ipvfuture hostname); intros H; inversion H. now left.
  - destruct (ip_address hostname) as [[]|e'] eqn:Hip; intros H; inversion H; subst.
    + now left.
    + right. eauto.
Qed.

Lemma checknetloc_raises (normalize_NFKC : string -> string) (netloc : string) (e : exn) :
  UrlParse.checknetloc normalize_NFKC netloc = Raise e -> exn_cls e = ValueError.
Proof.
  unfold UrlParse.checknetloc.
  repeat match goal with
         | |- context [if ?b then _ else _] => destruct b
         end; intros H; now inversion H.
Qed.

Lemma urlparse_raises (ip_address : string -> res UrlParse.ip_version)
      (normalize_NFKC : string -> string) (url : string) (e : exn) :
  UrlParse.urlparse ip_address normalize_NFKC url = Raise e ->
  exn_cls e = ValueError \/ exists text, ip_address text = Raise e.
Proof.
  unfold UrlParse.urlparse. intros He.
  repeat match type of He with
         | context [let '(_, _) := ?x in _] => destruct x
         | context [UrlParse.checknetloc ?f ?n] =>
             let H := fresh "Hnet" in
             destruct (UrlParse.checknetloc f n) eqn:H;
             [|apply checknetloc_raises in H]
         | context [UrlParse.check_bracketed_host ?f ?h] =>
             let H := fresh "Hhost" in
             destruct (UrlParse.check_bracketed_host f h) eqn:H;
             [|apply check_bracketed_host_raises in H]
         | context [if ?b then _ else _] => destruct b
         end;
    inversion He; subst; auto.
Qed.

(** C4, as the code has it.  Construction fails when the parser of the
    library rejects the URL, with the parser's [ValueError] or the
    exception of [ipaddress.ip_address] passed on as it is; it fails with
    a [ValueError] when the network location is empty, when the scheme is
    not [https], or when the first segment of the path does not contain
    the text [fmax]; in every other case it succeeds and returns the URL
    with its trailing slashes replaced by exactly one.  So
    [http://example.com/fmax/] and [https://example.com/other/] are
    rejected and [https://example.com/fmax] becomes
    [https://example.com/fmax/]. *)
Theorem validate_url_first_segment (ip_address : string -> res UrlParse.ip_version)
        (normalize_NFKC : string -> string) (url : string) :
  (forall e, UrlParse.urlparse ip_address normalize_NFKC url = Raise e ->
             _validate_url ip_address normalize_NFKC url = Raise e
             /\ (exn_cls e = ValueError \/ exists text, ip_address text = Raise e))
  /\ (forall parsed, UrlParse.urlparse ip_address normalize_NFKC url = Ok parsed ->
        (UrlParse.netloc parsed = EmptyString
         \/ UrlParse.scheme parsed <> "https"
         \/ PyStr.contains "fmax" (first_segment (UrlParse.path parsed)) = false) ->
        exists msg, _validate_url ip_address normalize_NFKC url = Raise (Exn ValueError msg))
  /\ (forall parsed, UrlParse.urlparse ip_address normalize_NFKC url = Ok parsed ->
        UrlParse.netloc parsed <> EmptyString ->
        UrlParse.scheme parsed = "https" ->
        PyStr.contains "fmax" (first_segment (UrlParse.path parsed)) = true ->
        _validate_url ip_address normalize_NFKC url
        = Ok (PyStr.rstrip_char "/" url ++ "/")%string
        /\ PyPath.endswith_slash (PyStr.rstrip_char "/" url) = false)
  /\ (exists msg, _validate_url ip_address normalize_NFKC "http://example.com/fmax/"
                  = Raise (Exn ValueError msg))
  /\ (exists msg, _validate_url ip_address normalize_NFKC "https://example.com/other/"
                  = Raise (Exn ValueError msg))
  /\ _validate_url ip_address normalize_NFKC "https://example.com/fmax"
     = Ok "https://example.com/fmax/".
Proof.
  split; [|split; [|split; [|split; [|split]]]].
  - intros e He. unfold _validate_url. rewrite He. split; [reflexivity|].
    now apply (urlparse_raises ip_address normalize_NFKC url).
  - intros parsed Hp Hbad. unfold _validate_url. rewrite Hp.
    unfold first_segment, path_segments in Hbad.
    destruct (PyStr.nonempty (UrlParse.netloc parsed)) eqn:Hn; cbn; [|eauto].
    destruct (String.eqb_spec (UrlParse.scheme parsed) "https") as [Hs|Hs]; cbn; [|eauto].
    destruct (PyStr.split "/" (PyStr.strip_char "/" (UrlParse.path parsed))) as [|first rest];
      [eauto|].
    cbn in Hbad. destruct Hbad as [Hbad|[Hbad|Hbad]].
    + rewrite Hbad in Hn. discriminate.
    + contradiction.
    + rewrite Hbad. cbn. eauto.
  - intros parsed Hp Hn Hs Hf. unfold _validate_url. rewrite Hp.
    unfold first_segment, path_segments in Hf.
    destruct (UrlParse.netloc parsed) as [|c nl]; [contradiction|]. cbn.
    rewrite Hs. cbn.
    destruct (PyStr.split "/" (PyStr.strip_char "/" (UrlParse.path parsed))) as [|first rest].
    + cbn in Hf. discriminate.
    + cbn in Hf. rewrite Hf. cbn. split; [reflexivity|].
      unfold PyPath.endswith_slash.
      destruct (PyStr.rev (PyStr.rstrip_char "/" url)) as [|c' r] eqn:Hrev; [reflexivity|].
      apply PyStrFacts.rstrip_by_last in Hrev.
      destruct (Ascii.eqb_spec "/" c') as [<-|Hne]; [discriminate|].
      destruct c' as [[] [] [] [] [] [] [] []]; try reflexivity. congruence.
  - eexists. reflexivity.
  - eexists. reflexivity.
  - reflexivity.
Qed.

Lemma validate_url_first_segment_witness :
  _validate_url (ip_address Examples.quiet) (normalize_NFKC Examples.quiet)
                "https://example.com/fmax///"
  = Ok "https://example.com/fmax/"
  /\ (exists msg,
        _validate_url (ip_address Examples.quiet) (normalize_NFKC Examples.quiet)
                      "ftp://example.com/fmax/"
        = Raise (Exn ValueError msg))
  /\ _validate_url (ip_address Examples.quiet) (normalize_NFKC Examples.quiet)
                   "https://[zz]/fmax"
     = Raise (Examples.no_address "zz")
  /\ _validate_url (ip_address Examples.quiet) (normalize_NFKC Examples.quiet)
                   "https://[example.com/fmax"
     = Raise (Exn ValueError [Lit "Invalid IPv6 URL"]).
Proof.
  destruct (validate_url_first_segment
              (ip_address Examples.quiet) (normalize_NFKC Examples.quiet)
              "https://example.com/fmax///") as (_ & _ & Hok & _).
  destruct (validate_url_first_segment
              (ip_address Examples.quiet) (normalize_NFKC Examples.quiet)
              "ftp://example.com/fmax/") as (_ & Hbad & _).
  destruct (validate_url_first_segment
              (ip_address Examples.quiet) (normalize_NFKC Examples.quiet)
              "https://[zz]/fmax") as (Hparse & _).
  destruct (validate_url_first_segment
              (ip_address Examples.quiet) (normalize_NFKC Examples.quiet)
              "https://[example.com/fmax") as (Hbracket & _).
  split; [|split; [|split]].
  - refine (proj1 (Hok _ eq_refl _ eq_refl eq_refl)). discriminate.
  - refine (Hbad _ eq_refl _). right; left. discriminate.
  - exact (proj1 (Hparse _ eq_refl)).
  - exact (proj1 (Hbracket _ eq_refl)).
Defined.

(** The claim as the specification words it fails: a path with no segment
    [fmax] is accepted as soon as its first segment contains that text;
    and a URL with an empty host is accepted as soon as its network
    location, here the port alone, is not empty. *)
Lemma validate_url_accepts_without_fmax_segment :
  (exists parsed,
      UrlParse.urlparse (ip_address Examples.quiet) (normalize_NFKC Examples.quiet)
                        "https://example.com/notfmax/" = Ok parsed
      /\ UrlParse.scheme parsed = "https"
      /\ UrlParse.netloc parsed <> EmptyString
      /\ ~ In "fmax" (path_segments (UrlParse.path parsed))
      /\ _validate_url (ip_address Examples.quiet) (normalize_NFKC Examples.quiet)
                       "https://example.com/notfmax/"
         = Ok "https://example.com/notfmax/")
  /\ (exists parsed,
        UrlParse.urlparse (ip_address Examples.quiet) (normalize_NFKC Examples.quiet)
                          "https://:443/fmax" = Ok parsed
        /\ UrlParse.netloc parsed = ":443"
        /\ host_of (UrlParse.netloc parsed) = EmptyString
        /\ _validate_url (ip_address Examples.quiet) (normalize_NFKC Examples.quiet)
                         "https://:443/fmax"
           = Ok "https://:443/fmax/").
Proof.
  split.
  - eexists. split; [reflexivity|]. cbn. repeat split; try discriminate.
    intros [H|[]]. discriminate H.
  - eexists. split; [reflexivity|]. repeat split.
Qed.
End BaseUrl.

(** ** Remote adaptor: response normalisation *)

Module Normalisation.
Import APIAdaptor.




End Normalisation.

(** ** File map: validation at load time *)

Module Validation.
Import FileMap.

Section WithEnv.
Variable env : Env.
Variable tld : string.

Lemma first_of_app (vs ws : list violation) :
  first_of env tld (vs ++ ws) = match first_of env tld vs with Ok _ => first_of env tld ws | Raise e => Raise e end.
Proof. now destruct vs. Qed.

Lemma profile_files_checked (target : string) (filenames : list string) :
  result (for_each (fun _ filename => check_profile_file env tld target filename) filenames tt)
  = first_of env tld (map (MissingFile target)
                  (List.filter (fun f => negb (is_file_on_disk env (PyPath.join tld f)))
                               filenames)).
Proof.
  induction filenames as [|f fs IH]; [reflexivity|].
  cbn [for_each List.filter]. rewrite result_bind.
  unfold check_profile_file at 1, is_file_on_disk at 1.
  rewrite <- negb_andb.
  destruct (negb (path_exists env (PyPath.join tld f) && path_is_file env (PyPath.join tld f)));
    cbn; [reflexivity|exact IH].
Qed.

Lemma module_directory_checked (target : string) (dirname : option string) :
  result (check_module_directory env tld target dirname)
  = first_of env tld (directory_violations env tld target dirname).
Proof.
  unfold check_module_directory, directory_violations, is_dir_on_disk.
  destruct dirname as [d|]; [|reflexivity].
  destruct (negb (PyStr.nonempty d)); [reflexivity|].
  rewrite <- !negb_andb.
  destruct (negb (path_exists env d && path_is_dir env d)); [reflexivity|].
  rewrite result_bind. cbn [result log_debug emit snd].
  destruct (negb (path_exists env _ && path_is_dir env _)); reflexivity.
Qed.

Lemma target_validated (kv : string * FileMapJson.target_properties) :
  FileMapJson._document_profiles (snd kv) <> None ->
  result (validate_target env tld kv) = first_of env tld (target_violations env tld kv).
Proof.
  destruct kv as [target props]. cbn [snd]. intros Hp.
  unfold validate_target, target_violations. cbn [fst snd].
  destruct (FileMapJson._document_profiles props) as [dp|]; [|contradiction].
  cbn [default]. rewrite first_of_app, result_bind, profile_files_checked.
  unfold file_violations.
  destruct (first_of env tld _) as [[]|e]; [|reflexivity].
  rewrite result_bind. cbn [result log_debug emit snd].
  apply module_directory_checked.
Qed.

Lemma targets_validated (targets : dict FileMapJson.target_properties) :
  (forall target props, In (target, props) targets ->
                        FileMapJson._document_profiles props <> None) ->
  result (for_each (fun _ kv => validate_target env tld kv) targets tt)
  = first_of env tld (flat_map (target_violations env tld) targets).
Proof.
  induction targets as [|[target props] rest IH]; intros Hp; [reflexivity|].
  cbn [for_each flat_map]. rewrite first_of_app, result_bind, target_validated.
  - destruct (first_of env tld (target_violations env tld (target, props))) as [[]|e]; [|reflexivity].
    apply IH. intros t p Hin. apply (Hp t p). now right.
  - apply (Hp target props). now left.
Qed.

(** C5, as the code has it.  On a map whose targets all have their table
    of document profiles, validation succeeds exactly when the map has no
    violation, and otherwise raises [FileNotFoundError] with the
    diagnostic of the first violation in the order of the map, and of no
    other: it names the missing file and its target, or the missing
    module directory, resolved, and its target, or the missing local
    twin, resolved.  Every profile file that is no file on disk, every
    module directory that is no directory and every module directory
    without a local twin is such a violation, so none is passed over and
    a map with one is never loaded; loading a map file that exists and
    parses ends the same way. *)
Theorem validate_map_files_first_violation (filemap : FileMapJson.t) :
  profiles_present filemap ->
  result (_validate_map_files env tld filemap) = first_of env tld (violations env tld filemap)
  /\ (forall target props document_profiles filename,
        In (target, props) (default [] (FileMapJson._targets filemap)) ->
        FileMapJson._document_profiles props = Some document_profiles ->
        In filename (Dict.keys document_profiles) ->
        is_file_on_disk env (PyPath.join tld filename) = false ->
        In (MissingFile target filename) (violations env tld filemap))
  /\ (forall target props dirname,
        In (target, props) (default [] (FileMapJson._targets filemap)) ->
        FileMapJson._module_directory props = Some dirname ->
        dirname <> EmptyString ->
        (is_dir_on_disk env dirname = false ->
         In (MissingTargetDir target dirname) (violations env tld filemap))
        /\ (is_dir_on_disk env dirname = true ->
            is_dir_on_disk env (PyPath.join tld (PyPath.name dirname)) = false ->
            In (MissingLocalDir target dirname) (violations env tld filemap)))
  /\ (forall first rest,
        violations env tld filemap = first :: rest ->
        exists e,
          result (_validate_map_files env tld filemap) = Raise e
          /\ exn_cls e = FileNotFoundError
          /\ match first with
             | MissingFile target filename =>
                 exn_msg e
                 = [Lit "File "; Lit filename; Lit " is in document profiles for target ";
                    Lit target; Lit " but does not exist on disk."]
                 /\ names e filename /\ names e target
             | MissingTargetDir target dirname =>
                 exn_msg e
                 = [Lit "Module directory `"; Lit (path_resolve env dirname);
                    Lit "` does not exist or is not a directory on "; Lit target]
                 /\ names e (path_resolve env dirname) /\ names e target
             | MissingLocalDir target dirname =>
                 exn_msg e
                 = [Lit "Module directory `";
                    Lit (path_resolve env (PyPath.join tld (PyPath.name dirname)));
                    Lit "` does not exist or is not a directory in local git TLD"]
                 /\ names e (path_resolve env (PyPath.join tld (PyPath.name dirname)))
             end)
  /\ (violations env tld filemap = [] -> result (_validate_map_files env tld filemap) = Ok tt)
  /\ (forall filename,
        is_file_on_disk env (PyPath.join tld filename) = true ->
        json_load env (PyPath.join tld filename) = Ok filemap ->
        result (_load_filemap env tld filename)
        = match first_of env tld (violations env tld filemap) with
          | Ok _ => Ok filemap
          | Raise e => Raise e
          end).
Proof.
  intros Hp.
  assert (Hres : result (_validate_map_files env tld filemap)
                 = first_of env tld (violations env tld filemap)).
  { unfold _validate_map_files, violations. now apply targets_validated. }
  split; [exact Hres|]. split; [|split; [|split; [|split]]].
  - intros target props dp filename Hin Hdp Hf Hmissing.
    unfold violations. apply in_flat_map. exists (target, props). split; [exact Hin|].
    unfold target_violations. cbn [fst snd]. rewrite Hdp. cbn [default].
    apply in_or_app. left. unfold file_violations. apply in_map, filter_In.
    split; [exact Hf|]. now rewrite Hmissing.
  - intros target props dirname Hin Hd Hne.
    assert (Hlocal : forall v, In v (directory_violations env tld target (Some dirname)) ->
                               In v (violations env tld filemap)).
    { intros v Hv. unfold violations. apply in_flat_map. exists (target, props).
      split; [exact Hin|]. unfold target_violations. cbn [fst snd]. rewrite Hd.
      apply in_or_app. now right. }
    assert (Hn : PyStr.nonempty dirname = true) by (destruct dirname; [contradiction|reflexivity]).
    split.
    + intros Hmissing. apply Hlocal. cbn. rewrite Hn, Hmissing. cbn. now left.
    + intros Hthere Hmissing. apply Hlocal. cbn. rewrite Hn, Hthere, Hmissing. cbn. now left.
  - intros first rest Hv. rewrite Hres, Hv. cbn [first_of].
    exists (diagnostic env tld first). split; [reflexivity|].
    destruct first; (split; [reflexivity|]); unfold names; cbn; tauto.
  - intros Hv. now rewrite Hres, Hv.
  - intros filename Hfile Hload. unfold _load_filemap.
    unfold is_file_on_disk in Hfile. rewrite Hfile, Hload.
    repeat (rewrite result_bind; cbn [result lift snd log_debug emit]).
    rewrite Hres. now destruct (first_of env tld _) as [[]|e].
Qed.
End WithEnv.

Lemma validate_map_files_first_violation_witness :
  (exists e,
      result (_validate_map_files Examples.quiet "/repo" Examples.map_with_T) = Raise e
      /\ names e "file.js" /\ names e "T")
  /\ (exists e,
        result (_validate_map_files Cases.no_modules "/repo"
                                    (FileMap.filemap Examples.map_T1_T2)) = Raise e
        /\ names e "/srv/T1/modules" /\ names e "T1").
Proof.
  assert (Hp : profiles_present Examples.map_with_T).
  { intros target props [H|[]]. inversion H. discriminate. }
  assert (Hq : profiles_present (FileMap.filemap Examples.map_T1_T2)).
  { intros target props [H|[H|[]]]; inversion H; discriminate. }
  destruct (validate_map_files_first_violation Examples.quiet "/repo" Examples.map_with_T Hp)
    as (_ & _ & _ & Hfile & _).
  destruct (validate_map_files_first_violation Cases.no_modules "/repo"
              (FileMap.filemap Examples.map_T1_T2) Hq)
    as (_ & _ & _ & Hdir & _).
  split.
  - destruct (Hfile (MissingFile "T" "file.js") [MissingFile "T" "gone.js"] eq_refl)
      as (e & He & _ & _ & Hf & Ht). exists e. auto.
  - destruct (Hdir (MissingTargetDir "T1" "/srv/T1/modules") [] eq_refl)
      as (e & He & _ & _ & Hd & Ht). exists e. auto.
Defined.

(** The claim as the specification words it fails: of two files that are
    missing, the diagnostic names the first and not the second; and for a
    target without its table of document profiles the missing module
    directory is not reached: the failure is an [AttributeError] that
    names nothing. *)
Lemma second_missing_file_is_not_named :
  (is_file_on_disk Examples.quiet (PyPath.join "/repo" "gone.js") = false
   /\ In "gone.js" (Dict.keys Examples.profiles_two)
   /\ exists e,
        result (_validate_map_files Examples.quiet "/repo" Examples.map_with_T) = Raise e
        /\ names e "file.js"
        /\ ~ names e "gone.js")
  /\ (is_dir_on_disk Examples.quiet "/srv/gone" = false
      /\ exists e,
           result (_validate_map_files Examples.quiet "/repo" Cases.map_without_profiles)
           = Raise e
           /\ exn_cls e = AttributeError
           /\ ~ names e "/srv/gone").
Proof.
  split.
  - split; [reflexivity|]. split; [right; now left|].
    eexists. split; [reflexivity|]. split; [cbn; tauto|].
    unfold names. cbn. intros [H|[H|[H|[H|[H|[]]]]]]; discriminate H.
  - split; [reflexivity|]. eexists. split; [reflexivity|]. split; [reflexivity|].
    unfold names. cbn. intuition discriminate.
Qed.
End Validation.

(** ** Dictionaries *)

Module DictFacts.
Section Facts.
Context {V : Type}.
Implicit Types (d : dict V) (l : list (string * V)).

Lemma get_set (k k' : string) (v : V) d :
  Dict.get k (Dict.set k' v d) = if String.eqb k k' then Some v else Dict.get k d.
Proof.
  induction d as [|[k0 v0] r IH]; cbn; [reflexivity|].
  destruct (String.eqb_spec k' k0) as [->|Hne]; cbn.
  - now destruct (String.eqb_spec k k0).
  - rewrite IH. destruct (String.eqb_spec k k0) as [->|Hne'];
      [|reflexivity]. destruct (String.eqb_spec k0 k'); [congruence|reflexivity].
Qed.

Lemma keys_set (k : string) (v : V) d :
  Dict.keys (Dict.set k v d)
  = if Dict.mem k d then Dict.keys d else Dict.keys d ++ [k].
Proof.
  unfold Dict.mem, Dict.keys. induction d as [|[k0 v0] r IH]; cbn; [reflexivity|].
  destruct (String.eqb_spec k k0) as [->|Hne]; cbn; [reflexivity|].
  rewrite IH. now destruct (Dict.get k r).
Qed.

Lemma get_None_iff (k : string) d : Dict.get k d = None <-> ~ In k (Dict.keys d).
Proof.
  unfold Dict.keys. induction d as [|[k0 v0] r IH]; cbn; [tauto|].
  destruct (String.eqb_spec k k0) as [->|Hne].
  - split; [discriminate|]. intros H. exfalso. apply H. now left.
  - rewrite IH. split; [intros H [Heq|Hin]; [congruence|contradiction]|tauto].
Qed.

Lemma get_set_all_notin (k : string) l d :
  ~ In k (map fst l) -> Dict.get k (Dict.set_all l d) = Dict.get k d.
Proof.
  revert d. induction l as [|[k0 v0] r IH]; intros d Hnotin; [reflexivity|].
  cbn in *. unfold Dict.set_all in *. cbn. rewrite IH by tauto.
  rewrite get_set. destruct (String.eqb_spec k k0); [subst; tauto|reflexivity].
Qed.

Lemma get_set_all_in (k : string) (v : V) l d :
  NoDup (map fst l) -> In (k, v) l -> Dict.get k (Dict.set_all l d) = Some v.
Proof.
  revert d. induction l as [|[k0 v0] r IH]; intros d Hnd Hin; [destruct Hin|].
  cbn in Hnd. apply NoDup_cons in Hnd as [Hnotin Hnd].
  change (Dict.set_all ((k0, v0) :: r) d) with (Dict.set_all r (Dict.set k0 v0 d)).
  destruct Hin as [Heq|Hin].
  - inversion Heq; subst. rewrite get_set_all_notin.
    + rewrite get_set. now rewrite String.eqb_refl.
    + intros H. apply Hnotin. now apply list_elem_of_In.
  - now apply IH.
Qed.

Lemma get_set_all_inv (k : string) (v : V) l :
  NoDup (map fst l) -> Dict.get k (Dict.set_all l []) = Some v -> In (k, v) l.
Proof.
  intros Hnd Hget.
  destruct (in_dec string_dec k (map fst l)) as [Hin|Hnotin].
  - apply in_map_iff in Hin as ([k' v'] & Hk & Hin). cbn in Hk. subst k'.
    rewrite (get_set_all_in k v' l [] Hnd Hin) in Hget. congruence.
  - rewrite get_set_all_notin in Hget by assumption. discriminate.
Qed.
Lemma set_fresh (k : string) (v : V) d :
  ~ In k (Dict.keys d) -> Dict.set k v d = d ++ [(k, v)].
Proof.
  unfold Dict.keys. induction d as [|[k0 v0] r IH]; cbn; intros Hnotin; [reflexivity|].
  destruct (String.eqb_spec k k0) as [->|Hne]; [tauto|]. rewrite IH by tauto. reflexivity.
Qed.

Lemma set_all_fresh l d :
  NoDup (map fst l) ->
  (forall k, In k (map fst l) -> ~ In k (Dict.keys d)) ->
  Dict.set_all l d = d ++ l.
Proof.
  revert d. induction l as [|[k v] rest IH]; intros d Hnd Hfresh.
  - cbn. now rewrite app_nil_r.
  - cbn in Hnd. apply NoDup_cons in Hnd as [Hnotin Hnd].
    change (Dict.set_all ((k, v) :: rest) d) with (Dict.set_all rest (Dict.set k v d)).
    rewrite set_fresh by (apply Hfresh; now left).
    rewrite IH; [now rewrite <- app_assoc|exact Hnd|].
    intros k' Hk'. unfold Dict.keys. rewrite map_app, in_app_iff. cbn.
    intros [Hd|[Heq|[]]].
    + apply (Hfresh k'); [now right|exact Hd].
    + subst k'. apply Hnotin. now apply list_elem_of_In.
Qed.

Lemma get_In (k : string) (v : V) l :
  NoDup (map fst l) -> Dict.get k l = Some v <-> In (k, v) l.
Proof.
  induction l as [|[k0 v0] r IH]; cbn; intros Hnd; [split; [discriminate|tauto]|].
  apply NoDup_cons in Hnd as [Hnotin Hnd].
  destruct (String.eqb_spec k k0) as [->|Hne].
  - split; [intros H; inversion H; now left|].
    intros [H|H]; [now inversion H|].
    exfalso. apply Hnotin, list_elem_of_In, in_map_iff. now exists (k0, v).
  - rewrite IH by exact Hnd. split; [tauto|]. intros [H|H]; [inversion H; congruence|exact H].
Qed.
End Facts.
End DictFacts.

(** ** File map: materialising the files *)

Module Materialise.
Import FileMap.

Section WithEnv.
Variable env : Env.
Variable self : t.

Lemma get_mapped_files_from (document_profiles : dict string) (files : dict FileField) :
  readable_or_missing env (tldir self) document_profiles ->
  for_each
    (fun (files : dict FileField) '(filename, doc_id) =>
       let filepath := PyPath.join (tldir self) filename in
       try_except
         (file_contents <- lift (open_read env filepath) ;;
          log_info [Lit "Added file: "; Lit filepath] ;;;
          ret (Dict.set doc_id (Some filename, file_contents, "text/plain") files))
         [([FileNotFoundError],
           fun e => log_error (Lit "File was not found: " :: exn_msg e) ;;; ret files)])
    document_profiles files
  = (materialise_lines env (tldir self) document_profiles,
     Ok (Dict.set_all (readable_fields env (tldir self) document_profiles) files)).
Proof.
  revert files. induction document_profiles as [|[filename doc_id] rest IH]; intros files Hrm;
    [reflexivity|].
  assert (Hrest : readable_or_missing env (tldir self) rest).
  { intros f d Hin. apply (Hrm f d). now right. }
  specialize (Hrm filename doc_id (or_introl eq_refl)).
  cbn [for_each materialise_lines readable_fields flat_map map].
  destruct (open_read env (PyPath.join (tldir self) filename)) as [contents|[c msg]].
  - cbn. rewrite IH by exact Hrest. reflexivity.
  - cbn in Hrm. subst c. cbn. rewrite IH by exact Hrest. reflexivity.
Qed.

Lemma readable_keys (document_profiles : dict string) (doc_id : string) :
  In doc_id (map fst (readable_fields env (tldir self) document_profiles)) ->
  In doc_id (map snd document_profiles).
Proof.
  induction document_profiles as [|[f d] rest IH]; [tauto|].
  cbn. rewrite map_app, in_app_iff. intros [H|H]; [|right; now apply IH].
  destruct (open_read env _); cbn in H; [|destruct H].
  destruct H as [H|[]]. now left.
Qed.

Lemma readable_keys_NoDup (document_profiles : dict string) :
  NoDup (map snd document_profiles) ->
  NoDup (map fst (readable_fields env (tldir self) document_profiles)).
Proof.
  induction document_profiles as [|[f d] rest IH]; cbn; [constructor|].
  intros Hnd. apply NoDup_cons in Hnd as [Hnotin Hnd]. rewrite map_app.
  destruct (open_read env _); cbn; [|now apply IH].
  apply NoDup_cons. split; [|now apply IH].
  intros Hin. apply Hnotin, list_elem_of_In, readable_keys. now apply list_elem_of_In.
Qed.

Lemma readable_fields_In (document_profiles : dict string) (doc_id : string) (field : FileField) :
  In (doc_id, field) (readable_fields env (tldir self) document_profiles) <->
  exists filename contents,
    field = (Some filename, contents, "text/plain")
    /\ In (filename, doc_id) document_profiles
    /\ open_read env (PyPath.join (tldir self) filename) = Ok contents.
Proof.
  unfold readable_fields. rewrite in_flat_map. split.
  - intros ([f d] & Hin & Hfield).
    destruct (open_read env _) as [contents|] eqn:Hread; [|destruct Hfield].
    destruct Hfield as [Heq|[]]. inversion Heq; subst. eauto.
  - intros (f & contents & -> & Hin & Hread). exists (f, doc_id).
    split; [exact Hin|]. rewrite Hread. now left.
Qed.

(** C8, as the code has it.  For a table of profiles with pairwise
    distinct document identifiers: in a tree where every listed file can
    be read or is reported as not found, materialising returns without an
    exception a dictionary that maps a document identifier to
    [(filename, contents, 'text/plain')] exactly for the listed files that
    can be read, and each missing file gives one error line and no entry;
    and when a listed file cannot be opened for another reason, the
    first such file ends the call with its exception, after the lines of
    the files before it. *)
Theorem get_mapped_files_exactly_the_readable (document_profiles : dict string) :
  NoDup (map snd document_profiles) ->
  (readable_or_missing env (tldir self) document_profiles ->
   exists files,
     get_mapped_files env self document_profiles
     = (materialise_lines env (tldir self) document_profiles, Ok files)
     /\ (forall doc_id field,
           Dict.get doc_id files = Some field <->
           exists filename contents,
             field = (Some filename, contents, "text/plain")
             /\ In (filename, doc_id) document_profiles
             /\ open_read env (PyPath.join (tldir self) filename) = Ok contents)
     /\ (forall filename doc_id e,
           In (filename, doc_id) document_profiles ->
           open_read env (PyPath.join (tldir self) filename) = Raise e ->
           Dict.get doc_id files = None
           /\ In (Log ERROR (Lit "File was not found: " :: exn_msg e))
                 (materialise_lines env (tldir self) document_profiles)))
  /\ (forall before filename doc_id after e,
        document_profiles = before ++ (filename, doc_id) :: after ->
        readable_or_missing env (tldir self) before ->
        open_read env (PyPath.join (tldir self) filename) = Raise e ->
        exn_cls e <> FileNotFoundError ->
        get_mapped_files env self document_profiles
        = (materialise_lines env (tldir self) before, Raise e)).
Proof.
  intros Hnd. split.
  { intros Hrm. eexists. split; [apply get_mapped_files_from, Hrm|].
    assert (Hkeys := readable_keys_NoDup document_profiles Hnd).
    assert (Hget : forall doc_id field,
               Dict.get doc_id (Dict.set_all (readable_fields env (tldir self) document_profiles) [])
               = Some field <->
               exists filename contents,
                 field = (Some filename, contents, "text/plain")
                 /\ In (filename, doc_id) document_profiles
                 /\ open_read env (PyPath.join (tldir self) filename) = Ok contents).
    { intros doc_id field. rewrite <- readable_fields_In. split.
      - now apply DictFacts.get_set_all_inv.
      - now apply DictFacts.get_set_all_in. }
    split; [exact Hget|].
    intros filename doc_id e Hin Hread. split.
    - destruct (Dict.get doc_id _) as [field|] eqn:Hfield; [|reflexivity]. exfalso.
      apply Hget in Hfield as (f & contents & _ & Hin' & Hread').
      assert (f = filename); [|subst; congruence].
      clear - Hnd Hin Hin'. induction document_profiles as [|[f0 d0] rest IH]; [destruct Hin|].
      cbn in Hnd. apply NoDup_cons in Hnd as [Hnotin Hnd].
      destruct Hin as [Heq|Hin], Hin' as [Heq'|Hin'].
      + congruence.
      + inversion Heq; subst. exfalso. apply Hnotin, list_elem_of_In, in_map_iff.
        now exists (f, doc_id).
      + inversion Heq'; subst. exfalso. apply Hnotin, list_elem_of_In, in_map_iff.
        now exists (filename, doc_id).
      + now apply IH.
    - unfold materialise_lines. apply in_map_iff. exists (filename, doc_id).
      split; [now rewrite Hread|exact Hin]. }
  intros before filename doc_id after e -> Hbefore Hread Hother.
  pose proof (get_mapped_files_from before [] Hbefore) as Hlines. cbv zeta in Hlines.
  unfold get_mapped_files. rewrite for_each_app, Hlines, bind_pair_ok.
  cbn [for_each]. rewrite Hread. cbn [lift bind try_except dispatch].
  assert (Hnot : caught_by [FileNotFoundError] e = false).
  { destruct e as [c msg]. cbn in Hother. destruct c; try reflexivity. contradiction. }
  rewrite Hnot. cbn. now rewrite app_nil_r.
Qed.
End WithEnv.

Lemma get_mapped_files_exactly_the_readable_witness :
  exists files,
    get_mapped_files Examples.with_file_js (FileMap.mk "/repo" Examples.map_with_T)
                     Examples.profiles_two
    = ([Log INFO [Lit "Added file: "; Lit "/repo/file.js"];
        Log ERROR (Lit "File was not found: "
                     :: exn_msg (Examples.no_such_file "/repo/gone.js"))],
       Ok files)
    /\ Dict.get "docId123" files = Some (Some "file.js", "console.log(1)", "text/plain")
    /\ Dict.get "docId456" files = None
    /\ get_mapped_files Examples.secret_unreadable Examples.map_T1_T3
                        [("file.js", "docId123"); ("secret.js", "docId9")]
       = ([Log INFO [Lit "Added file: "; Lit "/repo/file.js"]],
          Raise (Exn PermissionError [Lit "[Errno 13] Permission denied"])).
Proof.
  assert (Hnd2 : NoDup (map snd [("file.js", "docId123"); ("secret.js", "docId9")])).
  { apply (bool_decide_unpack _). vm_compute. exact I. }
  destruct (get_mapped_files_exactly_the_readable Examples.secret_unreadable
              Examples.map_T1_T3 [("file.js", "docId123"); ("secret.js", "docId9")] Hnd2)
    as (_ & Hstops).
  assert (Hstopped := Hstops [("file.js", "docId123")] "secret.js" "docId9" []
                             Examples.permission_denied eq_refl).
  assert (Hnd : NoDup (map snd Examples.profiles_two)).
  { apply (bool_decide_unpack _). vm_compute. exact I. }
  assert (Hrm : readable_or_missing Examples.with_file_js "/repo" Examples.profiles_two).
  { intros f d [H|[H|[]]]; inversion H; subst; vm_compute; exact I || reflexivity. }
  destruct (get_mapped_files_exactly_the_readable Examples.with_file_js
              (FileMap.mk "/repo" Examples.map_with_T) Examples.profiles_two Hnd)
    as (Hreadable & _).
  destruct (Hreadable Hrm) as (files & Hrun & Hget & Hmissing).
  exists files. split; [exact Hrun|]. split; [|split].
  - apply Hget. exists "file.js", "console.log(1)".
    split; [reflexivity|]. split; [now left|reflexivity].
  - apply (Hmissing "gone.js" "docId456" (Examples.no_such_file "/repo/gone.js")).
    + right. now left.
    + reflexivity.
  - rewrite Hstopped; [reflexivity| |reflexivity|discriminate].
    intros f d [H|[]]; inversion H; subst; vm_compute; exact I || reflexivity.
Defined.

(** The claim as the specification words it fails: a listed file that is
    on disk and cannot be read is not left out of the result; the call
    raises. *)
Lemma unreadable_file_is_not_skipped :
  is_file_on_disk Examples.secret_unreadable (PyPath.join "/repo" "secret.js") = true
  /\ get_mapped_files Examples.secret_unreadable Examples.map_T1_T3
                      [("file.js", "docId123"); ("secret.js", "docId9")]
     = ([Log INFO [Lit "Added file: "; Lit "/repo/file.js"]],
        Raise Examples.permission_denied).
Proof. split; reflexivity. Qed.
End Materialise.

(** ** Push: translating identifiers back to filenames *)

Module Remap.
Import PushCommand.

Lemma find_by_id (profiles : dict string) (key : string) :
  NoDup (map snd profiles) ->
  Dict.get key (reverse_profiles profiles)
  = option_map fst (List.find (fun fd => String.eqb (snd fd) key) profiles).
Proof.
  intros Hnd. unfold reverse_profiles.
  set (swapped := map (fun '(filename, local_doc_id) => (local_doc_id, filename)) profiles).
  assert (Hkeys : map fst swapped = map snd profiles).
  { unfold swapped. rewrite map_map. apply map_ext. now intros []. }
  destruct (List.find _ profiles) as [[f d]|] eqn:Hfind; cbn.
  - apply find_some in Hfind as [Hin Heq]. cbn in Heq. apply String.eqb_eq in Heq. subst d.
    apply DictFacts.get_set_all_in; [now rewrite Hkeys|].
    unfold swapped. apply in_map_iff. now exists (f, key).
  - rewrite DictFacts.get_set_all_notin; [reflexivity|].
    rewrite Hkeys. intros Hin. apply in_map_iff in Hin as ([f d] & Hd & Hin). cbn in Hd. subst d.
    apply (find_none _ _ Hfind) in Hin. cbn in Hin. now rewrite String.eqb_refl in Hin.
Qed.

Lemma translated_known (profiles : dict string) (filename doc_id : string) :
  NoDup (map snd profiles) -> In (filename, doc_id) profiles ->
  translated profiles doc_id = filename.
Proof.
  intros Hnd Hin. unfold translated.
  destruct (List.find _ profiles) as [[f d]|] eqn:Hfind.
  - apply find_some in Hfind as [Hin' Heq]. cbn in *. apply String.eqb_eq in Heq. subst d.
    clear - Hnd Hin Hin'. induction profiles as [|[f0 d0] rest IH]; [destruct Hin|].
    cbn in Hnd. apply NoDup_cons in Hnd as [Hnotin Hnd].
    destruct Hin as [Heq|Hin], Hin' as [Heq'|Hin'].
    + congruence.
    + inversion Heq; subst. exfalso. apply Hnotin, list_elem_of_In, in_map_iff.
      now exists (f, doc_id).
    + inversion Heq'; subst. exfalso. apply Hnotin, list_elem_of_In, in_map_iff.
      now exists (filename, doc_id).
    + now apply IH.
  - apply (find_none _ _ Hfind) in Hin. cbn in Hin. now rewrite String.eqb_refl in Hin.
Qed.

Lemma translated_unknown (profiles : dict string) (doc_id : string) :
  ~ In doc_id (map snd profiles) -> translated profiles doc_id = doc_id.
Proof.
  intros Hnotin. unfold translated.
  destruct (List.find _ profiles) as [[f d]|] eqn:Hfind; [|reflexivity].
  apply find_some in Hfind as [Hin Heq]. cbn in *. apply String.eqb_eq in Heq. subst d.
  exfalso. apply Hnotin, in_map_iff. now exists (f, doc_id).
Qed.

Lemma remap_doc_map_set_all (profiles : dict string) (doc_map : dict pyval) :
  NoDup (map snd profiles) ->
  remap_doc_map (reverse_profiles profiles) doc_map
  = Dict.set_all (map (fun kv => (translated profiles (fst kv), snd kv)) doc_map) [].
Proof.
  intros Hnd. unfold remap_doc_map, Dict.set_all. generalize (@nil (string * pyval)).
  induction doc_map as [|[k v] rest IH]; intros acc; [reflexivity|].
  cbn [fold_left map fst snd]. rewrite IH. f_equal.
  rewrite (find_by_id profiles k Hnd). unfold translated.
  now destruct (List.find _ profiles).
Qed.

(** The entries of a remapped response when no two keys are translated to
    the same key. *)
Lemma remap_doc_map_get (profiles : dict string) (doc_map : dict pyval) (key : string) (v : pyval) :
  NoDup (map snd profiles) ->
  NoDup (map (translated profiles) (Dict.keys doc_map)) ->
  Dict.get key (remap_doc_map (reverse_profiles profiles) doc_map) = Some v <->
  exists doc_id, In (doc_id, v) doc_map /\ key = translated profiles doc_id.
Proof.
  intros Hnd Hinj. rewrite remap_doc_map_set_all by exact Hnd.
  set (renamed := map (fun kv => (translated profiles (fst kv), snd kv)) doc_map).
  assert (Hkeys : NoDup (map fst renamed)).
  { unfold renamed, Dict.keys in *. now rewrite !map_map in *. }
  split.
  - intros Hget. apply DictFacts.get_set_all_inv in Hget; [|exact Hkeys].
    apply in_map_iff in Hget as ([k w] & Heq & Hin). inversion Heq; subst. now exists k.
  - intros (doc_id & Hin & ->). apply DictFacts.get_set_all_in; [exact Hkeys|].
    apply in_map_iff. now exists (doc_id, v).
Qed.

Section WithMap.
Variable self : t.

Lemma remap_fold (l : dict pyval) (acc : dict pyval) :
  (forall target r, In (target, r) l -> remappable (filemap self) target r) ->
  exists renewed,
    length renewed = length l
    /\ map fst renewed = map fst l
    /\ (forall kv w, In (kv, w) (combine l (map snd renewed)) -> remap_entry self kv = Ok w)
    /\ res_fold
         (fun (responses : dict pyval) '(target, doc_map) =>
            res_bind (FileMap.get_document_profiles (filemap self) target) (fun profiles =>
            match profiles with
            | None => Raise (none_has_no "items")
            | Some profiles =>
                match doc_map with
                | PDict doc_map =>
                    Ok (Dict.set target
                          (PDict (remap_doc_map (reverse_profiles profiles) doc_map)) responses)
                | _ => Raise (Exn AttributeError [Lit "object has no attribute 'items'"])
                end
            end))
         l acc
       = Ok (Dict.set_all renewed acc).
Proof.
  revert acc. induction l as [|[target r] rest IH]; intros acc Hok.
  - exists []. repeat split. intros kv w [].
  - destruct (Hok target r (or_introl eq_refl)) as (profiles & doc_map & Hp & ->).
    destruct (IH (Dict.set target (PDict (remap_doc_map (reverse_profiles profiles) doc_map)) acc))
      as (renewed & Hlen & Hfst & Hentries & Hfold).
    { intros t r Hin. apply (Hok t r). now right. }
    exists ((target, PDict (remap_doc_map (reverse_profiles profiles) doc_map)) :: renewed).
    split; [cbn; now rewrite Hlen|]. split; [cbn; now rewrite Hfst|]. split.
    + intros kv w [Heq|Hin]; [|now apply Hentries].
      inversion Heq; subst. unfold remap_entry. cbn [fst snd]. now rewrite Hp.
    + cbn [res_fold]. rewrite Hp. cbn [res_bind]. exact Hfold.
Qed.

Lemma keys_set_all_present (l acc : dict pyval) :
  (forall k, In k (map fst l) -> In k (Dict.keys acc)) ->
  Dict.keys (Dict.set_all l acc) = Dict.keys acc.
Proof.
  revert acc. induction l as [|[k v] rest IH]; intros acc Hin; [reflexivity|].
  change (Dict.set_all ((k, v) :: rest) acc) with (Dict.set_all rest (Dict.set k v acc)).
  assert (Hk : Dict.keys (Dict.set k v acc) = Dict.keys acc).
  { rewrite DictFacts.keys_set. unfold Dict.mem.
    destruct (Dict.get k acc) eqn:Hget; [reflexivity|].
    apply DictFacts.get_None_iff in Hget. exfalso. apply Hget, Hin. now left. }
  rewrite IH; [exact Hk|]. intros k' Hk'. rewrite Hk. apply Hin. now right.
Qed.

(** On remappable responses the step does not raise and keeps the targets
    and their order. *)
Lemma remap_total (target_responses : dict pyval) :
  (forall target r, In (target, r) target_responses ->
                    remappable (filemap self) target r) ->
  exists responses,
    _remap_target_responses self target_responses = Ok responses
    /\ Dict.keys responses = Dict.keys target_responses
    /\ (Dict.wf target_responses ->
        forall target r, In (target, r) target_responses ->
        exists w, remap_entry self (target, r) = Ok w /\ Dict.get target responses = Some w).
Proof.
  intros Hok. destruct (remap_fold target_responses target_responses Hok)
    as (renewed & Hlen & Hfst & Hentries & Hfold).
  exists (Dict.set_all renewed target_responses). split; [exact Hfold|]. split.
  - apply keys_set_all_present. intros k Hk. now rewrite Hfst in Hk.
  - intros Hwf target r Hin.
    assert (Hex : exists w, In ((target, r), w) (combine target_responses (map snd renewed))
                            /\ In (target, w) renewed).
    { clear - Hlen Hfst Hin. revert renewed Hlen Hfst.
      induction target_responses as [|[t0 r0] rest IH]; intros renewed Hlen Hfst; [destruct Hin|].
      destruct renewed as [|[t1 w1] renewed]; [discriminate|]. cbn in *.
      inversion Hfst; subst. destruct Hin as [Heq|Hin].
      - inversion Heq; subst. exists w1. split; now left.
      - destruct (IH Hin renewed) as (w & Hc & Hr); [lia|assumption|].
        exists w. split; now right. }
    destruct Hex as (w & Hc & Hr). exists w. split; [now apply Hentries|].
    apply DictFacts.get_set_all_in; [|exact Hr].
    rewrite Hfst. exact Hwf.
Qed.

(** C6, as the code has it.  Let the responses be dictionaries of targets
    whose profiles are in the file map, with pairwise distinct document
    identifiers in each table of profiles.  Then the remap step returns a
    map with the same targets in the same order, and for a response no two
    keys of which are translated to the same key the new response holds,
    for every key of the old one, its value under the translated key and
    nothing else: under the filename when the key is a document identifier
    of the profiles, under the key itself when it is not. *)
Theorem remap_translates_keys (target_responses : dict pyval) :
  Dict.wf target_responses ->
  (forall target r, In (target, r) target_responses ->
                    remappable (filemap self) target r) ->
  exists responses,
    _remap_target_responses self target_responses = Ok responses
    /\ Dict.keys responses = Dict.keys target_responses
    /\ (forall target doc_map profiles,
          In (target, PDict doc_map) target_responses ->
          FileMap.get_document_profiles (filemap self) target = Ok (Some profiles) ->
          NoDup (map snd profiles) ->
          NoDup (map (translated profiles) (Dict.keys doc_map)) ->
          exists new_doc_map,
            Dict.get target responses = Some (PDict new_doc_map)
            /\ (forall key v,
                  Dict.get key new_doc_map = Some v <->
                  exists doc_id, In (doc_id, v) doc_map /\ key = translated profiles doc_id)
            /\ (forall doc_id v filename,
                  In (doc_id, v) doc_map -> In (filename, doc_id) profiles ->
                  Dict.get filename new_doc_map = Some v)
            /\ (forall doc_id v,
                  In (doc_id, v) doc_map -> ~ In doc_id (map snd profiles) ->
                  Dict.get doc_id new_doc_map = Some v)).
Proof.
  intros Hwf Hok. destruct (remap_total target_responses Hok) as (responses & Hrun & Hkeys & Hget).
  exists responses. split; [exact Hrun|]. split; [exact Hkeys|].
  intros target doc_map profiles Hin Hp Hnd Hinj.
  destruct (Hget Hwf target (PDict doc_map) Hin) as (w & Hentry & Hw).
  unfold remap_entry in Hentry. cbn [fst snd] in Hentry. rewrite Hp in Hentry.
  cbn in Hentry. inversion Hentry; subst w. clear Hentry.
  eexists. split; [exact Hw|].
  assert (Hall := fun key v => remap_doc_map_get profiles doc_map key v Hnd Hinj).
  split; [exact Hall|]. split.
  - intros doc_id v filename Hv Hf. apply Hall. exists doc_id.
    split; [exact Hv|]. symmetry. now apply translated_known.
  - intros doc_id v Hv Hunknown. apply Hall. exists doc_id.
    split; [exact Hv|]. symmetry. now apply translated_unknown.
Qed.
End WithMap.

Lemma remap_translates_keys_witness :
  _remap_target_responses Examples.push_T Examples.response_of_T
  = Ok [("T", PDict [("file.js", Examples.version_7)])].
Proof.
  assert (Hwf : Dict.wf Examples.response_of_T).
  { apply (bool_decide_unpack _). vm_compute. exact I. }
  assert (Hok : forall target r, In (target, r) Examples.response_of_T ->
                                 remappable (filemap Examples.push_T) target r).
  { intros target r [H|[]]. inversion H; subst. do 2 eexists. split; reflexivity. }
  destruct (remap_translates_keys Examples.push_T Examples.response_of_T Hwf Hok)
    as (responses & Hrun & _).
  rewrite Hrun. f_equal. vm_compute in Hrun. now inversion Hrun.
Defined.

(** The claim as the specification words it fails: the value of a known
    identifier is lost when the response also has a key spelled like the
    filename it is translated to. *)
Lemma remap_loses_a_value_on_a_clash :
  In ("docId123", Examples.version_7) [("docId123", Examples.version_7);
                                       ("file.js", Examples.version_8)]
  /\ FileMap.get_document_profiles (filemap Examples.push_T) "T"
     = Ok (Some [("file.js", "docId123")])
  /\ _remap_target_responses Examples.push_T Examples.response_with_clash
     = Ok [("T", PDict [("file.js", Examples.version_8)])]
  /\ Dict.get "file.js" [("file.js", Examples.version_8)] <> Some Examples.version_7.
Proof.
  split; [now left|]. split; [reflexivity|]. split; [reflexivity|]. discriminate.
Qed.
End Remap.

(** ** Push: the timestamp of the tag *)

Module Timestamp.
Import DateTime.

Lemma digit_cases (n : N) :
  exists k, (k < 10)%N /\ digit n = ascii_of_N (48 + k).
Proof. exists (n mod 10)%N. split; [apply N.mod_lt; discriminate|reflexivity]. Qed.

Lemma digit_is_digit (n : N) : PyStr.is_digit (digit n) = true.
Proof.
  destruct (digit_cases n) as (k & Hk & ->).
  assert (H : (k = 0 \/ k = 1 \/ k = 2 \/ k = 3 \/ k = 4 \/ k = 5 \/ k = 6 \/ k = 7
               \/ k = 8 \/ k = 9)%N) by lia.
  repeat (destruct H as [->|H]; [reflexivity|]). now subst.
Qed.

Lemma digit_not (c : ascii) (n : N) :
  PyStr.is_digit c = false -> Ascii.eqb (digit n) c = false.
Proof.
  intros Hc. destruct (Ascii.eqb_spec (digit n) c) as [<-|]; [|reflexivity].
  now rewrite digit_is_digit in Hc.
Qed.

Lemma digit_dash (n : N) : Ascii.eqb (digit n) "-" = false.
Proof. now apply digit_not. Qed.

Lemma digit_colon (n : N) : Ascii.eqb (digit n) ":" = false.
Proof. now apply digit_not. Qed.

Lemma digit_dot (n : N) : Ascii.eqb (digit n) "." = false.
Proof. now apply digit_not. Qed.

Lemma remove_char_keeps (c a : ascii) (s : string) :
  Ascii.eqb a c = false ->
  PyStr.remove_char c (String a s) = String a (PyStr.remove_char c s).
Proof. intros H. cbn. now rewrite H. Qed.

Lemma remove_char_drops (c : ascii) (s : string) :
  PyStr.remove_char c (String c s) = PyStr.remove_char c s.
Proof. cbn. now rewrite Ascii.eqb_refl. Qed.

Lemma hd_split_keeps (c a : ascii) (s : string) :
  Ascii.eqb a c = false ->
  hd EmptyString (PyStr.split c (String a s)) = String a (hd EmptyString (PyStr.split c s)).
Proof.
  intros H. cbn. rewrite H.
  destruct (PyStr.split c s) eqn:Hs; [|reflexivity].
  now apply PyStrFacts.split_not_nil in Hs.
Qed.

Lemma hd_split_stops (c : ascii) (s : string) :
  hd EmptyString (PyStr.split c (String c s)) = EmptyString.
Proof. cbn. now rewrite Ascii.eqb_refl. Qed.

(** One step of the walk of [replace] and [split] along the timestamp. *)
Ltac walk :=
  first
    [ rewrite remove_char_drops
    | rewrite remove_char_keeps by (reflexivity || apply digit_dash || apply digit_colon)
    | rewrite hd_split_stops
    | rewrite hd_split_keeps by (reflexivity || apply digit_dot) ].

(** The text between the dots of the name of a tag is the reading of the
    clock as [YYYYMMDDTHHMMSS], with or without microseconds on the clock. *)
Lemma tag_timestamp_stamp (d : t) : PushCommand.tag_timestamp d = stamp d.
Proof.
  unfold PushCommand.tag_timestamp, isoformat, stamp, pad6, pad4, pad2.
  destruct (N.eqb (microsecond d) 0);
    cbv beta iota delta [String.append]; repeat walk; reflexivity.
Qed.

Lemma stamp_length (d : t) : String.length (stamp d) = 15%nat.
Proof. reflexivity. Qed.
End Timestamp.

(** ** Push: sending to the targets *)

Lemma runs_app (a b : list event) : runs (a ++ b) = runs a ++ runs b.
Proof. apply flat_map_app. Qed.

Lemma runs_nil : runs [] = [].
Proof. reflexivity. Qed.

Lemma runs_cons (ev : event) (t : list event) :
  runs (ev :: t) = match ev with Run argv => [argv] | _ => [] end ++ runs t.
Proof. reflexivity. Qed.

Arguments runs : simpl never.

Create Rewrite HintDb runs.
#[local] Hint Rewrite runs_app runs_nil runs_cons app_nil_r : runs.

(** Brings the commands of an explicit trace into the open. *)
Ltac show_runs := autorewrite with runs; cbn [app].

Lemma network_error_caught (e : exn) :
  is_network_error (exn_cls e) = true -> caught_by [RequestException] e = true.
Proof. destruct e as [c msg]. destruct c; (reflexivity || discriminate). Qed.

Lemma filesystem_error_caught (e : exn) :
  is_filesystem_error (exn_cls e) = true ->
  caught_by [RequestException] e = false
  /\ caught_by [FileNotFoundError; IsADirectoryError; NotADirectoryError; OSError] e = true.
Proof.
  destruct e as [c msg]. destruct c; cbn; intros H; (discriminate H || (split; reflexivity)).
Qed.

Arguments caught_by : simpl never.

(** Finds a line in a trace built by concatenation. *)
Ltac find_line := cbn [In]; rewrite ?in_app_iff; cbn [In]; tauto.

Module Send.
Import PushCommand.

Section WithEnv.
Variable env : Env.
Variable self : t.

Lemma run_cli_command_shape (argv : list string) :
  exists logs,
    run_cli_command env argv = (Run argv :: logs, Ok (git_output env argv))
    /\ runs logs = [].
Proof.
  unfold git_output. destruct (subprocess_run env argv) as [out|e] eqn:H.
  - exists []. split; [now apply run_cli_command_success|reflexivity].
  - unfold run_cli_command, try_except, bind, emit, lift. rewrite H.
    destruct e as [c msg]. destruct c; cbn; eexists; split; reflexivity.
Qed.

Lemma get_client_data_shape :
  exists t,
    _get_client_data env self = (t, Ok (client_data env self))
    /\ runs t = [["git"; "rev-parse"; "HEAD"];
                 ["git"; "rev-parse"; "--abbrev-ref"; "HEAD"];
                 ["git"; "log"; "-1"; "--pretty=%B"]].
Proof.
  unfold _get_client_data, client_data.
  destruct (run_cli_command_shape ["git"; "rev-parse"; "HEAD"]) as (l1 & -> & H1).
  destruct (run_cli_command_shape ["git"; "rev-parse"; "--abbrev-ref"; "HEAD"]) as (l2 & -> & H2).
  destruct (run_cli_command_shape ["git"; "log"; "-1"; "--pretty=%B"]) as (l3 & -> & H3).
  cbn. eexists. split; [reflexivity|].
  show_runs. rewrite H1, H2, H3. reflexivity.
Qed.

Lemma parse_contents_quiet (r : Response.t) :
  exists logs v, APIAdaptor._parse_contents r = (logs, Ok v) /\ runs logs = [].
Proof.
  unfold APIAdaptor._parse_contents, Response.call_json.
  destruct (_ || _)%bool.
  - destruct (Response.soup_body_text r); do 2 eexists; split; reflexivity.
  - destruct (PyStr.contains "application/json" _); [|do 2 eexists; split; reflexivity].
    destruct (Response.json r); cbn; do 2 eexists; split; reflexivity.
Qed.

(** The handler returns, or raises one of the errors of [requests]. *)
Lemma response_hander_shape (r : Response.t) :
  exists logs,
    runs logs = []
    /\ ((exists v, APIAdaptor._response_hander r = (logs, Ok v))
        \/ (exists e, APIAdaptor._response_hander r = (logs, Raise e)
                      /\ is_network_error (exn_cls e) = true)).
Proof.
  destruct (parse_contents_quiet r) as (logs & v & Hparse & Hquiet).
  exists logs. split; [exact Hquiet|].
  unfold APIAdaptor._response_hander. rewrite Hparse. unfold bind.
  destruct (_ && _)%bool; cbn; [left; eexists; now rewrite app_nil_r|].
  destruct (Response.status_code r =? 400); cbn.
  { right. eexists. rewrite app_nil_r. split; reflexivity. }
  destruct (Response.status_code r =? 401); cbn;
    right; eexists; rewrite app_nil_r; split; reflexivity.
Qed.

Lemma materialise_lines_quiet (tld : string) (profiles : dict string) :
  runs (materialise_lines env tld profiles) = [].
Proof.
  induction profiles as [|[f d] rest IH]; [reflexivity|].
  cbn. destruct (open_read env _); exact IH.
Qed.
Hypothesis prepared : prepared_for_failures env self.

Lemma profiles_of_mapped (target : string) (api : APIAdaptor.t) :
  In (target, api) (api_connections self) ->
  exists props,
    FileMap.target_properties (filemap self) target = Ok props
    /\ FileMap.get_document_profiles (filemap self) target = Ok (Some (profiles_of self target))
    /\ readable_or_missing env (FileMap.tldir (filemap self)) (profiles_of self target).
Proof.
  intros Hin.
  destruct (targets_mapped env self prepared target api Hin) as (props & profiles & Hp & Hd & Hr).
  exists props. unfold profiles_of, FileMap.get_document_profiles. rewrite Hp, Hd. auto.
Qed.

(** The submit step returns the response of the target, after the request
    has been sent; a failed request is logged. *)
Lemma post_shape (target : string) (api : APIAdaptor.t) :
  In (target, api) (api_connections self) ->
  exists t,
    _post_files_to_target env self target api (client_data env self)
    = (t, Ok (submit_outcome env self target api))
    /\ runs t = []
    /\ In (Post (endpoint_of env api) (params_of self api) (submitted_files env self target)) t
    /\ (forall e, answer env self target api = Raise e -> In (pushing_line api e) t).
Proof.
  intros Hin. destruct (profiles_of_mapped target api Hin) as (props & _ & Hgdp & Hread).
  unfold _post_files_to_target. rewrite Hgdp, bind_lift_ok.
  unfold FileMap.get_mapped_files. rewrite Materialise.get_mapped_files_from by exact Hread.
  rewrite bind_pair_ok.
  fold (submitted_files env self target).
  unfold post_files, submit_outcome.
  fold (endpoint_of env api). fold (params_of self api).
  change (requests_post env (endpoint_of env api) (APIAdaptor.auth api) (params_of self api)
                        (submitted_files env self target))
    with (answer env self target api).
  pose proof (materialise_lines_quiet (FileMap.tldir (filemap self)) (profiles_of self target))
    as Hlines.
  destruct (answer env self target api) as [response|e] eqn:Hanswer.
  - destruct (response_hander_shape response) as (logs & Hq & [(v & Hh)|(e & Hh & Hnet)]).
    + unfold log_debug, emit, lift, bind, try_except. rewrite Hh. cbn.
      eexists. split; [reflexivity|]. split; [show_runs; now rewrite Hlines, Hq|].
      split; [|discriminate]. apply in_or_app. right. right. now left.
    + unfold log_debug, emit, lift, bind, try_except. rewrite Hh. cbn.
      rewrite (network_error_caught _ Hnet). cbn.
      eexists. split; [reflexivity|]. split; [show_runs; now rewrite Hlines, Hq|].
      split; [|discriminate]. apply in_or_app. right. right. now left.
  - pose proof (requests_fail_by_network env self prepared _ _ _ _ _ Hanswer) as Hnet.
    unfold log_debug, emit, lift, bind, try_except. cbn.
    rewrite (network_error_caught _ Hnet). cbn.
    eexists. split; [reflexivity|]. split; [show_runs; now rewrite Hlines|].
    split.
    + apply in_or_app. right. right. now left.
    + intros e' He'. inversion He'; subst e'. apply in_or_app. right.
      do 2 right. now left.
Qed.

(** The mirroring step returns or raises a filesystem error. *)
Lemma copy_shape (target : string) (api : APIAdaptor.t) :
  In (target, api) (api_connections self) ->
  exists t,
    runs t = []
    /\ (_copy_files_to_target env self target (client_data env self) = (t, Ok tt)
        \/ exists e,
             _copy_files_to_target env self target (client_data env self) = (t, Raise e)
             /\ is_filesystem_error (exn_cls e) = true).
Proof.
  intros Hin. destruct (profiles_of_mapped target api Hin) as (props & Hprops & _ & _).
  remember (_copy_files_to_target env self target (client_data env self)) as m eqn:Hm.
  unfold _copy_files_to_target, FileMap.get_module_directory in Hm.
  rewrite Hprops, bind_lift_ok in Hm.
  destruct (negb (PyStr.nonempty _)).
  { subst m. eexists. split; [|left; reflexivity]. reflexivity. }
  destruct (commit_known env self prepared) as (out & Hsha).
  assert (Hout : git_output env ["git"; "rev-parse"; "HEAD"] = Some (PyStr.strip out))
    by (unfold git_output; now rewrite Hsha).
  unfold client_data at 1 in Hm. cbn [Dict.get String.eqb Ascii.eqb Bool.eqb] in Hm.
  rewrite Hout in Hm. cbn [opt_str] in Hm.
  unfold emit, lift, bind, log_debug in Hm.
  destruct (mirror env _ _) as [[]|e] eqn:Hmirror.
  - destruct (open_write env _ _) as [[]|e] eqn:Hwrite; cbn in Hm; subst m.
    + eexists. split; [|left; reflexivity]. reflexivity.
    + eexists. split; [|right; exists e; split; [reflexivity|]]; [reflexivity|].
      exact (write_fails_by_filesystem env self prepared _ _ _ Hwrite).
  - cbn in Hm. subst m. eexists. split; [|right; exists e; split; [reflexivity|]]; [reflexivity|].
    exact (mirror_fails_by_filesystem env self prepared _ _ _ Hmirror).
Qed.
Lemma continue_Yn_shape (target : string) :
  UserInputHandler.continue_Yn env (Some ("Sending files to " ++ target ++ ".")%string)
  = ([Input (prompt_of target)], Ok (accepted env target)).
Proof.
  unfold UserInputHandler.continue_Yn, UserInputHandler._continue, accepted.
  change (PyStr.upper "Y") with "Y".
  cbn [String.eqb Ascii.eqb Bool.eqb].
  change (PyStr.nonempty ("Sending files to " ++ target ++ ".")%string) with true.
  cbv iota.
  assert (Hprompt : ((("Sending files to " ++ target ++ ".") ++ " ") ++
                     "Continue? (" ++ "Y" ++ "/" ++ "n" ++ "): ")%string = prompt_of target).
  { rewrite !PyStrFacts.append_assoc. reflexivity. }
  rewrite Hprompt. reflexivity.
Qed.

(** One turn of the loop: the prompt, and for an accepted target the
    request, the mirroring, and the entry of the response when it counts
    as one.  Nothing is raised, and every failure leaves its line. *)
Lemma send_one_shape (st : send_state) (target : string) (api : APIAdaptor.t) :
  In (target, api) (api_connections self) ->
  exists t,
    send_one env self (client_data env self) st (target, api)
    = (t, Ok (mk_send
                (if accepted env target then Some (submit_outcome env self target api)
                 else response st)
                (if responded env self (target, api)
                 then Dict.set target (submit_outcome env self target api) (target_responses st)
                 else target_responses st)))
    /\ runs t = []
    /\ In (Input (prompt_of target)) t
    /\ (accepted env target = true ->
        In (Post (endpoint_of env api) (params_of self api) (submitted_files env self target)) t
        /\ (forall e, answer env self target api = Raise e -> In (pushing_line api e) t)
        /\ (truthy (submit_outcome env self target api) = false ->
            In (no_response_line target) t)
        /\ (forall e,
              result (_copy_files_to_target env self target (client_data env self)) = Raise e ->
              In (copying_line target e) t)).
Proof.
  intros Hin. unfold send_one, responded. cbn [fst snd].
  rewrite continue_Yn_shape, bind_pair_ok.
  destruct (accepted env target) eqn:Hacc; cbn [negb andb].
  { destruct (post_shape target api Hin) as (tp & Hpost & Hqp & Hsent & Hfail).
    destruct (copy_shape target api Hin) as (tc & Hqc & [Hcopy|(e & Hcopy & Hfs)]).
    - rewrite Hpost, Hcopy. cbn.
      destruct (truthy (submit_outcome env self target api)) eqn:Htruthy; cbn;
        (eexists; split; [reflexivity|]);
        (split; [show_runs; now rewrite Hqp, Hqc|]);
        (split; [now left|]); intros _;
        (split; [find_line|]);
        (split; [intros e He; specialize (Hfail e He); find_line|]);
        (split; [|discriminate]); [discriminate|intros _; find_line].
    - destruct (filesystem_error_caught e Hfs) as [Hnot Hyes].
      rewrite Hpost, Hcopy. cbn. rewrite Hnot, Hyes. cbn.
      destruct (truthy (submit_outcome env self target api)) eqn:Htruthy; cbn;
        (eexists; split; [reflexivity|]);
        (split; [show_runs; now rewrite Hqp, Hqc|]);
        (split; [now left|]); intros _;
        (split; [find_line|]);
        (split; [intros e' He'; specialize (Hfail e' He'); find_line|]);
        (split; [|intros e' He'; inversion He'; subst e'; unfold copying_line; find_line]);
        [discriminate|intros _; find_line]. }
  destruct st as [r0 d0]. cbn. eexists. split; [reflexivity|]. split; [reflexivity|].
  split; [now left|]. discriminate.
Qed.
Lemma entries_of_keys (l : dict APIAdaptor.t) (k : string) :
  In k (map fst (entries_of env self l)) -> In k (map fst l).
Proof.
  induction l as [|[t0 a0] rest IH]; [tauto|].
  cbn. rewrite map_app, in_app_iff. intros [H|H]; [|right; now apply IH].
  destruct (responded env self (t0, a0)); [|destruct H]. destruct H as [H|[]]. now left.
Qed.

Lemma entries_of_NoDup (l : dict APIAdaptor.t) :
  NoDup (map fst l) -> NoDup (map fst (entries_of env self l)).
Proof.
  induction l as [|[t0 a0] rest IH]; cbn; [constructor|].
  intros Hnd. apply NoDup_cons in Hnd as [Hnotin Hnd]. rewrite map_app.
  destruct (responded env self (t0, a0)); cbn; [|now apply IH].
  apply NoDup_cons. split; [|now apply IH].
  intros Hin. apply Hnotin, list_elem_of_In, entries_of_keys. now apply list_elem_of_In.
Qed.

Lemma entries_of_In (l : dict APIAdaptor.t) (target : string) (r : pyval) :
  In (target, r) (entries_of env self l) <->
  exists api, In (target, api) l
              /\ accepted env target = true
              /\ truthy (submit_outcome env self target api) = true
              /\ r = submit_outcome env self target api.
Proof.
  unfold entries_of. rewrite in_flat_map. split.
  - intros ([t0 a0] & Hin & Hentry). unfold responded in Hentry. cbn [fst snd] in Hentry.
    destruct (accepted env t0) eqn:Ha; [|destruct Hentry].
    destruct (truthy _) eqn:Ht; [|destruct Hentry].
    destruct Hentry as [Heq|[]]. inversion Heq; subst. exists a0. auto.
  - intros (api & Hin & Ha & Ht & ->). exists (target, api). split; [exact Hin|].
    unfold responded. cbn [fst snd]. rewrite Ha, Ht. now left.
Qed.

Lemma leaves_its_lines_app (a b c : list event) (target : string) (api : APIAdaptor.t) :
  leaves_its_lines env self b target api -> leaves_its_lines env self (a ++ b ++ c) target api.
Proof.
  unfold leaves_its_lines. intros (Hi & Hrest). split; [find_line|].
  intros Ha. destruct (Hrest Ha) as (Hp & Hf & Hn & Hc).
  split; [find_line|]. split; [intros e He; specialize (Hf e He); find_line|].
  split; [intros Ht; specialize (Hn Ht); find_line|].
  intros e He. specialize (Hc e He). find_line.
Qed.

Lemma send_loop (l : dict APIAdaptor.t) (st : send_state) :
  (forall kv, In kv l -> In kv (api_connections self)) ->
  exists t st',
    for_each (send_one env self (client_data env self)) l st = (t, Ok st')
    /\ target_responses st' = Dict.set_all (entries_of env self l) (target_responses st)
    /\ runs t = []
    /\ (forall target api, In (target, api) l -> leaves_its_lines env self t target api).
Proof.
  revert st. induction l as [|[target api] rest IH]; intros st Hsub.
  - exists [], st. split; [reflexivity|]. split; [reflexivity|]. split; [reflexivity|].
    intros ? ? [].
  - destruct (send_one_shape st target api (Hsub _ (or_introl eq_refl)))
      as (t1 & Hone & Hq1 & Hlines1).
    cbn [for_each]. rewrite Hone, bind_pair_ok.
    match goal with |- context [for_each _ rest ?s] => destruct (IH s) as (t2 & st' & Hrest & Hmap & Hq2 & Hlines2) end.
    { intros kv Hkv. apply Hsub. now right. }
    rewrite Hrest. cbn [trace result fst snd].
    exists (t1 ++ t2), st'. split; [reflexivity|]. split.
    + rewrite Hmap. cbn [target_responses entries_of flat_map].
      fold (entries_of env self rest).
      destruct (responded env self (target, api)); reflexivity.
    + split; [show_runs; now rewrite Hq1, Hq2|].
      intros t0 a0 [Heq|Hin].
      * inversion Heq; subst.
        apply (leaves_its_lines_app [] t1 t2). exact Hlines1.
      * specialize (Hlines2 t0 a0 Hin).
        rewrite <- (app_nil_r t2). now apply (leaves_its_lines_app t1 t2 []).
Qed.

(** The whole loop: no exception, the expected response map, and the lines
    of every target. *)
Lemma send_all_shape :
  Dict.wf (api_connections self) ->
  exists t,
    _send_all env self = (t, Ok (expected_responses env self))
    /\ runs t = [["git"; "rev-parse"; "HEAD"];
                 ["git"; "rev-parse"; "--abbrev-ref"; "HEAD"];
                 ["git"; "log"; "-1"; "--pretty=%B"]]
    /\ (forall target api, In (target, api) (api_connections self) ->
                           leaves_its_lines env self t target api).
Proof.
  intros Hwf. unfold _send_all.
  destruct get_client_data_shape as (t0 & -> & Hq0). rewrite bind_pair_ok.
  destruct (send_loop (api_connections self) (mk_send None [])) as (t1 & st' & Hloop & Hmap & Hq1 & Hlines);
    [auto|].
  rewrite Hloop. cbn. rewrite app_nil_r. eexists. split; [|split].
  - f_equal. f_equal. rewrite Hmap. cbn [target_responses].
    rewrite DictFacts.set_all_fresh; [reflexivity|now apply entries_of_NoDup|].
    intros k _ [].
  - show_runs. now rewrite Hq0, Hq1.
  - intros target api Hin. rewrite <- (app_nil_r t1).
    apply (leaves_its_lines_app t0 t1 []). now apply Hlines.
Qed.
Lemma gate_runs :
  runs (trace (_commit_state_is_valid env self)) = [["git"; "status"; "--porcelain"]].
Proof.
  unfold _commit_state_is_valid, has_uncommitted_changes.
  destruct (run_cli_command_shape ["git"; "status"; "--porcelain"]) as (logs & -> & Hq).
  destruct (git_output env _) as [status|]; cbn.
  - destruct (_ && _)%bool; cbn; show_runs; now rewrite Hq.
  - show_runs. now rewrite Hq.
Qed.

(** A push that passes its gate and whose responses are dictionaries runs
    the four git queries and then one tag command when the response map is
    not empty, and none when it is. *)
Lemma execute_shape :
  Dict.wf (api_connections self) ->
  result (_commit_state_is_valid env self) = Ok true ->
  (forall target r, In (target, r) (expected_responses env self) -> exists d, r = PDict d) ->
  exists t processed,
    execute env self = (t, Ok tt)
    /\ _remap_target_responses self (expected_responses env self) = Ok processed
    /\ Dict.keys processed = Dict.keys (expected_responses env self)
    /\ runs t = ["git"; "status"; "--porcelain"]
                :: ["git"; "rev-parse"; "HEAD"]
                :: ["git"; "rev-parse"; "--abbrev-ref"; "HEAD"]
                :: ["git"; "log"; "-1"; "--pretty=%B"]
                :: match expected_responses env self with
                   | [] => []
                   | _ => [tag_argv env self processed]
                   end.
Proof.
  intros Hwf Hgate Hdicts.
  destruct (send_all_shape Hwf) as (ts & Hsend & Hqs & _).
  destruct (Remap.remap_total self (expected_responses env self))
    as (processed & Hremap & Hkeys & _).
  { intros target r Hin. destruct (Hdicts target r Hin) as (d & ->).
    apply entries_of_In in Hin as (api & Hin & _).
    destruct (profiles_of_mapped target api Hin) as (props & _ & Hgdp & _).
    do 2 eexists. split; [exact Hgdp|reflexivity]. }
  pose proof gate_runs as Hqg.
  unfold execute. rewrite (M_eta (_commit_state_is_valid env self)), Hgate.
  unfold log_debug, emit. rewrite bind_pair_ok. rewrite bind_pair_ok. cbn [negb].
  rewrite Hsend, bind_pair_ok.
  destruct (expected_responses env self) as [|entry rest] eqn:Hexp.
  - exists ([Log DEBUG [Lit "Executing "; Lit (command self);
                         Lit " command with connections ";
                         Strs (Dict.keys (api_connections self))]]
            ++ trace (_commit_state_is_valid env self) ++ ts ++ []), processed.
    split; [reflexivity|]. split; [exact Hremap|]. split; [exact Hkeys|].
    show_runs. now rewrite Hqg, Hqs.
  - rewrite Hremap, bind_lift_ok. unfold _create_git_tags.
    destruct (run_cli_command_shape (tag_argv env self processed)) as (logs & Hrun & Hq).
    unfold tag_argv in Hrun. rewrite Hrun. cbn.
    eexists. exists processed. split; [reflexivity|]. split; [reflexivity|].
    split; [exact Hkeys|]. show_runs. now rewrite Hqg, Hqs, Hq.
Qed.

Lemma entries_of_responded (l : dict APIAdaptor.t) :
  Dict.keys (entries_of env self l) = map fst (List.filter (responded env self) l).
Proof.
  unfold Dict.keys, entries_of. induction l as [|kv rest IH]; [reflexivity|].
  cbn [flat_map List.filter].
  destruct (responded env self kv); cbn [app map fst]; now rewrite IH.
Qed.

Lemma unanswered_is_none (target : string) (api : APIAdaptor.t) (e : exn) :
  answer env self target api = Raise e -> submit_outcome env self target api = PNone.
Proof. intros H. unfold submit_outcome. now rewrite H. Qed.
End WithEnv.

(** C1, as the code has it.  Let the push be prepared for failures: the
    files of every target can be read or are missing, requests fail with
    network errors only and the mirroring of module directories with
    filesystem errors only.  Then sending raises nothing; every target is
    prompted for, and every accepted target is sent its request, whatever
    happened to the targets before it; a failed request leaves its error
    line and the line of a target without response, and no entry; a failed
    mirroring leaves its error line and does not take back the entry of a
    target that responded; the response map holds exactly the accepted
    targets whose response is a true value.  When the gate is passed and
    the responses are dictionaries, the push ends without an exception,
    with one tag over the targets of the response map when that map is not
    empty, and no tag when it is. *)
Theorem send_all_partial_success (env : Env) (self : t) :
  Dict.wf (api_connections self) ->
  prepared_for_failures env self ->
  exists t,
    _send_all env self = (t, Ok (expected_responses env self))
    /\ (forall target api, In (target, api) (api_connections self) ->
                           leaves_its_lines env self t target api)
    /\ (forall target api e,
          In (target, api) (api_connections self) -> accepted env target = true ->
          answer env self target api = Raise e ->
          In (pushing_line api e) t /\ In (no_response_line target) t
          /\ Dict.get target (expected_responses env self) = None)
    /\ (forall target api e,
          In (target, api) (api_connections self) -> accepted env target = true ->
          result (_copy_files_to_target env self target (client_data env self)) = Raise e ->
          In (copying_line target e) t
          /\ (truthy (submit_outcome env self target api) = true ->
              Dict.get target (expected_responses env self)
              = Some (submit_outcome env self target api)))
    /\ (forall target r,
          Dict.get target (expected_responses env self) = Some r <->
          exists api, In (target, api) (api_connections self)
                      /\ accepted env target = true
                      /\ truthy (submit_outcome env self target api) = true
                      /\ r = submit_outcome env self target api)
    /\ (result (_commit_state_is_valid env self) = Ok true ->
        (forall target r, In (target, r) (expected_responses env self) -> exists d, r = PDict d) ->
        exists t' processed,
          execute env self = (t', Ok tt)
          /\ Dict.keys processed = Dict.keys (expected_responses env self)
          /\ tag_commands t' = match expected_responses env self with
                               | [] => []
                               | _ => [tag_argv env self processed]
                               end).
Proof.
  intros Hwf Hprep.
  destruct (send_all_shape env self Hprep Hwf) as (t & Hsend & _ & Hlines).
  assert (Hnd : NoDup (map fst (expected_responses env self)))
    by now apply entries_of_NoDup.
  assert (Hget : forall target r,
             Dict.get target (expected_responses env self) = Some r <->
             exists api, In (target, api) (api_connections self)
                         /\ accepted env target = true
                         /\ truthy (submit_outcome env self target api) = true
                         /\ r = submit_outcome env self target api).
  { intros target r. rewrite DictFacts.get_In by exact Hnd. apply entries_of_In. }
  exists t. split; [exact Hsend|]. split; [exact Hlines|]. split; [|split; [|split]].
  - intros target api e Hin Hacc Hfail.
    destruct (Hlines target api Hin) as (_ & Hrest).
    destruct (Hrest Hacc) as (_ & Hpush & Hnone & _).
    pose proof (unanswered_is_none env self target api e Hfail) as Hout.
    split; [now apply Hpush|]. split; [apply Hnone; now rewrite Hout|].
    destruct (Dict.get target _) as [r|] eqn:Hr; [|reflexivity]. exfalso.
    apply Hget in Hr as (api' & Hin' & _ & Htruthy & _).
    assert (api' = api); [|subst api'; rewrite Hout in Htruthy; discriminate].
    clear - Hwf Hin Hin'. unfold Dict.wf, Dict.keys in Hwf.
    induction (api_connections self) as [|[t0 a0] rest IH]; [destruct Hin|].
    cbn in Hwf. apply NoDup_cons in Hwf as [Hnotin Hwf].
    destruct Hin as [Heq|Hin], Hin' as [Heq'|Hin'].
    + congruence.
    + inversion Heq; subst. exfalso. apply Hnotin, list_elem_of_In, in_map_iff.
      now exists (target, api').
    + inversion Heq'; subst. exfalso. apply Hnotin, list_elem_of_In, in_map_iff.
      now exists (target, api).
    + now apply IH.
  - intros target api e Hin Hacc Hcopy.
    destruct (Hlines target api Hin) as (_ & Hrest).
    destruct (Hrest Hacc) as (_ & _ & _ & Hline).
    split; [now apply Hline|]. intros Htruthy. apply Hget. exists api. auto.
  - exact Hget.
  - intros Hgate Hdicts.
    destruct (execute_shape env self Hprep Hwf Hgate Hdicts)
      as (t' & processed & Hexec & _ & Hkeys & Hruns).
    exists t', processed. split; [exact Hexec|]. split; [exact Hkeys|].
    unfold tag_commands. rewrite Hruns.
    destruct (expected_responses env self); reflexivity.
Qed.

(** C3, as the code has it.  Under the same conditions, for the [push]
    command: when at least one target responded the push runs exactly one
    [git tag -a] command, for the tag named [push.], the names of the
    targets that responded joined by [-] in the order of the request, a
    dot and the reading of [datetime.now()], the local clock, as
    [YYYYMMDDTHHMMSS], with the pretty-printed remapped response map as
    its message; when no target responded it runs none. *)
Theorem tag_names_the_responding_targets (env : Env) (self : t) :
  command self = "push" ->
  Dict.wf (api_connections self) ->
  prepared_for_failures env self ->
  result (_commit_state_is_valid env self) = Ok true ->
  (forall target r, In (target, r) (expected_responses env self) -> exists d, r = PDict d) ->
  exists t processed,
    execute env self = (t, Ok tt)
    /\ _remap_target_responses self (expected_responses env self) = Ok processed
    /\ Dict.keys (expected_responses env self)
       = map fst (List.filter (responded env self) (api_connections self))
    /\ (expected_responses env self = [] -> tag_commands t = [])
    /\ (expected_responses env self <> [] ->
        tag_commands t
        = [["git"; "tag"; "-a";
            ("push." ++ PyStr.join "-" (Dict.keys (expected_responses env self)) ++ "."
                     ++ stamp (now env))%string;
            "-m"; json_dumps env (Some 4%nat) (PDict processed)]])
    /\ String.length (stamp (now env)) = 15%nat.
Proof.
  intros Hcmd Hwf Hprep Hgate Hdicts.
  destruct (execute_shape env self Hprep Hwf Hgate Hdicts)
    as (t & processed & Hexec & Hremap & Hkeys & Hruns).
  exists t, processed. split; [exact Hexec|]. split; [exact Hremap|].
  split; [apply entries_of_responded|].
  unfold tag_commands. rewrite Hruns. split; [|split].
  - intros ->. reflexivity.
  - intros Hne. destruct (expected_responses env self) as [|entry rest] eqn:Hexp;
      [contradiction|].
    cbn. unfold tag_argv, tag_name_of.
    rewrite Hkeys, Hcmd, Timestamp.tag_timestamp_stamp. reflexivity.
  - reflexivity.
Qed.

Lemma T2_unreachable_prepared :
  prepared_for_failures Examples.T2_unreachable Examples.push_T1_T2.
Proof.
  split.
  - intros target api [H|[H|[]]]; inversion H; subst; do 2 eexists;
      (split; [reflexivity|]); (split; [reflexivity|]);
      intros f d [Hf|[]]; inversion Hf; subst; exact I.
  - intros url auth params files e. cbn. unfold Examples.post_T1_only.
    destruct (String.eqb url _); intros H; inversion H. reflexivity.
  - discriminate.
  - discriminate.
  - eexists. reflexivity.
Qed.

Lemma push_T1_T2_wf : Dict.wf (api_connections Examples.push_T1_T2).
Proof. apply (bool_decide_unpack _). vm_compute. exact I. Qed.

Lemma send_all_partial_success_witness :
  result (_send_all Examples.T2_unreachable Examples.push_T1_T2)
  = Ok [("T1", PDict [("docId123", Examples.version_7)])]
  /\ In (pushing_line (Examples.adaptor "T2") Examples.connection_refused)
        (trace (_send_all Examples.T2_unreachable Examples.push_T1_T2))
  /\ In (no_response_line "T2")
        (trace (_send_all Examples.T2_unreachable Examples.push_T1_T2)).
Proof.
  destruct (send_all_partial_success Examples.T2_unreachable Examples.push_T1_T2
              push_T1_T2_wf T2_unreachable_prepared)
    as (t & Hsend & _ & Hfail & _).
  rewrite Hsend. cbn [result trace fst snd]. split; [reflexivity|].
  destruct (Hfail "T2" (Examples.adaptor "T2") Examples.connection_refused)
    as (Hpush & Hnone & _); [right; now left|reflexivity|reflexivity|].
  split; assumption.
Defined.

Lemma tag_names_the_responding_targets_witness :
  tag_commands (trace (execute Examples.T2_unreachable Examples.push_T1_T2))
  = [["git"; "tag"; "-a"; "push.T1.20250102T030405"; "-m"; "{T1: {file.js: {docVerId: #}}}"]].
Proof.
  assert (Hdicts : forall target r,
             In (target, r) (expected_responses Examples.T2_unreachable Examples.push_T1_T2) ->
             exists d, r = PDict d).
  { intros target r [H|[]]. inversion H. eexists. reflexivity. }
  destruct (tag_names_the_responding_targets Examples.T2_unreachable Examples.push_T1_T2
              eq_refl push_T1_T2_wf T2_unreachable_prepared eq_refl Hdicts)
    as (t & processed & Hexec & Hremap & _ & _ & Htag & _).
  rewrite Hexec. cbn [trace fst]. rewrite Htag; [|discriminate].
  vm_compute in Hremap. inversion Hremap. reflexivity.
Defined.

(** The claim as the specification words it fails: the name of the tag
    holds the targets that responded, not the targets that were
    requested; and its timestamp is the reading of [datetime.now()], the
    clock of the local zone, not of UTC: on a machine two hours east of
    Greenwich the tag of 01:04:05 UTC is stamped 03:04:05. *)
Lemma tag_leaves_out_the_failed_target :
  Dict.keys (api_connections Examples.push_T1_T2) = ["T1"; "T2"]
  /\ tag_commands (trace (execute Examples.T2_unreachable Examples.push_T1_T2))
     = [["git"; "tag"; "-a"; "push.T1.20250102T030405"; "-m";
         "{T1: {file.js: {docVerId: #}}}"]]
  /\ "push.T1.20250102T030405" <> "push.T1-T2.20250102T030405"
  /\ now Examples.T2_unreachable = Examples.local_now
  /\ stamp Examples.utc_now = "20250102T010405"
  /\ "push.T1.20250102T030405" <> ("push.T1." ++ stamp Examples.utc_now)%string.
Proof.
  split; [reflexivity|]. split; [vm_compute; reflexivity|]. split; [discriminate|].
  split; [reflexivity|]. split; [reflexivity|]. vm_compute. discriminate.
Qed.

(** The claim as the specification words it fails: a target whose module
    directory cannot be mirrored, a filesystem failure while it is sent to,
    keeps its entry in the response map and is covered by the tag. *)
Lemma failed_mirror_keeps_the_entry :
  result (_copy_files_to_target Examples.modules_read_only Examples.push_T1_T2 "T1"
            (client_data Examples.modules_read_only Examples.push_T1_T2))
  = Raise Examples.permission_denied
  /\ In (copying_line "T1" Examples.permission_denied)
        (trace (_send_all Examples.modules_read_only Examples.push_T1_T2))
  /\ result (_send_all Examples.modules_read_only Examples.push_T1_T2)
     = Ok [("T1", PDict [("docId123", Examples.version_7)])]
  /\ tag_commands (trace (execute Examples.modules_read_only Examples.push_T1_T2))
     = [["git"; "tag"; "-a"; "push.T1.20250102T030405"; "-m";
         "{T1: {file.js: {docVerId: #}}}"]].
Proof.
  split; [vm_compute; reflexivity|]. split; [vm_compute; tauto|].
  split; vm_compute; reflexivity.
Qed.

(** Outside the conditions of the theorem: when a mapped file exists and
    cannot be read, the exception is caught and logged, and the test of
    [response] that follows raises, since nothing was assigned to it. *)
Remark unreadable_file_leaves_response_unbound :
  exists msg,
    result (_send_all Examples.file_unreadable Examples.push_T1_T2)
    = Raise (Exn UnboundLocalError msg)
    /\ In (copying_line "T1" Examples.permission_denied)
          (trace (_send_all Examples.file_unreadable Examples.push_T1_T2)).
Proof. eexists. split; [vm_compute; reflexivity|vm_compute; tauto]. Qed.

(** On a later target the same failure finds [response] still bound to the
    response of the target before, which is then entered for a target that
    was sent nothing. *)
Remark unreadable_file_reuses_the_previous_response :
  Examples.posted_to (trace (_send_all Examples.secret_unreadable Examples.push_T1_T3))
  = ["https://T1.example.com/fmax/actioncode"]
  /\ In (copying_line "T3" Examples.permission_denied)
        (trace (_send_all Examples.secret_unreadable Examples.push_T1_T3))
  /\ result (_send_all Examples.secret_unreadable Examples.push_T1_T3)
     = Ok [("T1", PDict [("docId123", Examples.version_7)]);
           ("T3", PDict [("docId123", Examples.version_7)])].
Proof.
  split; [vm_compute; reflexivity|]. split; [vm_compute; tauto|vm_compute; reflexivity].
Qed.
End Send.


(** * Further properties *)

(** ** The external command wrapper *)

Module Wrapper.

Lemma run_cli_command_lines (env : Env) (argv : list string) :
  exists logs,
    run_cli_command env argv = (Run argv :: logs, Ok (git_output env argv))
    /\ Forall is_error_line logs.
Proof.
  unfold git_output. destruct (subprocess_run env argv) as [out|e] eqn:H.
  - exists []. split; [now apply run_cli_command_success|constructor].
  - unfold run_cli_command, try_except, bind, emit, lift. rewrite H.
    destruct e as [c msg]. destruct c; cbn; eexists;
      (split; [reflexivity|repeat constructor]).
Qed.

(** Error lines are not commands, questions, requests, mirrorings or writes. *)
Lemma error_lines_only (logs : list event) :
  Forall is_error_line logs ->
  runs logs = [] /\ prompts logs = [] /\ requests logs = []
  /\ mirrorings logs = [] /\ writes logs = [].
Proof.
  induction 1 as [|ev l Hev _ IH]; [repeat split|].
  destruct ev as [[] msg| | | | |]; try destruct Hev. exact IH.
Qed.

(** X1.  The wrapper never raises: whatever [subprocess.run] does, it
    returns after having run the command once, with the stripped output of
    a command that succeeded and no line in the log, and with [None] and
    at least one error line, and nothing but error lines, for a command
    that failed in any way. *)
Theorem run_cli_command_never_raises (env : Env) (argv : list string) :
  exists logs,
    run_cli_command env argv = (Run argv :: logs, Ok (git_output env argv))
    /\ Forall is_error_line logs
    /\ (logs = [] <-> exists out, subprocess_run env argv = Ok out)
    /\ (git_output env argv = None <-> exists e, subprocess_run env argv = Raise e).
Proof.
  unfold git_output. destruct (subprocess_run env argv) as [out|e] eqn:H.
  - exists []. split; [now apply run_cli_command_success|]. split; [constructor|].
    split; [split; eauto|]. split; [discriminate|]. intros (e & He). discriminate.
  - assert (Hlogs : exists logs,
               run_cli_command env argv = (Run argv :: logs, Ok None)
               /\ Forall is_error_line logs /\ logs <> []).
    { unfold run_cli_command, try_except, bind, emit, lift. rewrite H.
      destruct e as [c msg]. destruct c; cbn; eexists;
        (split; [reflexivity|]); (split; [repeat constructor|discriminate]). }
    destruct Hlogs as (logs & Hrun & Herr & Hne).
    exists logs. split; [exact Hrun|]. split; [exact Herr|].
    split; [split; [contradiction|intros (out & Hout); discriminate]|].
    split; eauto.
Qed.
End Wrapper.

(** ** The questions to the operator *)

Module Questions.
Import UserInputHandler.

(** The strings that [upper] sends to a given capital letter. *)
Ltac one_letter s :=
  destruct s as [|a [|b r]];
  [ reflexivity
  | destruct a as [[] [] [] [] [] [] [] []]; reflexivity
  | cbn;
    repeat match goal with
           | |- context [Ascii.eqb ?x ?y] => destruct (Ascii.eqb x y)
           end; reflexivity ].

Lemma upper_is_N (s : string) :
  String.eqb (PyStr.upper s) "N" = (String.eqb s "N" || String.eqb s "n")%bool.
Proof. one_letter s. Qed.

Lemma upper_is_Y (s : string) :
  String.eqb (PyStr.upper s) "Y" = (String.eqb s "Y" || String.eqb s "y")%bool.
Proof. one_letter s. Qed.

Lemma continue_yN_eq (env : Env) (prompt : option string) :
  continue_yN env prompt
  = ([Input (shown_prompt "y/N" prompt)],
     Ok (replies "Y" (input env (shown_prompt "y/N" prompt)))).
Proof.
  unfold continue_yN, _continue, replies.
  change (PyStr.upper "N") with "N". cbn [String.eqb Ascii.eqb Bool.eqb].
  rewrite upper_is_Y. reflexivity.
Qed.

(** X2.  The question with default yes shows the message and
    [Continue? (Y/n): ], reads one reply, and declines exactly when the
    reply, stripped of blanks, is the single letter [n] or [N]; every other
    reply, the empty one and the word [no] among them, goes on. *)
Theorem continue_Yn_declines_on_n_only (env : Env) (prompt : option string) :
  continue_Yn env prompt
  = ([Input (shown_prompt "Y/n" prompt)],
     Ok (negb (replies "N" (input env (shown_prompt "Y/n" prompt))))).
Proof.
  unfold continue_Yn, _continue, replies.
  change (PyStr.upper "Y") with "Y". cbn [String.eqb Ascii.eqb Bool.eqb].
  rewrite upper_is_N. reflexivity.
Qed.

(** X3.  The question with default no shows [Continue? (y/N): ] and goes
    on exactly when the stripped reply is the single letter [y] or [Y]. *)
Theorem continue_yN_accepts_on_y_only (env : Env) (prompt : option string) :
  continue_yN env prompt
  = ([Input (shown_prompt "y/N" prompt)],
     Ok (replies "Y" (input env (shown_prompt "y/N" prompt)))).
Proof.
  unfold continue_yN, _continue, replies.
  change (PyStr.upper "N") with "N". cbn [String.eqb Ascii.eqb Bool.eqb].
  rewrite upper_is_Y. reflexivity.
Qed.
End Questions.

(** ** File map: loading *)

Module Loading.
Import FileMap.

Lemma first_of_ok (env : Env) (tld : string) (vs : list violation) :
  first_of env tld vs = Ok tt <-> vs = [].
Proof. destruct vs; cbn; split; congruence. Qed.

Lemma targets_accepted (env : Env) (tld : string) (targets : dict FileMapJson.target_properties) :
  result (for_each (fun _ kv => validate_target env tld kv) targets tt) = Ok tt ->
  (forall target props, In (target, props) targets ->
                        FileMapJson._document_profiles props <> None)
  /\ flat_map (target_violations env tld) targets = [].
Proof.
  induction targets as [|[target props] rest IH]; intros Hok.
  - split; [intros ? ? []|reflexivity].
  - cbn [for_each] in Hok. rewrite result_bind in Hok.
    destruct (result (validate_target env tld (target, props))) as [[]|e] eqn:Hone;
      [|discriminate].
    destruct (IH Hok) as [Hp Hv].
    assert (Hprof : FileMapJson._document_profiles props <> None).
    { intros Hnone. unfold validate_target in Hone. rewrite Hnone in Hone. discriminate. }
    split.
    + intros t p [Heq|Hin]; [inversion Heq; now subst|now apply (Hp t p)].
    + cbn [flat_map]. rewrite Hv, app_nil_r.
      rewrite (Validation.target_validated env tld (target, props) Hprof) in Hone.
      now apply first_of_ok in Hone.
Qed.

Lemma validation_accepts (env : Env) (tld : string) (filemap : FileMapJson.t) :
  result (_validate_map_files env tld filemap) = Ok tt <->
  profiles_present filemap /\ violations env tld filemap = [].
Proof.
  unfold _validate_map_files, violations, profiles_present. split.
  - apply targets_accepted.
  - intros [Hp Hv]. rewrite Validation.targets_validated by exact Hp. now rewrite Hv.
Qed.

(** X5.  Validation returns exactly on the maps every target of which has
    its table of document profiles and none of whose files and module
    directories is missing: no map with a violation passes, and no map
    without one is turned down. *)
Theorem validation_accepts_iff (env : Env) (tld : string) (filemap : FileMapJson.t) :
  result (_validate_map_files env tld filemap) = Ok tt <->
  profiles_present filemap /\ violations env tld filemap = [].
Proof.
  unfold _validate_map_files, violations, profiles_present. split.
  - intros Hok. now apply targets_accepted.
  - intros [Hp Hv]. rewrite Validation.targets_validated by exact Hp. now rewrite Hv.
Qed.

(** X7.  A file map is constructed exactly when [git rev-parse
    --show-toplevel] succeeds, the map file is a file under the root it
    prints, [json.load] reads it, and what was read passes validation; the
    object then holds that root, stripped, and what was read.  So every
    file map an execution works with has its files and directories on
    disk at the time it was loaded. *)
Theorem init_returns_iff (env : Env) (filename : string) (self : t) :
  result (init env filename) = Ok self <->
  git_output env ["git"; "rev-parse"; "--show-toplevel"] = Some (tldir self)
  /\ is_file_on_disk env (PyPath.join (tldir self) filename) = true
  /\ json_load env (PyPath.join (tldir self) filename) = Ok (FileMap.filemap self)
  /\ profiles_present (FileMap.filemap self)
  /\ violations env (tldir self) (FileMap.filemap self) = [].
Proof.
  unfold init, is_file_on_disk.
  destruct (Send.run_cli_command_shape env ["git"; "rev-parse"; "--show-toplevel"])
    as (logs & Hrun & _).
  rewrite Hrun, bind_pair_ok. cbn [result snd].
  destruct (git_output env _) as [root|]; [|split; [discriminate|intros (H & _); discriminate]].
  rewrite result_bind. unfold _load_filemap.
  destruct (path_exists env (PyPath.join root filename)
            && path_is_file env (PyPath.join root filename))%bool eqn:Hfile.
  - rewrite result_bind.
    destruct (json_load env (PyPath.join root filename)) as [parsed|e] eqn:Hjson;
      cbn [result lift snd].
    + rewrite result_bind. cbn [result log_debug emit snd]. rewrite result_bind.
      destruct (result (_validate_map_files env root parsed)) as [[]|e] eqn:Hvalid.
      * apply validation_accepts in Hvalid as [Hp Hv]. cbn. split.
        -- intros H. inversion H; subst self. cbn. rewrite Hfile, Hjson. auto.
        -- intros (Hroot & _ & Hread & _). destruct self as [r f]. cbn in *.
           inversion Hroot; subst r. rewrite Hjson in Hread. now inversion Hread.
      * split; [discriminate|]. intros (Hroot & _ & Hread & Hp & Hv).
        inversion Hroot as [Hr]. rewrite <- Hr, Hjson in Hread. inversion Hread as [Hf].
        rewrite <- Hr, <- Hf in Hv. rewrite <- Hf in Hp.
        assert (Hok : result (_validate_map_files env root parsed) = Ok tt)
          by (apply validation_accepts; auto).
        rewrite Hok in Hvalid. discriminate.
    + split; [discriminate|]. intros (Hroot & _ & Hread & _).
      inversion Hroot as [Hr]. rewrite <- Hr, Hjson in Hread. discriminate.
  - split.
    + unfold _create_filemap. rewrite Questions.continue_yN_eq, bind_pair_ok.
      cbn [result snd]. destruct (replies "Y" _).
      * repeat (rewrite result_bind; cbn [result emit lift snd]).
        destruct (open_write env _ _) as [[]|e]; discriminate.
      * discriminate.
    + intros (Hroot & Hf & _). inversion Hroot as [Hr]. rewrite <- Hr, Hfile in Hf.
      discriminate.
Qed.

Lemma init_returns_iff_witness :
  result (init Examples.T2_unreachable "filemap.json") = Ok Examples.map_T1_T2.
Proof.
  apply (init_returns_iff Examples.T2_unreachable "filemap.json" Examples.map_T1_T2).
  repeat split; try reflexivity.
  - intros target props Hin. cbn in Hin.
    destruct Hin as [H|[H|[]]]; inversion H; discriminate.
Defined.

(** X4.  When there is no file map under the root, loading asks once
    whether a template may be written and never returns a map: after any
    reply but [y] or [Y] nothing is written and [FileNotFoundError] is
    raised; after [y] the template is written to the path of the map, and
    [ValueError] is raised when the write succeeded, the exception of the
    write otherwise. *)
Theorem load_without_map_never_returns (env : Env) (tld filename : string) :
  is_file_on_disk env (PyPath.join tld filename) = false ->
  exists e,
    result (_load_filemap env tld filename) = Raise e
    /\ prompts (trace (_load_filemap env tld filename))
       = [template_question (PyPath.join tld filename)]
    /\ (replies "Y" (input env (template_question (PyPath.join tld filename))) = false ->
        exn_cls e = FileNotFoundError
        /\ writes (trace (_load_filemap env tld filename)) = [])
    /\ (replies "Y" (input env (template_question (PyPath.join tld filename))) = true ->
        writes (trace (_load_filemap env tld filename)) = [PyPath.join tld filename]
        /\ match open_write env (PyPath.join tld filename)
                            (json_dumps env (Some 4%nat) _get_filemap_template) with
           | Ok _ => exn_cls e = ValueError
           | Raise e' => e = e'
           end).
Proof.
  intros Habsent. unfold is_file_on_disk in Habsent.
  unfold _load_filemap. rewrite Habsent. unfold _create_filemap.
  rewrite Questions.continue_yN_eq, bind_pair_ok.
  fold (template_question (PyPath.join tld filename)).
  destruct (replies "Y" _).
  - unfold emit, lift, bind, raise.
    destruct (open_write env _ _) as [[]|e'] eqn:Hwrite; cbn; rewrite ?Hwrite;
      eexists; (split; [reflexivity|]); (split; [reflexivity|]);
      (split; [discriminate|]); intros _; split; reflexivity.
  - cbn. eexists. split; [reflexivity|]. split; [reflexivity|].
    split; [intros _; split; reflexivity|discriminate].
Qed.

Lemma load_without_map_never_returns_witness :
  exists e,
    result (_load_filemap Cases.says_yes "/repo" "filemap.json") = Raise e
    /\ exn_cls e = ValueError
    /\ writes (trace (_load_filemap Cases.says_yes "/repo" "filemap.json"))
       = ["/repo/filemap.json"].
Proof.
  destruct (load_without_map_never_returns Cases.says_yes "/repo" "filemap.json" eq_refl)
    as (e & Hres & _ & _ & Hyes).
  destruct (Hyes eq_refl) as [Hw He].
  exists e. split; [exact Hres|]. split; [exact He|exact Hw].
Defined.

(** X6.  When [git rev-parse --show-toplevel] fails, the construction of
    the file map raises [TypeError] right after the command: the operator
    is asked nothing and nothing is written. *)
Theorem init_without_root_raises (env : Env) (filename : string) (e : exn) :
  subprocess_run env ["git"; "rev-parse"; "--show-toplevel"] = Raise e ->
  result (init env filename)
  = Raise (Exn TypeError [Lit "expected str, bytes or os.PathLike object, not NoneType"])
  /\ runs (trace (init env filename)) = [["git"; "rev-parse"; "--show-toplevel"]]
  /\ prompts (trace (init env filename)) = []
  /\ writes (trace (init env filename)) = [].
Proof.
  intros Hfail. unfold init.
  destruct (Wrapper.run_cli_command_lines env ["git"; "rev-parse"; "--show-toplevel"])
    as (logs & Hrun & Hlines).
  rewrite Hrun. unfold git_output. rewrite Hfail. cbn. rewrite app_nil_r.
  destruct (Wrapper.error_lines_only logs Hlines) as (Hr & Hp & _ & _ & Hw).
  split; [reflexivity|]. split; [show_runs; now rewrite Hr|]. split; assumption.
Qed.

Lemma init_without_root_raises_witness :
  prompts (trace (init Cases.outside_a_repository "filemap.json")) = [].
Proof.
  apply (init_without_root_raises Cases.outside_a_repository "filemap.json"
           Cases.not_a_repository).
  reflexivity.
Defined.
End Loading.

(** ** What holds of every effect *)

Module Traces.

(** Takes the handler of each clause in turn. *)
Ltac one_clause Hin :=
  cbn [In] in Hin;
  repeat (destruct Hin as [Hin|Hin];
          [apply pair_equal_spec in Hin; destruct Hin as [_ <-]; cbv beta|]);
  try (exfalso; exact Hin).

Section Always.
Context {P : event -> Prop}.

Lemma always_nil {A} (r : res A) : always P ([], r).
Proof. constructor. Qed.

Lemma always_emit (ev : event) : P ev -> always P (emit ev).
Proof. intros H. repeat constructor. exact H. Qed.

Lemma always_impl {Q : event -> Prop} {A} (m : M A) :
  (forall ev, Q ev -> P ev) -> always Q m -> always P m.
Proof.
  intros Himpl. unfold always. induction 1 as [|ev l Hev _ IH]; constructor; auto.
Qed.

Lemma always_pair {A} (t : list event) (m : M A) :
  Forall P t -> always P m -> always P (t ++ trace m, result m).
Proof. intros Ht Hm. apply Forall_app. split; assumption. Qed.

Lemma always_bind {A B} (m : M A) (k : A -> M B) :
  always P m -> (forall a, result m = Ok a -> always P (k a)) -> always P (bind m k).
Proof.
  destruct m as [t [a|e]]; intros Hm Hk; [|exact Hm].
  rewrite bind_pair_ok. apply always_pair; [exact Hm|now apply Hk].
Qed.

Lemma dispatch_In {A} (e : exn) (clauses : list (clause A)) (m : M A) :
  dispatch e clauses = Some m -> exists classes h, In (classes, h) clauses /\ m = h e.
Proof.
  induction clauses as [|[classes h] rest IH]; cbn; [discriminate|].
  destruct (caught_by classes e).
  - intros H. inversion H. eauto.
  - intros H. destruct (IH H) as (c & h' & Hin & ->). eauto.
Qed.

Lemma always_try_except {A} (m : M A) (clauses : list (clause A)) :
  always P m ->
  (forall classes h e, In (classes, h) clauses -> always P (h e)) ->
  always P (try_except m clauses).
Proof.
  destruct m as [t [a|e]]; intros Hm Hh; [exact Hm|]. unfold try_except.
  destruct (dispatch e clauses) as [m'|] eqn:Hd; [|exact Hm].
  apply dispatch_In in Hd as (classes & h & Hin & ->).
  specialize (Hh classes h e Hin). destruct (h e) as [t' r].
  apply Forall_app. split; assumption.
Qed.

Lemma always_for_each {A S} (body : S -> A -> M S) (l : list A) (s : S) :
  (forall s a, In a l -> always P (body s a)) -> always P (for_each body l s).
Proof.
  revert s. induction l as [|a r IH]; intros s Hbody; [constructor|].
  cbn [for_each]. apply always_bind; [apply Hbody; now left|].
  intros s' _. apply IH. intros s0 a0 Hin. apply Hbody. now right.
Qed.

Hypothesis logs_allowed : forall lvl msg, P (Log lvl msg).

Lemma always_log (lvl : level) (msg : fstring) : always P (emit (Log lvl msg)).
Proof. apply always_emit, logs_allowed. Qed.

Lemma error_lines_allowed (logs : list event) : Forall is_error_line logs -> Forall P logs.
Proof.
  induction 1 as [|ev l Hev _ IH]; constructor; [|exact IH].
  destruct ev as [[] msg| | | | |]; try destruct Hev. apply logs_allowed.
Qed.

Lemma always_run_cli_command (env : Env) (argv : list string) :
  P (Run argv) -> always P (run_cli_command env argv).
Proof.
  intros Hrun. destruct (Wrapper.run_cli_command_lines env argv) as (logs & -> & Hlogs).
  constructor; [exact Hrun|now apply error_lines_allowed].
Qed.

Lemma always_response_hander (r : Response.t) : always P (APIAdaptor._response_hander r).
Proof.
  unfold APIAdaptor._response_hander. apply always_bind.
  - unfold APIAdaptor._parse_contents.
    destruct (_ || _)%bool; [destruct (Response.soup_body_text r); apply always_nil|].
    destruct (PyStr.contains "application/json" _); [|apply always_nil].
    apply always_try_except; [apply always_nil|].
    intros classes h e Hclause. one_clause Hclause.
    apply always_bind; [apply always_log|intros; apply always_nil].
  - intros contents _. destruct (_ && _)%bool; [apply always_nil|].
    destruct (_ =? 400); [apply always_nil|]. destruct (_ =? 401); apply always_nil.
Qed.

Lemma always_get_mapped_files (env : Env) (self : FileMap.t) (profiles : dict string) :
  always P (FileMap.get_mapped_files env self profiles).
Proof.
  unfold FileMap.get_mapped_files. apply always_for_each. intros files [filename doc_id] _.
  apply always_try_except.
  - apply always_bind; [apply always_nil|]. intros contents _.
    apply always_bind; [apply always_log|intros; apply always_nil].
  - intros classes h e Hclause. one_clause Hclause.
    apply always_bind; [apply always_log|intros; apply always_nil].
Qed.
End Always.
End Traces.

(** ** Push: what it never does *)

Module Bounds.
Import PushCommand Traces.

Section WithPush.
Variable env : Env.
Variable self : t.

Local Abbreviation P := (within_send env self).

Lemma logs_within (lvl : level) (msg : fstring) : P (Log lvl msg).
Proof. exact I. Qed.

Lemma key_of_connection (target : string) (api : APIAdaptor.t) :
  In (target, api) (api_connections self) -> In target (Dict.keys (api_connections self)).
Proof. intros H. apply in_map_iff. now exists (target, api). Qed.

Lemma send_is_within_bounds (ev : event) : P ev -> within_bounds env self ev.
Proof. destruct ev; cbn; auto. Qed.

Lemma query_within (argv : list string) :
  In argv git_queries -> always P (run_cli_command env argv).
Proof. intros H. apply (always_run_cli_command logs_within). exact H. Qed.

Lemma client_data_within : always P (_get_client_data env self).
Proof.
  unfold _get_client_data.
  apply always_bind; [apply query_within; cbn; tauto|]. intros ? _.
  apply always_bind; [apply query_within; cbn; tauto|]. intros ? _.
  apply always_bind; [apply query_within; cbn; tauto|]. intros ? _.
  apply always_nil.
Qed.

Lemma post_within (target : string) (api : APIAdaptor.t) :
  In (target, api) (api_connections self) -> accepted env target = true ->
  always P (_post_files_to_target env self target api (client_data env self)).
Proof.
  intros Hin Hacc. unfold _post_files_to_target.
  apply always_bind; [apply always_nil|]. intros [profiles|] _; [|apply always_nil].
  apply always_bind; [apply (always_get_mapped_files logs_within)|]. intros mapped_files _.
  apply always_try_except.
  - unfold post_files.
    apply always_bind; [apply (always_log logs_within)|]. intros ? _.
    apply always_bind.
    + apply always_emit. exists target, api.
      split; [exact Hin|]. split; [exact Hacc|]. split; [reflexivity|].
      split; [reflexivity|]. rewrite DictFacts.get_set. reflexivity.
    + intros ? _. apply always_bind; [apply always_nil|]. intros response _.
      apply (always_response_hander logs_within).
  - intros classes h e Hclause. one_clause Hclause.
    apply always_bind; [apply (always_log logs_within)|intros; apply always_nil].
Qed.

Lemma copy_within (target : string) (api : APIAdaptor.t) :
  In (target, api) (api_connections self) -> accepted env target = true ->
  always P (_copy_files_to_target env self target (client_data env self)).
Proof.
  intros Hin Hacc. unfold _copy_files_to_target.
  destruct (FileMap.get_module_directory (filemap self) target) as [dirname|e] eqn:Hdir;
    [|apply always_nil].
  rewrite bind_lift_ok.
  destruct (negb (PyStr.nonempty (default "" dirname))) eqn:Hempty;
    [apply (always_log logs_within)|].
  destruct dirname as [dirname|]; [|discriminate]. cbn [default] in *.
  apply negb_false_iff in Hempty.
  assert (Hmod : module_directory_of env self target dirname).
  { split; [now apply (key_of_connection target api)|]. auto. }
  apply always_bind; [apply always_emit; exists target; split; [exact Hmod|reflexivity]|].
  intros ? _. apply always_bind; [apply always_nil|]. intros ? _.
  unfold client_data at 1. cbn [Dict.get String.eqb Ascii.eqb Bool.eqb].
  destruct (git_output env ["git"; "rev-parse"; "HEAD"]) as [sha|] eqn:Hsha;
    cbn [opt_str]; [|apply always_nil].
  apply always_bind.
  - apply always_emit. exists target, dirname, sha. auto.
  - intros ? _. apply always_bind; [apply always_nil|]. intros ? _.
    apply (always_log logs_within).
Qed.

Lemma send_clauses_within {A} (api : APIAdaptor.t) (target : string) (keep : A)
      (classes : list exn_class) (h : exn -> M A) (e : exn) :
  In (classes, h) (send_clauses api target keep) -> always P (h e).
Proof.
  intros Hclause. one_clause Hclause;
    (apply always_bind; [apply (always_log logs_within)|intros; apply always_nil]).
Qed.

Lemma send_one_within (st : send_state) (target : string) (api : APIAdaptor.t) :
  In (target, api) (api_connections self) ->
  always P (send_one env self (client_data env self) st (target, api)).
Proof.
  intros Hin. unfold send_one.
  rewrite (Send.continue_Yn_shape env target), bind_pair_ok.
  apply always_pair.
  { constructor; [|constructor]. exists target. split; [|reflexivity].
    now apply (key_of_connection target api). }
  destruct (accepted env target) eqn:Hacc; cbn [negb]; [|apply always_nil].
  apply always_bind.
  - apply always_try_except; [|apply send_clauses_within].
    apply always_bind; [now apply post_within|intros; apply always_nil].
  - intros [r|] _.
    + apply always_bind.
      * apply always_bind; [|intros; apply always_nil].
        apply always_try_except; [now apply (copy_within target api)|apply send_clauses_within].
      * intros [r'|] _; [|apply always_nil].
        destruct (truthy r'); [apply always_nil|].
        apply always_bind; [apply (always_log logs_within)|intros; apply always_nil].
    + apply always_bind; [apply always_nil|].
      intros [r'|] _; [|apply always_nil].
      destruct (truthy r'); [apply always_nil|].
      apply always_bind; [apply (always_log logs_within)|intros; apply always_nil].
Qed.

Lemma send_all_within : always P (_send_all env self).
Proof.
  unfold _send_all.
  destruct (Send.get_client_data_shape env self) as (t & Hcd & _).
  apply always_bind; [apply client_data_within|].
  intros cd Hres. rewrite Hcd in Hres. cbn in Hres. inversion Hres; subst cd.
  apply always_bind; [|intros; apply always_nil].
  apply always_for_each. intros st [target api] Hin. now apply send_one_within.
Qed.

Lemma execute_within : always (within_bounds env self) (execute env self).
Proof.
  assert (Hlogs : forall lvl msg, within_bounds env self (Log lvl msg)) by (intros; exact I).
  unfold execute.
  apply always_bind; [apply (always_log Hlogs)|]. intros ? _.
  apply always_bind.
  - apply (always_impl _ send_is_within_bounds).
    unfold _commit_state_is_valid, has_uncommitted_changes.
    apply always_bind.
    + apply always_bind; [apply query_within; cbn; tauto|].
      intros [status|] _; apply always_nil.
    + intros dirty _. destruct (_ && _)%bool; [|apply always_nil].
      apply always_bind; [apply (always_log logs_within)|intros; apply always_nil].
  - intros valid _. destruct (negb valid); [apply always_nil|].
    apply always_bind; [apply (always_impl _ send_is_within_bounds), send_all_within|].
    intros [|entry rest] _; [apply always_nil|].
    apply always_bind; [apply always_nil|]. intros processed _.
    unfold _create_git_tags. apply always_bind; [|intros; apply always_nil].
    apply (always_run_cli_command Hlogs). right. exists processed. reflexivity.
Qed.
End WithPush.

(** X8.  Whatever happens, a push sends no request but to the
    [actioncode] endpoint of one of its connections, for a target the
    operator accepted, with the webservice id of that connection and the
    name of the command as parameters and with the client data in the
    form field [client_data]. *)
Theorem requests_go_to_accepted_connections (env : Env) (self : t)
        (url : string) (params : dict string) (files : dict FileField) :
  In (Post url params files) (trace (execute env self)) ->
  exists target api,
    In (target, api) (api_connections self)
    /\ accepted env target = true
    /\ url = endpoint_of env api
    /\ params = params_of self api
    /\ Dict.get "client_data" files = Some (client_data_field env self).
Proof.
  intros Hin. pose proof (execute_within env self) as Hall.
  unfold always in Hall. rewrite List.Forall_forall in Hall. exact (Hall _ Hin).
Qed.

Lemma requests_go_to_accepted_connections_witness :
  exists target api,
    In (target, api) (api_connections Examples.push_T1_T2)
    /\ accepted Examples.T2_unreachable target = true
    /\ "https://T1.example.com/fmax/actioncode" = endpoint_of Examples.T2_unreachable api
    /\ params_of Examples.push_T1_T2 (Examples.adaptor "T1")
       = params_of Examples.push_T1_T2 api
    /\ Dict.get "client_data"
                (submitted_files Examples.T2_unreachable Examples.push_T1_T2 "T1")
       = Some (client_data_field Examples.T2_unreachable Examples.push_T1_T2).
Proof.
  apply (requests_go_to_accepted_connections Examples.T2_unreachable Examples.push_T1_T2).
  apply nth_error_In with (n := 8%nat). vm_compute. reflexivity.
Defined.

(** X9.  Whatever happens, a push changes the filesystem only in module
    directories: it mirrors nothing but the local twin of the module
    directory of an accepted target into that directory, and writes
    nothing but the commit file, named after the current commit and
    holding the client data, into such a directory. *)
Theorem filesystem_changes_stay_in_module_directories (env : Env) (self : t) (ev : event) :
  In ev (trace (execute env self)) ->
  match ev with
  | Mirror source dirname =>
      exists target,
        module_directory_of env self target dirname
        /\ source = PyPath.join (FileMap.tldir (filemap self)) (PyPath.name dirname)
  | WriteFile path contents =>
      exists target dirname sha,
        module_directory_of env self target dirname
        /\ git_output env ["git"; "rev-parse"; "HEAD"] = Some sha
        /\ path = PyPath.join dirname (sha ++ ".commit")%string
        /\ contents = json_dumps env (Some 4%nat) (PDict (client_data env self))
  | _ => True
  end.
Proof.
  intros Hin. pose proof (execute_within env self) as Hall.
  unfold always in Hall. rewrite List.Forall_forall in Hall. specialize (Hall _ Hin).
  destruct ev; try exact I; exact Hall.
Qed.

Lemma filesystem_changes_stay_in_module_directories_witness :
  exists target,
    module_directory_of Examples.T2_unreachable Examples.push_T1_T2 target "/srv/T1/modules"
    /\ "/repo/modules"
       = PyPath.join (FileMap.tldir (filemap Examples.push_T1_T2))
                     (PyPath.name "/srv/T1/modules").
Proof.
  apply (filesystem_changes_stay_in_module_directories
           Examples.T2_unreachable Examples.push_T1_T2
           (Mirror "/repo/modules" "/srv/T1/modules")).
  apply nth_error_In with (n := 9%nat). vm_compute. reflexivity.
Defined.

(** X10.  Whatever happens, the only external commands of a push are the
    four git queries (status, commit hash, branch, last message) and the
    creation of an annotated tag. *)
Theorem git_is_only_queried_and_tagged (env : Env) (self : t) (argv : list string) :
  In argv (runs (trace (execute env self))) ->
  In argv git_queries \/ exists processed, argv = tag_argv env self processed.
Proof.
  intros Hin. pose proof (execute_within env self) as Hall.
  unfold always in Hall. rewrite List.Forall_forall in Hall.
  apply (Hall (Run argv)). unfold runs in Hin. apply in_flat_map in Hin as (ev & Hev & Hin).
  destruct ev; try contradiction. destruct Hin as [<-|[]]. exact Hev.
Qed.

Lemma git_is_only_queried_and_tagged_witness :
  In ["git"; "rev-parse"; "HEAD"] git_queries
  \/ exists processed,
       ["git"; "rev-parse"; "HEAD"]
       = tag_argv Examples.T2_unreachable Examples.push_T1_T2 processed.
Proof.
  apply (git_is_only_queried_and_tagged Examples.T2_unreachable Examples.push_T1_T2).
  apply nth_error_In with (n := 1%nat). vm_compute. reflexivity.
Defined.
End Bounds.

(** ** Push: the gate and the questions *)

Module Gate.
Import PushCommand.

Lemma acts_app (a b : list event) : acts (a ++ b) = acts a ++ acts b.
Proof. apply List.filter_app. Qed.

Lemma acts_cons (ev : event) (t : list event) :
  acts (ev :: t) = (if is_act ev then [ev] else []) ++ acts t.
Proof. unfold acts. cbn. now destruct (is_act ev). Qed.

Lemma acts_nil : acts [] = [].
Proof. reflexivity. Qed.

Arguments acts : simpl never.

Create Rewrite HintDb acts.
#[global] Hint Rewrite acts_app acts_cons acts_nil app_nil_r : acts.

Ltac show_acts := autorewrite with acts; cbn [app is_act].

Lemma acts_error_lines (logs : list event) : Forall is_error_line logs -> acts logs = [].
Proof.
  induction 1 as [|ev l Hev _ IH]; [reflexivity|].
  destruct ev as [[] msg| | | | |]; try destruct Hev. rewrite acts_cons. exact IH.
Qed.

Lemma run_cli_command_acts (env : Env) (argv : list string) :
  exists t,
    run_cli_command env argv = (t, Ok (git_output env argv)) /\ acts t = [Run argv].
Proof.
  destruct (Wrapper.run_cli_command_lines env argv) as (logs & Hrun & Hlogs).
  eexists. split; [exact Hrun|]. show_acts. now rewrite (acts_error_lines logs Hlogs).
Qed.

Lemma strip_empty_length (s : string) :
  Nat.ltb 0 (String.length s) = PyStr.nonempty s.
Proof. now destruct s. Qed.

Lemma gate_verdict (env : Env) (self : t) (out : string) :
  subprocess_run env ["git"; "status"; "--porcelain"] = Ok out ->
  _commit_state_is_valid env self
  = (Run ["git"; "status"; "--porcelain"]
       :: (if (PyStr.nonempty (PyStr.strip out) && negb (allow_uncommitted self))%bool
           then [uncommitted_line] else []),
     Ok (negb (PyStr.nonempty (PyStr.strip out) && negb (allow_uncommitted self)))).
Proof.
  intros Hout. unfold _commit_state_is_valid, has_uncommitted_changes.
  rewrite (run_cli_command_success env _ _ Hout), bind_pair_ok. cbn [trace result fst snd ret].
  rewrite bind_pair_ok, strip_empty_length.
  destruct (_ && _)%bool; reflexivity.
Qed.

(** X11.  When [git status --porcelain] succeeds, the gate never raises:
    it lets the push through exactly when uncommitted changes are allowed
    or the output of the command is empty once stripped.  A push that is
    not let through logs one error line and returns, having run nothing
    but that command: it asks nothing, sends nothing, mirrors and writes
    nothing, and creates no tag. *)
Theorem gate_decides (env : Env) (self : t) (out : string) :
  subprocess_run env ["git"; "status"; "--porcelain"] = Ok out ->
  (exists verdict,
      result (_commit_state_is_valid env self) = Ok verdict
      /\ (verdict = true <-> allow_uncommitted self = true \/ PyStr.strip out = ""))
  /\ (allow_uncommitted self = false -> PyStr.strip out <> "" ->
      execute env self
      = ([executing_line self; Run ["git"; "status"; "--porcelain"]; uncommitted_line],
         Ok tt)).
Proof.
  intros Hout. pose proof (gate_verdict env self out Hout) as Hgate. split.
  - eexists. rewrite Hgate. split; [reflexivity|].
    destruct (PyStr.strip out) as [|c r]; cbn.
    + split; auto.
    + destruct (allow_uncommitted self); cbn; split; auto.
      intros [H|H]; discriminate.
  - intros Hallow Hdirty. unfold execute. rewrite Hgate, Hallow.
    destruct (PyStr.strip out) as [|c r]; [congruence|]. reflexivity.
Qed.

Lemma gate_decides_witness :
  exists verdict,
    result (_commit_state_is_valid Examples.quiet Examples.empty_push) = Ok verdict
    /\ (verdict = true <->
        allow_uncommitted Examples.empty_push = true \/ PyStr.strip "" = "").
Proof.
  exact (proj1 (gate_decides Examples.quiet Examples.empty_push "" eq_refl)).
Defined.

Section Declined.
Variable env : Env.
Variable self : t.

Lemma declined_turns (client_data : dict pyval) (l : dict APIAdaptor.t) (st : send_state) :
  (forall target, In target (Dict.keys l) -> accepted env target = false) ->
  for_each (send_one env self client_data) l st
  = (map (fun target => Input (prompt_of target)) (Dict.keys l), Ok st).
Proof.
  revert st. induction l as [|[target api] rest IH]; intros st Hno; [reflexivity|].
  cbn [for_each]. unfold send_one at 1.
  rewrite (Send.continue_Yn_shape env target), bind_pair_ok.
  rewrite (Hno target (or_introl eq_refl)). cbn [negb ret trace result fst snd].
  rewrite bind_pair_ok, IH by (intros t Ht; apply Hno; now right). reflexivity.
Qed.

Lemma client_data_acts :
  exists t,
    _get_client_data env self = (t, Ok (client_data env self))
    /\ acts t = [Run ["git"; "rev-parse"; "HEAD"];
                 Run ["git"; "rev-parse"; "--abbrev-ref"; "HEAD"];
                 Run ["git"; "log"; "-1"; "--pretty=%B"]].
Proof.
  unfold _get_client_data, client_data.
  destruct (run_cli_command_acts env ["git"; "rev-parse"; "HEAD"]) as (t1 & -> & H1).
  destruct (run_cli_command_acts env ["git"; "rev-parse"; "--abbrev-ref"; "HEAD"])
    as (t2 & -> & H2).
  destruct (run_cli_command_acts env ["git"; "log"; "-1"; "--pretty=%B"]) as (t3 & -> & H3).
  cbn. eexists. split; [reflexivity|].
  show_acts. rewrite H1, H2, H3. reflexivity.
Qed.
End Declined.

(** X12.  When the gate lets the push through and the operator declines
    every target, the push returns normally: it has run the four git
    queries and asked about each target once, in the order of the
    connections, and has done nothing else: no request, no mirroring, no
    write and no tag. *)
Theorem declined_push_does_nothing (env : Env) (self : t) :
  result (_commit_state_is_valid env self) = Ok true ->
  (forall target, In target (Dict.keys (api_connections self)) ->
                  accepted env target = false) ->
  result (execute env self) = Ok tt
  /\ acts (trace (execute env self))
     = map Run git_queries
       ++ map (fun target => Input (prompt_of target)) (Dict.keys (api_connections self)).
Proof.
  intros Hgate Hno.
  assert (Hacts : acts (trace (_commit_state_is_valid env self))
                  = [Run ["git"; "status"; "--porcelain"]]).
  { unfold _commit_state_is_valid, has_uncommitted_changes.
    destruct (run_cli_command_acts env ["git"; "status"; "--porcelain"]) as (t & -> & Ht).
    rewrite bind_pair_ok. destruct (git_output env _) as [status|]; cbn.
    - destruct (_ && _)%bool; cbn; show_acts; rewrite Ht; reflexivity.
    - show_acts. exact Ht. }
  destruct (client_data_acts env self) as (t0 & Hcd & H0).
  assert (Hsend : _send_all env self
                  = (t0 ++ map (fun target => Input (prompt_of target))
                               (Dict.keys (api_connections self)), Ok [])).
  { unfold _send_all. rewrite Hcd, bind_pair_ok.
    rewrite (declined_turns env self _ _ _ Hno). cbn. now rewrite app_nil_r. }
  unfold execute. rewrite (M_eta (_commit_state_is_valid env self)), Hgate.
  unfold log_debug, emit. rewrite !bind_pair_ok. cbn [negb].
  rewrite Hsend, bind_pair_ok. cbn [trace result fst snd ret].
  split; [reflexivity|].
  assert (Hq : forall l, acts (map (fun target => Input (prompt_of target)) l)
                         = map (fun target => Input (prompt_of target)) l).
  { induction l as [|k r IH]; [reflexivity|]. cbn [map]. rewrite acts_cons, IH. reflexivity. }
  show_acts. rewrite Hacts, H0, Hq. reflexivity.
Qed.

Lemma declined_push_does_nothing_witness :
  result (execute Cases.says_no Examples.push_T1_T2) = Ok tt.
Proof.
  apply (declined_push_does_nothing Cases.says_no Examples.push_T1_T2).
  - reflexivity.
  - intros target [<-|[<-|[]]]; reflexivity.
Defined.
End Gate.

(** ** Push: the turns of the loop *)

Module Turns.
Import PushCommand Traces.

Lemma In_bind_l {A B} (m : M A) (k : A -> M B) (ev : event) :
  In ev (trace m) -> In ev (trace (bind m k)).
Proof.
  destruct m as [t [a|e]]; cbn; [|auto]. destruct (k a). cbn. intros H.
  apply in_or_app. now left.
Qed.

Lemma In_bind_r {A B} (m : M A) (k : A -> M B) (a : A) (ev : event) :
  result m = Ok a -> In ev (trace (k a)) -> In ev (trace (bind m k)).
Proof.
  destruct m as [t r]. cbn. intros ->. destruct (k a). cbn. intros H.
  apply in_or_app. now right.
Qed.

Lemma In_try_except {A} (m : M A) (clauses : list (clause A)) (ev : event) :
  In ev (trace m) -> In ev (trace (try_except m clauses)).
Proof.
  destruct m as [t [a|e]]; cbn; [auto|].
  destruct (dispatch e clauses) as [[t' r]|]; cbn; [|auto].
  intros H. apply in_or_app. now left.
Qed.

Lemma for_each_raises {A S} (body : S -> A -> M S) (l : list A) (a : A) (s : S) :
  In a l -> (forall s, exists e, result (body s a) = Raise e) ->
  exists e, result (for_each body l s) = Raise e.
Proof.
  intros Hin Hraise. revert s. induction l as [|a0 r IH]; intros s; [destruct Hin|].
  cbn [for_each]. rewrite result_bind.
  destruct (result (body s a0)) as [s'|e] eqn:Hturn; [|eauto].
  destruct Hin as [->|Hin]; [|now apply IH].
  destruct (Hraise s) as (e & He). congruence.
Qed.

Lemma In_for_each {A S} (body : S -> A -> M S) (l : list A) (a : A) (s : S) (ev : event) :
  (forall s a, In a l -> exists s', result (body s a) = Ok s') ->
  In a l -> (forall s, In ev (trace (body s a))) ->
  In ev (trace (for_each body l s)).
Proof.
  intros Hok Hin Hev. revert s. induction l as [|a0 r IH]; intros s; [destruct Hin|].
  cbn [for_each]. destruct Hin as [->|Hin]; [apply In_bind_l, Hev|].
  destruct (Hok s a0 (or_introl eq_refl)) as (s' & Hs').
  apply (In_bind_r _ _ s' _ Hs'). apply IH; [|exact Hin].
  intros s0 a1 Ha1. apply Hok. now right.
Qed.

Lemma queries_are_no_tags (env : Env) (self : t) (tr : list event) :
  Forall (within_send env self) tr -> tag_commands tr = [].
Proof.
  unfold tag_commands. induction 1 as [|ev l Hev _ IH]; [reflexivity|].
  rewrite runs_cons, List.filter_app, IH, app_nil_r.
  destruct ev; try reflexivity. cbn in Hev.
  destruct Hev as [<-|[<-|[<-|[<-|[]]]]]; reflexivity.
Qed.

Section WithPush.
Variable env : Env.
Variable self : t.

(** A turn that raises ends the sending, and a push whose sending raises
    ends with that exception, without a tag. *)
Lemma raising_turn_ends_sending (kv : string * APIAdaptor.t) :
  In kv (api_connections self) ->
  (forall st, exists e, result (send_one env self (client_data env self) st kv) = Raise e) ->
  exists e, result (_send_all env self) = Raise e.
Proof.
  intros Hin Hraise. unfold _send_all.
  destruct (Send.get_client_data_shape env self) as (t & Hcd & _).
  rewrite Hcd, bind_pair_ok. cbn [result snd]. rewrite result_bind.
  destruct (for_each_raises _ _ kv (mk_send None []) Hin Hraise) as (e & ->). eauto.
Qed.

Lemma raising_sending_ends_push (e : exn) :
  result (_commit_state_is_valid env self) = Ok true ->
  result (_send_all env self) = Raise e ->
  result (execute env self) = Raise e /\ tag_commands (trace (execute env self)) = [].
Proof.
  intros Hgate Hsend. unfold execute.
  rewrite (M_eta (_commit_state_is_valid env self)), Hgate.
  unfold log_debug, emit. rewrite !bind_pair_ok. cbn [negb].
  rewrite (M_eta (_send_all env self)), Hsend. cbn [bind trace result fst snd].
  split; [reflexivity|].
  unfold tag_commands. show_runs. rewrite (Send.gate_runs env self).
  rewrite List.filter_app.
  change (List.filter is_tag_command (runs (trace (_send_all env self))))
    with (tag_commands (trace (_send_all env self))).
  rewrite (queries_are_no_tags env self); [reflexivity|apply Bounds.send_all_within].
Qed.

Lemma copy_mirrors (target dirname : string) (client_data : dict pyval) :
  FileMap.get_module_directory (filemap self) target = Ok (Some dirname) ->
  PyStr.nonempty dirname = true ->
  In (Mirror (local_twin self dirname) dirname)
     (trace (_copy_files_to_target env self target client_data)).
Proof.
  intros Hdir Hne. unfold _copy_files_to_target.
  rewrite Hdir, bind_lift_ok.
  change (default "" (Some dirname)) with dirname. rewrite Hne. cbn [negb].
  apply In_bind_l. now left.
Qed.

Lemma mirror_in_turn (st : send_state) (target dirname : string) (api : APIAdaptor.t)
      (r : pyval) :
  accepted env target = true ->
  result (_post_files_to_target env self target api (client_data env self)) = Ok r ->
  FileMap.get_module_directory (filemap self) target = Ok (Some dirname) ->
  PyStr.nonempty dirname = true ->
  In (Mirror (local_twin self dirname) dirname)
     (trace (send_one env self (client_data env self) st (target, api))).
Proof.
  intros Hacc Hpost Hdir Hne. unfold send_one.
  rewrite (Send.continue_Yn_shape env target), bind_pair_ok, Hacc. cbn [negb trace fst].
  apply in_or_app. right.
  apply (In_bind_r _ _ (Some r)).
  { rewrite (M_eta (_post_files_to_target env self target api (client_data env self))), Hpost.
    rewrite bind_pair_ok. reflexivity. }
  apply In_bind_l, In_bind_l, In_try_except. now apply copy_mirrors.
Qed.
End WithPush.

(** X13.  A request that fails does not stop the mirroring: when the
    push is prepared for failures and the request to an accepted target
    fails, the module directory of that target is mirrored all the same. *)
Theorem failed_request_does_not_stop_the_mirroring (env : Env) (self : t)
        (target dirname : string) (api : APIAdaptor.t) (e : exn) :
  prepared_for_failures env self ->
  In (target, api) (api_connections self) ->
  accepted env target = true ->
  answer env self target api = Raise e ->
  FileMap.get_module_directory (filemap self) target = Ok (Some dirname) ->
  PyStr.nonempty dirname = true ->
  submit_outcome env self target api = PNone
  /\ In (Mirror (local_twin self dirname) dirname) (trace (_send_all env self)).
Proof.
  intros Hprep Hin Hacc Hfail Hdir Hne.
  split; [now apply (Send.unanswered_is_none env self target api e)|].
  destruct (Send.post_shape env self Hprep target api Hin) as (tp & Hpost & _).
  unfold _send_all.
  destruct (Send.get_client_data_shape env self) as (t0 & Hcd & _).
  apply (In_bind_r _ _ (client_data env self)); [now rewrite Hcd|].
  apply In_bind_l.
  apply (In_for_each _ _ (target, api)); [|exact Hin|].
  - intros st [t1 a1] Hin1.
    destruct (Send.send_one_shape env self Hprep st t1 a1 Hin1) as (t & -> & _). eauto.
  - intros st. apply (mirror_in_turn env self st target dirname api
                        (submit_outcome env self target api)); auto.
    now rewrite Hpost.
Qed.

Lemma nobody_answers_prepared :
  prepared_for_failures Cases.nobody_answers Examples.push_T1_T2.
Proof.
  split.
  - intros target api [H|[H|[]]]; inversion H; subst; do 2 eexists;
      (split; [reflexivity|]); (split; [reflexivity|]);
      intros f d [Hf|[]]; inversion Hf; subst; exact I.
  - intros url auth params files e H. inversion H. reflexivity.
  - discriminate.
  - discriminate.
  - eexists. reflexivity.
Qed.

Lemma failed_request_does_not_stop_the_mirroring_witness :
  In (Mirror "/repo/modules" "/srv/T1/modules")
     (trace (_send_all Cases.nobody_answers Examples.push_T1_T2)).
Proof.
  apply (failed_request_does_not_stop_the_mirroring Cases.nobody_answers Examples.push_T1_T2
           "T1" "/srv/T1/modules" (Examples.adaptor "T1") Examples.connection_refused).
  - exact nobody_answers_prepared.
  - now left.
  - reflexivity.
  - reflexivity.
  - reflexivity.
  - reflexivity.
Defined.

(** X14.  When the current commit is unknown ([git rev-parse HEAD]
    failed), the turn of an accepted target with a module directory raises
    [TypeError] once its request has returned and its module directory
    has been mirrored: no clause of the loop catches it, so the sending
    ends with an exception, and a push that passed its gate ends with an
    exception and creates no tag. *)
Theorem unknown_commit_ends_the_push (env : Env) (self : t)
        (target dirname : string) (api : APIAdaptor.t) (r : pyval) :
  In (target, api) (api_connections self) ->
  accepted env target = true ->
  git_output env ["git"; "rev-parse"; "HEAD"] = None ->
  result (_post_files_to_target env self target api (client_data env self)) = Ok r ->
  FileMap.get_module_directory (filemap self) target = Ok (Some dirname) ->
  PyStr.nonempty dirname = true ->
  mirror env (local_twin self dirname) dirname = Ok tt ->
  (forall st,
      result (send_one env self (client_data env self) st (target, api))
      = Raise cannot_add_to_none
      /\ In (Mirror (local_twin self dirname) dirname)
            (trace (send_one env self (client_data env self) st (target, api))))
  /\ (exists e, result (_send_all env self) = Raise e)
  /\ (result (_commit_state_is_valid env self) = Ok true ->
      exists e, result (execute env self) = Raise e
                /\ tag_commands (trace (execute env self)) = []).
Proof.
  intros Hin Hacc Hsha Hpost Hdir Hne Hmirror.
  assert (Hturn : forall st,
             result (send_one env self (client_data env self) st (target, api))
             = Raise cannot_add_to_none).
  { intros st. unfold send_one.
    rewrite (Send.continue_Yn_shape env target), bind_pair_ok, Hacc. cbn [negb result snd].
    rewrite (M_eta (_post_files_to_target env self target api (client_data env self))), Hpost.
    rewrite bind_pair_ok. cbn [ret trace result fst snd try_except].
    rewrite bind_pair_ok. cbn [result snd].
    assert (Hcopy : result (_copy_files_to_target env self target (client_data env self))
                    = Raise cannot_add_to_none).
    { unfold _copy_files_to_target. rewrite Hdir, bind_lift_ok.
      change (default "" (Some dirname)) with dirname. rewrite Hne. cbn [negb]. unfold local_twin in Hmirror.
      unfold emit. rewrite bind_pair_ok. cbn [result snd]. rewrite Hmirror, bind_lift_ok.
      unfold client_data at 1. cbn [Dict.get String.eqb Ascii.eqb Bool.eqb].
      rewrite Hsha. reflexivity. }
    rewrite !result_bind.
    rewrite (M_eta (_copy_files_to_target env self target (client_data env self))), Hcopy.
    reflexivity. }
  assert (Hsend : exists e, result (_send_all env self) = Raise e).
  { apply (raising_turn_ends_sending env self (target, api) Hin). intros st. eauto. }
  split; [|split; [exact Hsend|]].
  - intros st. split; [apply Hturn|]. now apply (mirror_in_turn env self st target dirname api r).
  - intros Hgate. destruct Hsend as (e & He). exists e.
    now apply raising_sending_ends_push.
Qed.

Lemma unknown_commit_ends_the_push_witness :
  exists e, result (_send_all Cases.no_commit_yet Examples.push_T1_T2) = Raise e.
Proof.
  apply (unknown_commit_ends_the_push Cases.no_commit_yet Examples.push_T1_T2
           "T1" "/srv/T1/modules" (Examples.adaptor "T1")
           (PDict [("docId123", Examples.version_7)])).
  - now left.
  - reflexivity.
  - reflexivity.
  - vm_compute. reflexivity.
  - reflexivity.
  - reflexivity.
  - reflexivity.
Defined.

(** X15.  Nothing checks the targets of a push against the file map
    before the loop: the turn of an accepted target that the map does not
    have raises [AttributeError] right after the question, before
    anything is read or sent for it, so the sending ends with an
    exception, and a push that passed its gate ends with an exception and
    creates no tag. *)
Theorem unmapped_target_ends_the_push (env : Env) (self : t) (target : string)
        (api : APIAdaptor.t) (targets : dict FileMapJson.target_properties) :
  In (target, api) (api_connections self) ->
  accepted env target = true ->
  FileMapJson._targets (FileMap.filemap (filemap self)) = Some targets ->
  Dict.get target targets = None ->
  (forall st,
      send_one env self (client_data env self) st (target, api)
      = ([Input (prompt_of target)], Raise (none_has_no "get")))
  /\ (exists e, result (_send_all env self) = Raise e)
  /\ (result (_commit_state_is_valid env self) = Ok true ->
      exists e, result (execute env self) = Raise e
                /\ tag_commands (trace (execute env self)) = []).
Proof.
  intros Hin Hacc Htargets Hnone.
  assert (Hturn : forall st,
             send_one env self (client_data env self) st (target, api)
             = ([Input (prompt_of target)], Raise (none_has_no "get"))).
  { intros st. unfold send_one.
    rewrite (Send.continue_Yn_shape env target), bind_pair_ok, Hacc. cbn [negb].
    unfold _post_files_to_target, FileMap.get_document_profiles, FileMap.target_properties.
    rewrite Htargets, Hnone. reflexivity. }
  assert (Hsend : exists e, result (_send_all env self) = Raise e).
  { apply (raising_turn_ends_sending env self (target, api) Hin).
    intros st. rewrite Hturn. eauto. }
  split; [exact Hturn|]. split; [exact Hsend|].
  intros Hgate. destruct Hsend as (e & He). exists e. now apply raising_sending_ends_push.
Qed.

Lemma unmapped_target_ends_the_push_witness :
  exists e, result (_send_all Examples.T2_unreachable Cases.push_T9) = Raise e.
Proof.
  apply (unmapped_target_ends_the_push Examples.T2_unreachable Cases.push_T9
           "T9" (Examples.adaptor "T9")
           [("T1", FileMapJson.mk_target (Some [("file.js", "docId123")])
                                         (Some "/srv/T1/modules"));
            ("T2", FileMapJson.mk_target (Some [("file.js", "docId123")]) None)]).
  - now left.
  - reflexivity.
  - reflexivity.
  - reflexivity.
Defined.
End Turns.

(** ** Push: the responses that can be tagged *)

Module Tagging.
Import PushCommand.

Section WithPush.
Variable self : t.

Local Abbreviation remap_turn :=
  (fun (responses : dict pyval) '(target, doc_map) =>
     res_bind (FileMap.get_document_profiles (filemap self) target) (fun profiles =>
     match profiles with
     | None => Raise (none_has_no "items")
     | Some profiles =>
         match doc_map with
         | PDict doc_map =>
             Ok (Dict.set target
                   (PDict (remap_doc_map (reverse_profiles profiles) doc_map)) responses)
         | _ => Raise (Exn AttributeError [Lit "object has no attribute 'items'"])
         end
     end)).

Lemma profiles_raise_attribute_error (target : string) (e : exn) :
  FileMap.get_document_profiles (filemap self) target = Raise e -> exn_cls e = AttributeError.
Proof.
  unfold FileMap.get_document_profiles, FileMap.target_properties.
  destruct (FileMapJson._targets _) as [targets|]; [|intros H; now inversion H].
  destruct (Dict.get target targets); intros H; now inversion H.
Qed.

Lemma remap_turn_cases (responses : dict pyval) (target : string) (r : pyval) :
  match remap_turn responses (target, r) with
  | Ok _ => remappable (filemap self) target r
  | Raise e => exn_cls e = AttributeError
  end.
Proof.
  cbn beta iota. unfold res_bind, remappable.
  destruct (FileMap.get_document_profiles (filemap self) target) as [[profiles|]|e] eqn:Hp;
    [| reflexivity | now apply (profiles_raise_attribute_error target)].
  destruct r; try reflexivity. eauto.
Qed.

Lemma remap_inv (l : dict pyval) (acc : dict pyval) :
  match res_fold remap_turn l acc with
  | Ok _ => forall target r, In (target, r) l -> remappable (filemap self) target r
  | Raise e => exn_cls e = AttributeError
  end.
Proof.
  revert acc. induction l as [|[target r] rest IH]; intros acc; [intros ? ? []|].
  cbn [res_fold]. pose proof (remap_turn_cases acc target r) as Hturn.
  destruct (remap_turn acc (target, r)) as [acc'|e]; [|exact Hturn].
  cbn [res_bind]. specialize (IH acc').
  destruct (res_fold remap_turn rest acc') as [final|e]; [|exact IH].
  intros t0 r0 [Heq|Hin]; [inversion Heq; now subst|now apply IH].
Qed.
End WithPush.

(** X16.  The step that turns document identifiers back into file names
    returns exactly for the response maps all of whose responses are
    dictionaries, of targets whose document profiles the file map has;
    for every other response map it raises [AttributeError]. *)
Theorem remap_needs_dictionaries (self : t) (target_responses : dict pyval) :
  ((exists responses, _remap_target_responses self target_responses = Ok responses) <->
   forall target r, In (target, r) target_responses -> remappable (filemap self) target r)
  /\ (forall e, _remap_target_responses self target_responses = Raise e ->
                exn_cls e = AttributeError).
Proof.
  pose proof (remap_inv self target_responses target_responses) as Hinv.
  unfold _remap_target_responses. split; [split|].
  - intros (responses & Hok). rewrite Hok in Hinv. exact Hinv.
  - intros Hall. destruct (Remap.remap_total self target_responses Hall) as (responses & Hok & _).
    unfold _remap_target_responses in Hok. eauto.
  - intros e He. rewrite He in Hinv. exact Hinv.
Qed.

(** X17.  An answer that is not a dictionary cannot be tagged: when the
    push is prepared for failures and has passed its gate, and an
    accepted target answers with a true value that is no dictionary (the
    text of a page, say), every target is served and then the push ends
    with [AttributeError], without a tag. *)
Theorem text_answer_ends_the_push (env : Env) (self : t) (target : string)
        (api : APIAdaptor.t) :
  Dict.wf (api_connections self) ->
  prepared_for_failures env self ->
  result (_commit_state_is_valid env self) = Ok true ->
  In (target, api) (api_connections self) ->
  accepted env target = true ->
  truthy (submit_outcome env self target api) = true ->
  (forall doc_map, submit_outcome env self target api <> PDict doc_map) ->
  result (_send_all env self) = Ok (expected_responses env self)
  /\ In (target, submit_outcome env self target api) (expected_responses env self)
  /\ exists e,
       result (execute env self) = Raise e
       /\ exn_cls e = AttributeError
       /\ tag_commands (trace (execute env self)) = [].
Proof.
  intros Hwf Hprep Hgate Hin Hacc Htrue Hnodict.
  destruct (Send.send_all_shape env self Hprep Hwf) as (ts & Hsend & Hqs & _).
  assert (Hentry : In (target, submit_outcome env self target api) (expected_responses env self)).
  { apply Send.entries_of_In. exists api. auto. }
  split; [now rewrite Hsend|]. split; [exact Hentry|].
  pose proof (remap_inv self (expected_responses env self) (expected_responses env self))
    as Hinv.
  fold (_remap_target_responses self (expected_responses env self)) in Hinv.
  destruct (_remap_target_responses self (expected_responses env self)) as [processed|e] eqn:Hremap.
  { exfalso. destruct (Hinv _ _ Hentry) as (profiles & doc_map & _ & Hdict).
    exact (Hnodict doc_map Hdict). }
  exists e. unfold execute. rewrite (M_eta (_commit_state_is_valid env self)), Hgate.
  unfold log_debug, emit. rewrite !bind_pair_ok. cbn [negb].
  rewrite Hsend, bind_pair_ok.
  destruct (expected_responses env self) as [|entry rest] eqn:Hexp; [destruct Hentry|].
  rewrite Hremap. cbn [lift bind trace result fst snd].
  split; [reflexivity|]. split; [exact Hinv|].
  unfold tag_commands. show_runs. rewrite (Send.gate_runs env self), Hqs. reflexivity.
Qed.

Lemma answers_with_a_page_prepared :
  prepared_for_failures Cases.answers_with_a_page Examples.push_T1_T2.
Proof.
  split.
  - intros target api [H|[H|[]]]; inversion H; subst; do 2 eexists;
      (split; [reflexivity|]); (split; [reflexivity|]);
      intros f d [Hf|[]]; inversion Hf; subst; exact I.
  - discriminate.
  - discriminate.
  - discriminate.
  - eexists. reflexivity.
Qed.

Lemma text_answer_ends_the_push_witness :
  exists e,
    result (execute Cases.answers_with_a_page Examples.push_T1_T2) = Raise e
    /\ exn_cls e = AttributeError
    /\ tag_commands (trace (execute Cases.answers_with_a_page Examples.push_T1_T2)) = [].
Proof.
  apply (text_answer_ends_the_push Cases.answers_with_a_page Examples.push_T1_T2
           "T1" (Examples.adaptor "T1")).
  - exact Send.push_T1_T2_wf.
  - exact answers_with_a_page_prepared.
  - reflexivity.
  - now left.
  - reflexivity.
  - reflexivity.
  - intros doc_map. vm_compute. discriminate.
Defined.
End Tagging.

(** ** The connections of a command *)

Module Connections.
Import PushCommand.

Section DictMore.
Context {V : Type}.
Implicit Types (d : dict V) (l : list (string * V)).

Lemma seen_keys (k : string) d : seen (Dict.keys d) k = Dict.mem k d.
Proof.
  unfold seen, Dict.mem, Dict.keys. induction d as [|[k0 v0] r IH]; cbn; [reflexivity|].
  destruct (String.eqb k k0); [reflexivity|exact IH].
Qed.

Lemma seen_In (ks : list string) (k : string) : seen ks k = true <-> In k ks.
Proof.
  unfold seen. rewrite existsb_exists. split.
  - intros (x & Hin & Heq). apply String.eqb_eq in Heq. now subst.
  - intros Hin. exists k. split; [exact Hin|apply String.eqb_refl].
Qed.

Lemma wf_set (k : string) (v : V) d : Dict.wf d -> Dict.wf (Dict.set k v d).
Proof.
  unfold Dict.wf. rewrite DictFacts.keys_set, <- seen_keys. intros Hwf.
  destruct (seen (Dict.keys d) k) eqn:Hseen; [exact Hwf|].
  apply NoDup_app. split; [exact Hwf|]. split; [|apply NoDup_singleton].
  intros x Hx Hk. apply list_elem_of_In in Hx, Hk. destruct Hk as [<-|[]].
  apply seen_In in Hx. congruence.
Qed.

Lemma wf_set_all l d : Dict.wf d -> Dict.wf (Dict.set_all l d).
Proof.
  revert d. induction l as [|[k v] r IH]; intros d Hwf; [exact Hwf|].
  apply (IH (Dict.set k v d)). now apply wf_set.
Qed.

Lemma filter_filter_ext {A} (f g h : A -> bool) (l : list A) :
  (forall x, (f x && g x)%bool = h x) ->
  List.filter f (List.filter g l) = List.filter h l.
Proof.
  intros Hfg. induction l as [|x r IH]; [reflexivity|]. cbn.
  rewrite <- Hfg. destruct (g x); cbn; [destruct (f x); now rewrite IH|].
  now rewrite andb_false_r.
Qed.

Lemma keys_set_all l d :
  Dict.keys (Dict.set_all l d)
  = Dict.keys d ++ List.filter (fun k => negb (seen (Dict.keys d) k)) (distinct (map fst l)).
Proof.
  revert d. induction l as [|[k v] r IH]; intros d; [cbn; now rewrite app_nil_r|].
  change (Dict.set_all ((k, v) :: r) d) with (Dict.set_all r (Dict.set k v d)).
  rewrite IH, DictFacts.keys_set, <- seen_keys. cbn [map fst distinct List.filter].
  destruct (seen (Dict.keys d) k) eqn:Hseen; cbn [negb].
  - f_equal. symmetry. apply filter_filter_ext. intros x.
    destruct (String.eqb_spec x k) as [->|Hne]; cbn; [now rewrite Hseen|apply andb_true_r].
  - rewrite <- app_assoc. cbn [app]. do 2 f_equal.
    rewrite filter_filter_ext with (h := fun x => negb (seen (Dict.keys d ++ [k]) x));
      [reflexivity|].
    intros x. unfold seen. rewrite existsb_app. cbn. rewrite orb_false_r, negb_orb.
    reflexivity.
Qed.

Lemma get_set_all_same (f : string -> V) (k : string) l d :
  (forall k' v, In (k', v) l -> v = f k') ->
  Dict.get k (Dict.set_all l d) = if seen (map fst l) k then Some (f k) else Dict.get k d.
Proof.
  revert d. induction l as [|[k0 v0] r IH]; intros d Hsame; [reflexivity|].
  change (Dict.set_all ((k0, v0) :: r) d) with (Dict.set_all r (Dict.set k0 v0 d)).
  rewrite IH by (intros k' v Hin; apply Hsame; now right).
  unfold seen. cbn [map fst existsb]. fold (seen (map fst r) k).
  rewrite DictFacts.get_set.
  destruct (seen (map fst r) k); [now rewrite orb_true_r|]. rewrite orb_false_r.
  destruct (String.eqb_spec k k0) as [->|Hne]; [|reflexivity].
  now rewrite (Hsame k0 v0 (or_introl eq_refl)).
Qed.
End DictMore.

Section WithEnv.
Variable env : Env.
Variables username password : string.

Local Abbreviation connect :=
  (fun (api_connections : dict APIAdaptor.t) target =>
     match Dict.get target (config_urls env), Dict.get target (config_webservice_ids env) with
     | Some target_url, Some target_webservice_id =>
         api <- APIAdaptor.init (ip_address env) (normalize_NFKC env)
                                target_url target_webservice_id username password ;;
         ret (Dict.set target api api_connections)
     | _, _ => raise (Exn KeyError [Lit target])
     end).

Lemma connect_result (acc : dict APIAdaptor.t) (target : string) :
  result (connect acc target)
  = res_bind (connection_of env username password target)
             (fun api => Ok (Dict.set target api acc)).
Proof.
  cbn beta. unfold connection_of, APIAdaptor.init.
  destruct (Dict.get target (config_urls env)) as [url|]; [|reflexivity].
  destruct (Dict.get target (config_webservice_ids env)) as [ws|]; [|reflexivity].
  destruct (APIAdaptor._validate_url _ _ url) as [validated|e]; reflexivity.
Qed.

Lemma connect_acts (acc : dict APIAdaptor.t) (target : string) :
  acts (trace (connect acc target)) = [].
Proof.
  cbn beta. unfold APIAdaptor.init.
  destruct (Dict.get target (config_urls env)) as [url|]; [|reflexivity].
  destruct (Dict.get target (config_webservice_ids env)) as [ws|]; [|reflexivity].
  destruct (APIAdaptor._validate_url _ _ url) as [validated|e]; reflexivity.
Qed.

(** The connections of the targets that have one. *)
Lemma connected (l : list string) :
  (forall target, In target l ->
                  exists api, connection_of env username password target = Ok api) ->
  exists pairs,
    map fst pairs = l
    /\ (forall target api, In (target, api) pairs ->
                           connection_of env username password target = Ok api)
    /\ forall acc, result (for_each connect l acc) = Ok (Dict.set_all pairs acc).
Proof.
  induction l as [|target rest IH]; intros Hall.
  - exists []. split; [reflexivity|]. split; [intros ? ? []|reflexivity].
  - destruct (Hall target (or_introl eq_refl)) as (api & Hapi).
    destruct IH as (pairs & Hfst & Hconn & Hloop); [intros t Ht; apply Hall; now right|].
    exists ((target, api) :: pairs). split; [cbn; now rewrite Hfst|]. split.
    + intros t a [Heq|Hin]; [inversion Heq; now subst|now apply Hconn].
    + intros acc. cbn [for_each]. rewrite result_bind, connect_result, Hapi. cbn [res_bind].
      apply Hloop.
Qed.

Lemma loop_acts (l : list string) (acc : dict APIAdaptor.t) :
  acts (trace (for_each connect l acc)) = [].
Proof.
  revert acc. induction l as [|target rest IH]; intros acc; [reflexivity|].
  cbn [for_each]. rewrite trace_bind.
  destruct (result (connect acc target)) as [acc'|e]; [|apply connect_acts].
  now rewrite Gate.acts_app, connect_acts, IH.
Qed.

Lemma loop_stops (before after : list string) (target : string) (e : exn)
      (acc : dict APIAdaptor.t) :
  (forall t, In t before -> exists api, connection_of env username password t = Ok api) ->
  connection_of env username password target = Raise e ->
  result (for_each connect (before ++ target :: after) acc) = Raise e.
Proof.
  revert acc. induction before as [|t0 rest IH]; intros acc Hbefore Hfail.
  - cbn [app for_each]. now rewrite result_bind, connect_result, Hfail.
  - destruct (Hbefore t0 (or_introl eq_refl)) as (api & Hapi).
    cbn [app for_each]. rewrite result_bind, connect_result, Hapi. cbn [res_bind].
    apply IH; [intros t Ht; apply Hbefore; now right|exact Hfail].
Qed.
End WithEnv.

(** X18.  Setting up the connections of a command asks nothing and runs,
    sends and writes nothing.  When every requested target has a URL and a
    webservice id in the configuration and its URL is valid, the result
    has one connection for each requested name, at the place of its first
    mention, with the validated URL, the webservice id and the
    credentials; otherwise the exception of the first target without a
    connection is raised: [KeyError] for a name that is not configured,
    the [ValueError] of the validation for an invalid URL. *)
Theorem connections_of_the_targets (env : Env) (targets : list string)
        (username password : string) :
  acts (trace (_init_api_connections env targets username password)) = []
  /\ ((forall target, In target targets ->
                      exists api, connection_of env username password target = Ok api) ->
      exists api_connections,
        result (_init_api_connections env targets username password) = Ok api_connections
        /\ Dict.wf api_connections
        /\ Dict.keys api_connections = distinct targets
        /\ forall target, In target targets ->
                          exists api,
                            connection_of env username password target = Ok api
                            /\ Dict.get target api_connections = Some api)
  /\ (forall before target after e,
        targets = before ++ target :: after ->
        (forall t, In t before ->
                   exists api, connection_of env username password t = Ok api) ->
        connection_of env username password target = Raise e ->
        result (_init_api_connections env targets username password) = Raise e).
Proof.
  unfold _init_api_connections. split; [apply loop_acts|]. split.
  - intros Hall. destruct (connected env username password targets Hall)
      as (pairs & Hfst & Hconn & Hloop).
    exists (Dict.set_all pairs []). split; [apply Hloop|]. split.
    { apply wf_set_all. constructor. }
    split.
    { rewrite keys_set_all, Hfst. cbn. induction (distinct targets) as [|x r IH]; [reflexivity|].
      cbn. now rewrite IH. }
    intros target Hin. destruct (Hall target Hin) as (api & Hapi). exists api.
    split; [exact Hapi|].
    rewrite (get_set_all_same
               (fun t => match connection_of env username password t with
                         | Ok a => a
                         | Raise _ => api
                         end)).
    + rewrite Hfst. assert (Hseen : seen targets target = true) by now apply seen_In.
      rewrite Hseen, Hapi. reflexivity.
    + intros k v Hkv. now rewrite (Hconn k v Hkv).
  - intros before target after e -> Hbefore Hfail. now apply loop_stops.
Qed.

Lemma connections_of_the_targets_witness :
  exists api_connections,
    result (_init_api_connections Cases.configured ["T1"; "T1"] "user" "secret")
    = Ok api_connections
    /\ Dict.keys api_connections = ["T1"]
    /\ result (_init_api_connections Cases.configured ["T1"; "T2"; "T3"] "user" "secret")
       = Raise (Exn ValueError [Lit "URL scheme is not `https`; ";
                                Lit "http://T2.example.com/fmax"]).
Proof.
  destruct (connections_of_the_targets Cases.configured ["T1"; "T1"] "user" "secret")
    as (_ & Hok & _).
  destruct Hok as (conns & Hres & _ & Hkeys & _).
  { intros target [<-|[<-|[]]]; eexists; vm_compute; reflexivity. }
  exists conns. split; [exact Hres|]. split; [exact Hkeys|].
  apply (connections_of_the_targets Cases.configured ["T1"; "T2"; "T3"] "user" "secret")
    with (before := ["T1"]) (target := "T2") (after := ["T3"]).
  - reflexivity.
  - intros t [<-|[]]. eexists. vm_compute. reflexivity.
  - vm_compute. reflexivity.
Defined.
End Connections.

(** ** The entry point *)

Module MainFacts.
Import Main.

Lemma every_exception_is_caught (e : exn) : caught_by [Exception] e = true.
Proof. destruct e as [c msg]. destruct c; reflexivity. Qed.

Section WithEnv.
Variable env : Env.
Variable MAP_FILENAME : string.
Variables Parser Command : Type.
Variable CommandParser : FileMap.t -> M Parser.
Variable parse_args : Parser -> M (parsed Command).
Variable print_help : Parser -> M unit.
Variable execute : Command -> M unit.

Local Abbreviation main :=
  (Main.main env MAP_FILENAME Parser Command CommandParser parse_args print_help execute).

Lemma main_with_map (filemap : FileMap.t) :
  result (FileMap.init env MAP_FILENAME) = Ok filemap ->
  main
  = bind (trace (FileMap.init env MAP_FILENAME), Ok (Some filemap))
      (fun loaded =>
         match loaded with
         | None => ret (Exited 1)
         | Some filemap =>
             command_parser <- CommandParser filemap ;;
             command <- try_except
                          (command <- parse_args command_parser ;; ret (Some command))
                          [([ValueError],
                            fun e =>
                              log_error (exn_msg e) ;;;
                              print_help command_parser ;;;
                              ret None)] ;;
             match command with
             | Some (ArgparseExit status) => ret (Exited status)
             | Some (Parsed command) =>
                 try_except (execute command)
                            [([Exception], fun _ => raise (unbound_local "e"))] ;;;
                 ret Returned
             | None =>
                 try_except (raise (unbound_local "command") : M unit)
                            [([Exception], fun _ => raise (unbound_local "e"))] ;;;
                 ret Returned
             end
         end).
Proof.
  intros Hinit. unfold Main.main.
  rewrite (M_eta (FileMap.init env MAP_FILENAME)), Hinit.
  rewrite bind_pair_ok. cbn [ret trace result fst snd try_except]. now rewrite app_nil_r.
Qed.

Lemma guarded_execute {A} (m : M A) :
  bind (try_except m [([Exception], fun _ => raise (unbound_local "e"))])
       (fun _ => ret Returned)
  = (trace m, match result m with
              | Ok _ => Ok Returned
              | Raise _ => Raise (unbound_local "e")
              end).
Proof.
  destruct m as [t [a|e]]; cbn; [now rewrite app_nil_r|].
  rewrite every_exception_is_caught. cbn. now rewrite app_nil_r.
Qed.
End WithEnv.

(** X19.  [main] ends the script with status 1, after the message of the
    exception and the line [Fix file map errors], exactly for the
    failures of the file map that are a [FileNotFoundError] or a
    [ValueError]; the parser is not built and no command runs.  Every
    other exception of the construction of the file map leaves [main] as
    it is. *)
Theorem main_reports_file_map_errors (env : Env) (MAP_FILENAME : string)
        (Parser Command : Type)
        (CommandParser : FileMap.t -> M Parser) (parse_args : Parser -> M (parsed Command))
        (print_help : Parser -> M unit) (execute : Command -> M unit) (e : exn) :
  result (FileMap.init env MAP_FILENAME) = Raise e ->
  Main.main env MAP_FILENAME Parser Command CommandParser parse_args print_help execute
  = if caught_by [FileNotFoundError; ValueError] e
    then (trace (FileMap.init env MAP_FILENAME)
            ++ [Log ERROR (exn_msg e); Log ERROR [Lit "Fix file map errors"]],
          Ok (Exited 1))
    else (trace (FileMap.init env MAP_FILENAME), Raise e).
Proof.
  intros Hinit. unfold Main.main.
  rewrite (M_eta (FileMap.init env MAP_FILENAME)), Hinit.
  cbn [bind try_except dispatch].
  destruct (caught_by [FileNotFoundError; ValueError] e); cbn; [|reflexivity].
  now rewrite app_nil_r.
Qed.

Lemma main_reports_file_map_errors_witness :
  result (Main.main Cases.says_yes "filemap.json" unit unit
            (fun _ => ret tt) (fun _ => ret (Parsed tt)) (fun _ => ret tt) (fun _ => ret tt))
  = Ok (Exited 1).
Proof.
  rewrite (main_reports_file_map_errors Cases.says_yes "filemap.json" unit unit _ _ _ _
             (Exn ValueError
                [Lit "Initialize keys and values in new template file map created at $";
                 Lit "/repo/filemap.json"])).
  - reflexivity.
  - vm_compute. reflexivity.
Defined.

(** X20.  [main] never reports a failure of the command.  Once the file
    map is loaded and the parser is built: when the arguments give a
    command, [main] adds nothing to what the command does, and returns
    when the command returns, but raises [UnboundLocalError] for the name
    [e] whenever the command raises, whatever the exception; when the
    parsing raises a [ValueError], its message is logged and the help is
    printed, and then [main] raises the same [UnboundLocalError], as no
    command is bound; when [argparse] exits, so does [main]. *)
Theorem main_hides_execution_errors (env : Env) (MAP_FILENAME : string)
        (Parser Command : Type)
        (CommandParser : FileMap.t -> M Parser) (parse_args : Parser -> M (parsed Command))
        (print_help : Parser -> M unit) (execute : Command -> M unit)
        (filemap : FileMap.t) (command_parser : Parser) :
  result (FileMap.init env MAP_FILENAME) = Ok filemap ->
  result (CommandParser filemap) = Ok command_parser ->
  let main :=
    Main.main env MAP_FILENAME Parser Command CommandParser parse_args print_help execute in
  let before :=
    trace (FileMap.init env MAP_FILENAME) ++ trace (CommandParser filemap)
    ++ trace (parse_args command_parser) in
  (forall command,
      result (parse_args command_parser) = Ok (Parsed command) ->
      main = (before ++ trace (execute command),
              match result (execute command) with
              | Ok _ => Ok Returned
              | Raise _ => Raise (unbound_local "e")
              end))
  /\ (forall status,
        result (parse_args command_parser) = Ok (ArgparseExit status) ->
        main = (before, Ok (Exited status)))
  /\ (forall e,
        result (parse_args command_parser) = Raise e ->
        caught_by [ValueError] e = true ->
        result (print_help command_parser) = Ok tt ->
        main = (before ++ Log ERROR (exn_msg e) :: trace (print_help command_parser),
                Raise (unbound_local "e")))
  /\ (forall e,
        result (parse_args command_parser) = Raise e ->
        caught_by [ValueError] e = false ->
        main = (before, Raise e)).
Proof.
  intros Hinit Hparser main before. subst main before.
  rewrite (main_with_map env MAP_FILENAME Parser Command CommandParser parse_args print_help
             execute filemap Hinit).
  rewrite bind_pair_ok. cbn [trace result fst snd].
  rewrite (M_eta (CommandParser filemap)), Hparser, bind_pair_ok. cbn [trace result fst snd].
  split; [|split; [|split]].
  - intros command Hparse.
    rewrite (M_eta (parse_args command_parser)), Hparse, bind_pair_ok.
    cbn [ret trace result fst snd try_except]. rewrite bind_pair_ok.
    rewrite guarded_execute. cbn [trace result fst snd]. now rewrite !app_nil_r, !app_assoc.
  - intros status Hparse.
    rewrite (M_eta (parse_args command_parser)), Hparse, bind_pair_ok.
    cbn [ret trace result fst snd try_except]. rewrite bind_pair_ok.
    cbn [ret trace result fst snd]. now rewrite !app_nil_r, !app_assoc.
  - intros e Hparse Hcaught Hhelp.
    rewrite (M_eta (parse_args command_parser)), Hparse.
    cbn [bind try_except dispatch]. rewrite Hcaught.
    unfold log_error, emit. rewrite bind_pair_ok.
    rewrite (M_eta (print_help command_parser)), Hhelp, bind_pair_ok.
    cbn [ret trace result fst snd]. rewrite bind_pair_ok.
    rewrite guarded_execute. cbn [raise trace result fst snd].
    now rewrite !app_nil_r, <- !app_assoc.
  - intros e Hparse Hcaught.
    rewrite (M_eta (parse_args command_parser)), Hparse.
    cbn [bind try_except dispatch]. rewrite Hcaught. cbn. now rewrite !app_assoc.
Qed.

Lemma main_hides_execution_errors_witness :
  result (Main.main Examples.T2_unreachable "filemap.json" unit PushCommand.t
            (fun _ => ret tt) (fun _ => ret (Parsed Cases.push_T9)) (fun _ => ret tt)
            (PushCommand.execute Examples.T2_unreachable))
  = Raise (unbound_local "e").
Proof.
  destruct (main_hides_execution_errors Examples.T2_unreachable "filemap.json"
              unit PushCommand.t
              (fun _ => ret tt) (fun _ => ret (Parsed Cases.push_T9)) (fun _ => ret tt)
              (PushCommand.execute Examples.T2_unreachable)
              Examples.map_T1_T2 tt eq_refl eq_refl) as (Hcommand & _).
  rewrite (Hcommand Cases.push_T9 eq_refl). reflexivity.
Defined.
End MainFacts.

(** ** Show: the versions of a target *)

Module Show.
Import ShowCommand.

Section WithEnv.
Variable env : Env.
Variable requests_put : string -> pyval -> string * string -> res Response.t.
Variable self : t.
Variable api : APIAdaptor.t.

Local Abbreviation ask :=
  (fun (version_map : dict pyval) '(filename, doc_id) =>
     try_except
       (query_results <-
          find_list env requests_put api "AeDocumentVersion"
                    (fst (FindListQueryBuilder.to_dict (key_query doc_id))) ;;
        dto_results <- lift (get_results query_results) ;;
        doc_ver_keys <- lift (first_or_none dto_results) ;;
        if truthy doc_ver_keys
        then ret (Dict.set filename doc_ver_keys version_map)
        else ret version_map)
       [([RequestException],
         fun e =>
           log_error (Lit "Error getting most recent version of " :: Lit filename
                        :: Lit " from API: " :: exn_msg e) ;;;
           ret version_map)]).

Lemma find_list_result (doc_id : string) :
  result (find_list env requests_put api "AeDocumentVersion"
                    (fst (FindListQueryBuilder.to_dict (key_query doc_id))))
  = version_answer env requests_put api doc_id.
Proof.
  unfold find_list, version_answer, versions_endpoint.
  rewrite !result_bind. cbn [log_debug emit result snd].
  change ("crud/dto/list/" ++ "AeDocumentVersion")%string
    with "crud/dto/list/AeDocumentVersion".
  destruct (requests_put _ _ _) as [response|e]; reflexivity.
Qed.

Lemma ask_expected (version_map : dict pyval) (filename doc_id : string) :
  answers_as_expected env requests_put api doc_id ->
  result (ask version_map (filename, doc_id))
  = Ok (match latest_version env requests_put api doc_id with
        | Some doc_ver_keys => Dict.set filename doc_ver_keys version_map
        | None => version_map
        end)
  /\ forall e, version_answer env requests_put api doc_id = Raise e ->
               In (version_error_line filename e) (trace (ask version_map (filename, doc_id))).
Proof.
  unfold answers_as_expected, latest_version. cbn beta iota.
  pose proof (find_list_result doc_id) as Hfind.
  destruct (find_list env requests_put api "AeDocumentVersion" _) as [tf rf].
  cbn [result snd] in Hfind. subst rf.
  destruct (version_answer env requests_put api doc_id) as [query_results|e].
  - intros (doc_ver_keys & Hkeys). split; [|discriminate].
    rewrite bind_pair_ok. unfold res_bind in Hkeys.
    destruct (get_results query_results) as [dto_results|e]; [|discriminate].
    cbn [res_bind]. rewrite bind_lift_ok, Hkeys, bind_lift_ok.
    destruct (truthy doc_ver_keys); reflexivity.
  - intros Hnet. cbn [bind try_except dispatch]. rewrite (network_error_caught e Hnet).
    cbn. split; [reflexivity|]. intros e' He'. inversion He'; subst e'.
    apply in_or_app. right. now left.
Qed.

Lemma ask_all (profiles : dict string) (version_map : dict pyval) :
  (forall filename doc_id, In (filename, doc_id) profiles ->
                           answers_as_expected env requests_put api doc_id) ->
  result (for_each ask profiles version_map)
  = Ok (Dict.set_all (versions_found env requests_put api profiles) version_map).
Proof.
  revert version_map. induction profiles as [|[filename doc_id] rest IH];
    intros version_map Hall; [reflexivity|].
  cbn [for_each]. rewrite result_bind.
  destruct (ask_expected version_map filename doc_id (Hall _ _ (or_introl eq_refl)))
    as [-> _].
  rewrite IH by (intros f d Hin; apply (Hall f d); now right).
  cbn [versions_found flat_map]. fold (versions_found env requests_put api rest).
  destruct (latest_version env requests_put api doc_id); reflexivity.
Qed.

Lemma ask_escapes (version_map : dict pyval) (filename doc_id : string) (v : pyval) :
  version_answer env requests_put api doc_id = Ok v ->
  (forall d, v <> PDict d) ->
  result (ask version_map (filename, doc_id)) = Raise (has_no_attribute v "get").
Proof.
  intros Hanswer Hnodict. cbn beta iota.
  pose proof (find_list_result doc_id) as Hfind.
  destruct (find_list env requests_put api "AeDocumentVersion" _) as [tf rf].
  cbn [result snd] in Hfind. subst rf. rewrite Hanswer, bind_pair_ok.
  destruct v; try reflexivity. now destruct (Hnodict d).
Qed.

Lemma versions_found_keys (profiles : dict string) (filename : string) :
  In filename (map fst (versions_found env requests_put api profiles)) ->
  In filename (map fst profiles).
Proof.
  induction profiles as [|[f d] rest IH]; [tauto|].
  cbn [versions_found flat_map]. fold (versions_found env requests_put api rest).
  rewrite map_app, in_app_iff. intros [H|H]; [|right; now apply IH].
  destruct (latest_version env requests_put api d); [|destruct H].
  destruct H as [H|[]]. now left.
Qed.

Lemma versions_found_NoDup (profiles : dict string) :
  NoDup (map fst profiles) ->
  NoDup (map fst (versions_found env requests_put api profiles)).
Proof.
  induction profiles as [|[f d] rest IH]; cbn [map fst]; [constructor|].
  intros Hnd. apply NoDup_cons in Hnd as [Hnotin Hnd].
  cbn [versions_found flat_map]. fold (versions_found env requests_put api rest).
  rewrite map_app. destruct (latest_version env requests_put api d); cbn; [|now apply IH].
  apply NoDup_cons. split; [|now apply IH].
  intros Hin. apply Hnotin, list_elem_of_In, versions_found_keys. now apply list_elem_of_In.
Qed.

Lemma versions_found_In (profiles : dict string) (filename : string) (v : pyval) :
  In (filename, v) (versions_found env requests_put api profiles) <->
  exists doc_id, In (filename, doc_id) profiles
                 /\ latest_version env requests_put api doc_id = Some v.
Proof.
  unfold versions_found. rewrite in_flat_map. split.
  - intros ([f d] & Hin & Hentry). destruct (latest_version env requests_put api d) eqn:Hl;
      [|destruct Hentry]. destruct Hentry as [Heq|[]]. inversion Heq; subst. eauto.
  - intros (doc_id & Hin & Hl). exists (filename, doc_id). split; [exact Hin|].
    rewrite Hl. now left.
Qed.
End WithEnv.

(** X21.  The listing of the versions of a target takes the files one by
    one.  When every answer is a failure of the network or an object
    whose results can be indexed, it returns; the version map has an entry
    exactly for the files of the profiles whose answer holds a first
    result that is a true value, and the entry is that result; a file
    whose request failed leaves an error line and no entry, and does not
    stop the files after it. *)
Theorem versions_of_a_target (env : Env)
        (requests_put : string -> pyval -> string * string -> res Response.t)
        (self : t) (target : string) (api : APIAdaptor.t) (profiles : dict string) :
  FileMap.get_document_profiles (filemap self) target = Ok (Some profiles) ->
  Dict.wf profiles ->
  (forall filename doc_id, In (filename, doc_id) profiles ->
                           answers_as_expected env requests_put api doc_id) ->
  exists version_map,
    result (_get_current_versions_from_target env requests_put self target api)
    = Ok version_map
    /\ (forall filename v,
          Dict.get filename version_map = Some v <->
          exists doc_id, In (filename, doc_id) profiles
                         /\ latest_version env requests_put api doc_id = Some v)
    /\ (forall filename doc_id e,
          In (filename, doc_id) profiles ->
          version_answer env requests_put api doc_id = Raise e ->
          In (version_error_line filename e)
             (trace (_get_current_versions_from_target env requests_put self target api))
          /\ latest_version env requests_put api doc_id = None).
Proof.
  intros Hprofiles Hwf Hall.
  pose proof (versions_found_NoDup env requests_put api profiles Hwf) as Hnd.
  exists (versions_found env requests_put api profiles).
  unfold _get_current_versions_from_target. rewrite Hprofiles, bind_lift_ok.
  split; [|split].
  - rewrite (ask_all env requests_put api profiles [] Hall).
    rewrite DictFacts.set_all_fresh; [reflexivity|exact Hnd|]. intros k _ [].
  - intros filename v. rewrite DictFacts.get_In by exact Hnd. apply versions_found_In.
  - intros filename doc_id e Hin Hfail. split; [|unfold latest_version; now rewrite Hfail].
    apply (Turns.In_for_each _ _ (filename, doc_id)); [|exact Hin|].
    + intros vm [f d] Hfd.
      destruct (ask_expected env requests_put api vm f d (Hall f d Hfd)) as [-> _]. eauto.
    + intros vm.
      destruct (ask_expected env requests_put api vm filename doc_id (Hall _ _ Hin))
        as [_ Hline]. now apply Hline.
Qed.

Lemma versions_of_a_target_witness :
  result (_get_current_versions_from_target Examples.T2_unreachable Cases.put_latest
            Cases.show_T1 "T1" (Examples.adaptor "T1"))
  = Ok [("file.js", Examples.version_7)].
Proof.
  destruct (versions_of_a_target Examples.T2_unreachable Cases.put_latest Cases.show_T1
              "T1" (Examples.adaptor "T1") [("file.js", "docId123")])
    as (version_map & Hres & _).
  - reflexivity.
  - apply (bool_decide_unpack _). vm_compute. exact I.
  - intros filename doc_id _. eexists. vm_compute. reflexivity.
  - rewrite Hres. vm_compute in Hres. inversion Hres. reflexivity.
Defined.

(** X22.  An answer that is no object ends the listing: when the server
    answers the query for a file of the target with a response that the
    handler lets through and whose normalised body is not a dictionary
    (an empty body, a page of text), the listing of the target raises
    instead of returning a version map, and so does the listing of all
    targets when the target is one of the connections: the loop over the
    files catches the errors of [requests] only, not the
    [AttributeError] of reading the results of such an answer. *)
Theorem answer_without_object_ends_the_listing (env : Env)
        (requests_put : string -> pyval -> string * string -> res Response.t)
        (self : t) (target : string) (api : APIAdaptor.t) (profiles : dict string)
        (filename doc_id : string) (v : pyval) :
  FileMap.get_document_profiles (filemap self) target = Ok (Some profiles) ->
  In (filename, doc_id) profiles ->
  version_answer env requests_put api doc_id = Ok v ->
  (forall d, v <> PDict d) ->
  (exists e,
      result (_get_current_versions_from_target env requests_put self target api) = Raise e)
  /\ (In (target, api) (api_connections self) ->
      exists e, result (_get_current_versions env requests_put self) = Raise e).
Proof.
  intros Hprofiles Hin Hanswer Hnodict.
  assert (Htarget : exists e,
             result (_get_current_versions_from_target env requests_put self target api)
             = Raise e).
  { unfold _get_current_versions_from_target. rewrite Hprofiles, bind_lift_ok.
    apply (Turns.for_each_raises _ _ (filename, doc_id) [] Hin). intros vm.
    exists (has_no_attribute v "get").
    exact (ask_escapes env requests_put api vm filename doc_id v Hanswer Hnodict). }
  split; [exact Htarget|]. intros Hconn. unfold _get_current_versions.
  apply (Turns.for_each_raises _ _ (target, api) [] Hconn). intros responses.
  destruct Htarget as (e & He). exists e. cbn beta iota. now rewrite result_bind, He.
Qed.

Lemma answer_without_object_ends_the_listing_witness :
  exists e,
    result (_get_current_versions Examples.T2_unreachable Cases.put_nothing Cases.show_T1)
    = Raise e.
Proof.
  apply (answer_without_object_ends_the_listing
           Examples.T2_unreachable Cases.put_nothing Cases.show_T1
           "T1" (Examples.adaptor "T1") [("file.js", "docId123")] "file.js" "docId123" PNone).
  - reflexivity.
  - now left.
  - vm_compute. reflexivity.
  - discriminate.
  - now left.
Defined.
End Show.

(** ** Push: a file that cannot be read *)

Module Unreadable.
Import PushCommand Traces.

Lemma no_acts {A} (m : M A) : always (fun ev => is_act ev = false) m -> acts (trace m) = [].
Proof.
  unfold always. induction 1 as [|ev l Hev _ IH]; [reflexivity|].
  rewrite Gate.acts_cons, Hev. exact IH.
Qed.

Lemma mapped_files_no_acts (env : Env) (filemap : FileMap.t) (profiles : dict string) :
  acts (trace (FileMap.get_mapped_files env filemap profiles)) = [].
Proof. apply no_acts, always_get_mapped_files. reflexivity. Qed.

Lemma os_error_is_caught (e : exn) :
  issubclass (exn_cls e) OSError = true ->
  caught_by [RequestException] e = true
  \/ (caught_by [RequestException] e = false
      /\ caught_by [FileNotFoundError; IsADirectoryError; NotADirectoryError; OSError] e
         = true).
Proof.
  destruct e as [c msg]. destruct c; cbn; intros H; try discriminate H;
    (left; reflexivity) || (right; split; reflexivity).
Qed.

(** X25.  The reading of the mapped files stops at the first file that
    cannot be read for another reason than being absent: the exception of
    that file is raised as it is, after the lines of the files before it,
    and the files after it are not opened. *)
Theorem first_unreadable_file_stops_the_reading (env : Env) (filemap : FileMap.t)
        (before after : dict string) (filename doc_id : string) (e : exn) :
  readable_or_missing env (FileMap.tldir filemap) before ->
  open_read env (PyPath.join (FileMap.tldir filemap) filename) = Raise e ->
  caught_by [FileNotFoundError] e = false ->
  FileMap.get_mapped_files env filemap (before ++ (filename, doc_id) :: after)
  = (materialise_lines env (FileMap.tldir filemap) before, Raise e).
Proof.
  intros Hbefore Hread Hother. unfold FileMap.get_mapped_files.
  pose proof (Materialise.get_mapped_files_from env filemap before [] Hbefore) as Hlines.
  cbv zeta in Hlines. rewrite for_each_app, Hlines.
  rewrite bind_pair_ok. cbn [for_each]. rewrite Hread.
  cbn [lift bind try_except dispatch]. rewrite Hother. cbn. now rewrite app_nil_r.
Qed.

Lemma first_unreadable_file_stops_the_reading_witness :
  FileMap.get_mapped_files Examples.secret_unreadable Examples.map_T1_T3
    [("file.js", "docId123"); ("secret.js", "docId9")]
  = ([Log INFO [Lit "Added file: "; Lit "/repo/file.js"]], Raise Examples.permission_denied).
Proof.
  apply (first_unreadable_file_stops_the_reading
           Examples.secret_unreadable Examples.map_T1_T3
           [("file.js", "docId123")] [] "secret.js" "docId9" Examples.permission_denied).
  - intros f d [H|[]]. inversion H. exact I.
  - reflexivity.
  - reflexivity.
Defined.

(** X23.  A mapped file that cannot be read, for another reason than
    being absent, is taken by the loop for a failure it is prepared for:
    nothing is sent or mirrored for the target, and the loop goes on with
    the response that the previous turn left:
    the target is entered with that response when it is a true value, and
    when no turn has left one the push ends with [UnboundLocalError]. *)
Theorem unreadable_file_reuses_the_response (env : Env) (self : t) (target : string)
        (api : APIAdaptor.t) (profiles : dict string) (e : exn)
        (client_data : dict pyval) (st : send_state) :
  accepted env target = true ->
  FileMap.get_document_profiles (filemap self) target = Ok (Some profiles) ->
  result (FileMap.get_mapped_files env (filemap self) profiles) = Raise e ->
  issubclass (exn_cls e) OSError = true ->
  acts (trace (send_one env self client_data st (target, api))) = [Input (prompt_of target)]
  /\ result (send_one env self client_data st (target, api))
     = match response st with
       | None => Raise (unbound_local "response")
       | Some r =>
           Ok (mk_send (Some r)
                       (if truthy r then Dict.set target r (target_responses st)
                        else target_responses st))
       end.
Proof.
  intros Hacc Hprofiles Hread Hos. unfold send_one.
  rewrite (Send.continue_Yn_shape env target), bind_pair_ok, Hacc. cbn [negb].
  assert (Hpost : _post_files_to_target env self target api client_data
                  = (trace (FileMap.get_mapped_files env (filemap self) profiles), Raise e)).
  { unfold _post_files_to_target. rewrite Hprofiles, bind_lift_ok.
    rewrite (M_eta (FileMap.get_mapped_files env (filemap self) profiles)) at 1.
    rewrite Hread. reflexivity. }
  rewrite Hpost. cbn [bind try_except dispatch send_clauses].
  pose proof (mapped_files_no_acts env (filemap self) profiles) as Hquiet.
  destruct (os_error_is_caught e Hos) as [Hnet|[Hnet Hfs]]; rewrite Hnet; [|rewrite Hfs];
    cbn [log_error emit ret raise bind app trace result fst snd];
    destruct (response st) as [r|];
    cbn [log_error emit ret raise bind app trace result fst snd];
    try destruct (truthy r);
    cbn [log_error emit ret raise bind app trace result fst snd];
    (split; [Gate.show_acts; rewrite ?Hquiet; reflexivity|reflexivity]).
Qed.

Lemma unreadable_file_reuses_the_response_witness :
  result (send_one Examples.file_unreadable Examples.push_T1_T2 [] (mk_send None [])
                   ("T1", Examples.adaptor "T1"))
  = Raise (unbound_local "response").
Proof.
  apply (unreadable_file_reuses_the_response
           Examples.file_unreadable Examples.push_T1_T2 "T1" (Examples.adaptor "T1")
           [("file.js", "docId123")] Examples.permission_denied [] (mk_send None [])).
  - reflexivity.
  - reflexivity.
  - reflexivity.
  - reflexivity.
Defined.
End Unreadable.

(** ** Push: the order of the effects *)

Module Order.
Import PushCommand Traces.

Lemma send_clauses_acts {A} (m : M A) (api : APIAdaptor.t) (target : string) (keep : A) :
  acts (trace (try_except m (send_clauses api target keep))) = acts (trace m).
Proof.
  destruct m as [t [a|e]]; [reflexivity|]. cbn [try_except dispatch send_clauses].
  destruct (caught_by [RequestException] e); [cbn; Gate.show_acts; reflexivity|].
  destruct (caught_by _ e); cbn; Gate.show_acts; reflexivity.
Qed.

Lemma materialise_lines_acts (env : Env) (tld : string) (profiles : dict string) :
  acts (materialise_lines env tld profiles) = [].
Proof.
  induction profiles as [|[f d] rest IH]; [reflexivity|].
  cbn [materialise_lines map]. rewrite Gate.acts_cons.
  destruct (open_read env _); exact IH.
Qed.

Section WithPush.
Variable env : Env.
Variable self : t.

Lemma copy_acts_eq (target : string) :
  acts (trace (_copy_files_to_target env self target (client_data env self)))
  = copy_acts env self target.
Proof.
  unfold _copy_files_to_target, copy_acts.
  destruct (FileMap.get_module_directory (filemap self) target) as [[dirname|]|e];
    [| reflexivity | reflexivity].
  rewrite bind_lift_ok. change (default "" (Some dirname)) with dirname.
  destruct (PyStr.nonempty dirname); cbn [negb]; [|reflexivity].
  fold (local_twin self dirname). unfold emit. rewrite bind_pair_ok. cbn [trace fst].
  destruct (mirror env (local_twin self dirname) dirname) as [[]|e]; [|reflexivity].
  rewrite bind_lift_ok.
  unfold client_data at 1. cbn [Dict.get String.eqb Ascii.eqb Bool.eqb].
  destruct (git_output env ["git"; "rev-parse"; "HEAD"]) as [sha|]; cbn [opt_str];
    [|reflexivity].
  rewrite bind_pair_ok. cbn [trace fst].
  destruct (open_write env _ _) as [[]|e]; reflexivity.
Qed.

Hypothesis prepared : prepared_for_failures env self.

Lemma post_acts (target : string) (api : APIAdaptor.t) :
  In (target, api) (api_connections self) ->
  acts (trace (_post_files_to_target env self target api (client_data env self)))
  = [Post (endpoint_of env api) (params_of self api) (submitted_files env self target)].
Proof.
  intros Hin.
  destruct (Send.profiles_of_mapped env self prepared target api Hin)
    as (props & _ & Hgdp & Hread).
  unfold _post_files_to_target. rewrite Hgdp, bind_lift_ok.
  unfold FileMap.get_mapped_files. rewrite Materialise.get_mapped_files_from by exact Hread.
  rewrite bind_pair_ok. cbn [trace fst].
  fold (submitted_files env self target).
  rewrite Gate.acts_app, materialise_lines_acts. cbn [app].
  unfold post_files. fold (endpoint_of env api). fold (params_of self api).
  change (requests_post env (endpoint_of env api) (APIAdaptor.auth api) (params_of self api)
                        (submitted_files env self target))
    with (answer env self target api).
  destruct (answer env self target api) as [response|e] eqn:Hanswer.
  - pose proof (Unreadable.no_acts _ (always_response_hander (fun _ _ => eq_refl) response))
      as Hquiet.
    destruct (Send.response_hander_shape response)
      as (logs & _ & [(v & Hh)|(e & Hh & Hnet)]); rewrite Hh in Hquiet; cbn in Hquiet.
    + unfold log_debug, emit, lift, bind, try_except. rewrite Hh. cbn.
      Gate.show_acts. now rewrite Hquiet.
    + unfold log_debug, emit, lift, bind, try_except. rewrite Hh. cbn.
      rewrite (network_error_caught _ Hnet). cbn. Gate.show_acts. now rewrite Hquiet.
  - pose proof (requests_fail_by_network env self prepared _ _ _ _ _ Hanswer) as Hnet.
    unfold log_debug, emit, lift, bind, try_except. cbn.
    rewrite (network_error_caught _ Hnet). cbn. Gate.show_acts. reflexivity.
Qed.

Lemma turn_acts_eq (st : send_state) (target : string) (api : APIAdaptor.t) :
  In (target, api) (api_connections self) ->
  acts (trace (send_one env self (client_data env self) st (target, api)))
  = turn_acts env self (target, api).
Proof.
  intros Hin. unfold send_one, turn_acts. cbn [fst snd].
  rewrite (Send.continue_Yn_shape env target), bind_pair_ok. cbn [trace fst].
  rewrite Gate.acts_app. cbn [app]. change (acts [Input (prompt_of target)])
    with [Input (prompt_of target)]. cbn [app]. f_equal.
  destruct (accepted env target); cbn [negb]; [|reflexivity].
  destruct (Send.post_shape env self prepared target api Hin) as (tp & Hpost & _).
  pose proof (post_acts target api Hin) as Hpacts. rewrite Hpost in Hpacts.
  cbn [trace fst] in Hpacts.
  rewrite Hpost, bind_pair_ok. cbn [ret trace result fst snd try_except].
  rewrite bind_pair_ok. cbn [trace fst]. rewrite app_nil_r, Gate.acts_app, Hpacts.
  cbn [app]. f_equal.
  rewrite trace_bind.
  pose proof (send_clauses_acts (_copy_files_to_target env self target (client_data env self))
                                api target tt) as Hcopy.
  rewrite copy_acts_eq in Hcopy.
  destruct (try_except (_copy_files_to_target env self target (client_data env self))
                       (send_clauses api target tt)) as [tc [[]|e]];
    cbn [trace fst] in Hcopy.
  - rewrite bind_pair_ok. cbn [ret trace result fst snd]. rewrite app_nil_r.
    destruct (truthy (submit_outcome env self target api)); cbn; Gate.show_acts;
      now rewrite Hcopy.
  - cbn. exact Hcopy.
Qed.

Lemma send_loop_acts (l : dict APIAdaptor.t) (st : send_state) :
  (forall kv, In kv l -> In kv (api_connections self)) ->
  acts (trace (for_each (send_one env self (client_data env self)) l st))
  = flat_map (turn_acts env self) l.
Proof.
  revert st. induction l as [|[target api] rest IH]; intros st Hsub; [reflexivity|].
  cbn [for_each flat_map]. rewrite trace_bind.
  destruct (Send.send_one_shape env self prepared st target api (Hsub _ (or_introl eq_refl)))
    as (t1 & Hone & _).
  pose proof (turn_acts_eq st target api (Hsub _ (or_introl eq_refl))) as Hturn.
  rewrite Hone in *. cbn [trace result fst snd] in *.
  rewrite Gate.acts_app, Hturn, IH by (intros kv Hkv; apply Hsub; now right). reflexivity.
Qed.
End WithPush.

(** X24.  A push that is prepared for failures serves its targets one
    after the other, in the order of the connections.  After the three
    git queries for the client data, each target is asked about exactly
    once; an accepted target is sent exactly one request, before its
    module directory is mirrored and the commit file is written; a
    declined target gets nothing; and nothing else is asked, sent,
    mirrored, written or run. *)
Theorem targets_are_served_in_order (env : Env) (self : t) :
  prepared_for_failures env self ->
  acts (trace (_send_all env self))
  = [Run ["git"; "rev-parse"; "HEAD"];
     Run ["git"; "rev-parse"; "--abbrev-ref"; "HEAD"];
     Run ["git"; "log"; "-1"; "--pretty=%B"]]
    ++ flat_map (turn_acts env self) (api_connections self).
Proof.
  intros Hprep. unfold _send_all.
  destruct (Gate.client_data_acts env self) as (t0 & Hcd & H0).
  rewrite Hcd, bind_pair_ok. cbn [trace fst].
  rewrite trace_bind.
  pose proof (send_loop_acts env self Hprep (api_connections self) (mk_send None [])
                        (fun kv H => H)) as Hloop.
  destruct (for_each _ _ _) as [t1 [st|e]]; cbn [trace result fst snd] in *.
  - Gate.show_acts. now rewrite H0, Hloop.
  - Gate.show_acts. now rewrite H0, Hloop.
Qed.

Lemma targets_are_served_in_order_witness :
  acts (trace (_send_all Examples.T2_unreachable Examples.push_T1_T2))
  = [Run ["git"; "rev-parse"; "HEAD"];
     Run ["git"; "rev-parse"; "--abbrev-ref"; "HEAD"];
     Run ["git"; "log"; "-1"; "--pretty=%B"]]
    ++ flat_map (turn_acts Examples.T2_unreachable Examples.push_T1_T2)
                (api_connections Examples.push_T1_T2).
Proof.
  apply (targets_are_served_in_order Examples.T2_unreachable Examples.push_T1_T2).
  exact Send.T2_unreachable_prepared.
Defined.
End Order.
